(** * The changelog-automation pipeline of monorepo-utils

    A shallow embedding of [tools/monorepo-utils/src/changefile/index.ts]:
    the action of the [changefile] command.  The action is a sequential
    asynchronous script that talks to collaborators (the hosting API, git,
    the file system, child processes, the logger).  It is embedded as a
    computation in a small monad that threads the trace of calls made so
    far and distinguishes three ways a computation can stop: it returns,
    it throws (a rejected promise or a failing [execSync]), or it ends the
    process with [process.exit]. *)

From Stdlib Require Import String Ascii List Bool ZArith Lia Sorted.
Import ListNotations.
Local Open Scope list_scope.
Local Open Scope string_scope.

Set Implicit Arguments.

(** ** Data *)

(** A thrown JavaScript value; only its text is ever used (it is logged). *)
Definition Err := string.

(** The object destructured on lines 56-57. *)
Record PullRequestData := {
  prBody : string;
  headOwner : string;
  branch : string;
  fileName : string;
  head : string;
  base : string
}.

(** The object destructured on lines 69-70.  [message] and [comment] are
    optional: they are tested for truthiness before use. *)
Record ChangelogDetails := {
  significance : string;
  type : string;
  message : option string;
  comment : option string
}.

(** The options object of the command (lines 46-50). *)
Record Options := {
  owner : string;
  name : string;
  devRepoPath : option string
}.

(** JavaScript truthiness of an optional string: [undefined] and the empty
    string are falsy. *)
Definition truthy (s : option string) : bool :=
  match s with
  | Some s' => negb (s' =? EmptyString)
  | None => false
  end.

(** The text an optional string contributes to a template literal once it
    is known to be truthy. *)
Definition text (s : option string) : string :=
  match s with
  | Some s' => s'
  | None => "undefined"
  end.

(** The double-quote character, as a one-character string. *)
Definition dq : string := String "034"%char EmptyString.

(** ** Calls and traces *)

(** One event per call the action makes to a collaborator, carrying the
    arguments and, where the call has one, its result: [inl e] or [Some e]
    is a call that threw [e]. *)
Inductive Event :=
| Logger_startTask (msg : string)
| Logger_endTask
| Logger_notice (msg : string)
| Logger_error (e : Err)
| Call_getPullRequestData (o n prNumber : string) (r : Err + PullRequestData)
| Call_shouldAutomateChangelog (body : string) (r : bool)
| Call_getChangelogDetails (body : string) (r : Err + ChangelogDetails)
| Call_cloneAuthenticatedRepo (o n : string) (isShallow : bool) (r : Err + string)
| Call_checkoutRemoteBranch (path br : string) (r : option Err)
| Call_getTouchedProjectsRequiringChangelog
    (path b h file o n : string) (r : Err + list string)
| Call_getAllProjectPaths (path : string) (r : Err + list string)
| Call_existsSync (path : string) (r : bool)
| Call_execSync (cmd cwd : string) (r : option Err)
| Call_simpleGit (baseDir : string) (config : list string)
| Call_isGithubCI (r : bool)
| Git_raw (args : list string) (r : Err + string)
| Git_add (files : string) (r : option Err)
| Git_commit (msg : string) (r : option Err)
| Git_push (remote br : string) (r : option Err)
| Process_exit (code : Z).

Definition Trace := list Event.

(** ** The collaborators

    Everything imported on lines 4-24 lives outside this file.  A run is
    taken against an arbitrary environment that answers each call.  The
    helpers that are called at most once in a run answer from their
    arguments; [existsSync], [execSync] and the git client can be called
    several times, so their answers may also depend on the calls made
    before. *)
Record Env := {
  getPullRequestData : string -> string -> string -> Err + PullRequestData;
  shouldAutomateChangelog : string -> bool;
  getChangelogDetails : string -> Err + ChangelogDetails;
  cloneAuthenticatedRepo : string -> string -> bool -> Err + string;
  checkoutRemoteBranch : string -> string -> option Err;
  getTouchedProjectsRequiringChangelog :
    string -> string -> string -> string -> string -> string -> Err + list string;
  getAllProjectPaths : string -> Err + list string;
  isGithubCI : bool;
  nodePath_join : list string -> string;
  existsSync : Trace -> string -> bool;
  execSync : Trace -> string -> string -> option Err;
  git_raw : Trace -> list string -> Err + string;
  git_add : Trace -> string -> option Err;
  git_commit : Trace -> string -> option Err;
  git_push : Trace -> string -> string -> option Err
}.

(** ** The monad *)

Inductive outcome (A : Type) :=
| Done (a : A)
| Thrown (e : Err)
| Exited (code : Z).

Arguments Thrown {A} e.
Arguments Exited {A} code.

Definition M (A : Type) := Trace -> outcome A * Trace.

Definition ret {A} (a : A) : M A := fun t => (Done a, t).

Definition bind {A B} (m : M A) (k : A -> M B) : M B :=
  fun t =>
    match m t with
    | (Done a, t') => k a t'
    | (Thrown e, t') => (Thrown e, t')
    | (Exited c, t') => (Exited c, t')
    end.

Notation "x <- m ;; k" := (bind m (fun x => k))
  (at level 61, m at next level, right associativity).
Notation "m ;; k" := (bind m (fun _ => k))
  (at level 61, right associativity).

(** A call that cannot fail. *)
Definition emit (ev : Event) : M unit := fun t => (Done tt, (t ++ [ev])%list).

(** A call that returns a value or throws. *)
Definition call {A} (ask : Trace -> Err + A) (mk : Err + A -> Event) : M A :=
  fun t =>
    match ask t with
    | inr a => (Done a, (t ++ [mk (inr a)])%list)
    | inl e => (Thrown e, (t ++ [mk (inl e)])%list)
    end.

(** A call that returns nothing or throws. *)
Definition call_void (ask : Trace -> option Err) (mk : option Err -> Event) : M unit :=
  fun t =>
    match ask t with
    | None => (Done tt, (t ++ [mk None])%list)
    | Some e => (Thrown e, (t ++ [mk (Some e)])%list)
    end.

(** A call that returns a boolean. *)
Definition call_bool (ask : Trace -> bool) (mk : bool -> Event) : M bool :=
  fun t => let b := ask t in (Done b, (t ++ [mk b])%list).

(** [process.exit( code )]: the process ends there; no [catch] sees it. *)
Definition process_exit {A} (code : Z) : M A :=
  fun t => (Exited code, (t ++ [Process_exit code])%list).

(** [try { body } catch ( e ) { handler }] *)
Definition try_catch (body : M unit) (handler : Err -> M unit) : M unit :=
  fun t =>
    match body t with
    | (Thrown e, t') => handler e t'
    | r => r
    end.

(** [Array.prototype.forEach] with a callback that may throw: the first
    throw leaves the loop. *)
Fixpoint forEach {A} (l : list A) (f : A -> M unit) : M unit :=
  match l with
  | [] => ret tt
  | x :: l' => f x ;; forEach l' f
  end.

(** [if ( c ) { m }] *)
Definition when (c : bool) (m : M unit) : M unit :=
  if c then m else ret tt.

(** Modelled from the spec: the logger ([../core/logger]) is not among the
    sources; section 2 of the specification lists process-wide logging as
    an external collaborator and section 4.4 says a caught failure is
    "caught and logged".  Each logger method records its call and
    returns. *)
Module Logger.

Definition startTask (msg : string) : M unit := emit (Logger_startTask msg).
Definition endTask : M unit := emit Logger_endTask.
Definition notice (msg : string) : M unit := emit (Logger_notice msg).
Definition error (e : Err) : M unit := emit (Logger_error e).

End Logger.

(** ** The action *)

Section Action.

Variable env : Env.

(** The callback of the first [forEach] (lines 111-129). *)
Definition removeExistingChangelog (tmpRepoPath file projectPath : string) : M unit :=
  let path := nodePath_join env [tmpRepoPath; projectPath; "changelog"; file] in
  ex <- call_bool (fun t => existsSync env t path) (Call_existsSync path) ;;
  when ex
    (Logger.notice ("Remove existing changelog file " ++ path) ;;
     call_void (fun t => execSync env t ("rm " ++ path) tmpRepoPath)
               (Call_execSync ("rm " ++ path) tmpRepoPath)).

(** The command string of line 157. *)
Definition changelogCmd (project file : string) (d : ChangelogDetails) : string :=
  let messageExpression :=
    if truthy (message d) then "-e " ++ dq ++ text (message d) ++ dq else EmptyString in
  let commentExpression :=
    if truthy (comment d) then "-c " ++ dq ++ text (comment d) ++ dq else EmptyString in
  "pnpm --filter=" ++ project ++ " run changelog add -f " ++ file
    ++ " -s " ++ significance d ++ " -t " ++ type d
    ++ " " ++ messageExpression ++ " " ++ commentExpression ++ " -n".

(** The callback of the second [forEach] (lines 147-159). *)
Definition runChangelogCommand
    (tmpRepoPath file : string) (d : ChangelogDetails) (project : string) : M unit :=
  Logger.notice ("Running changelog command for " ++ project) ;;
  call_void (fun t => execSync env t (changelogCmd project file d) tmpRepoPath)
            (Call_execSync (changelogCmd project file d) tmpRepoPath).

(** The body of the [try] block (lines 106-159). *)
Definition reconcileAndGenerate
    (tmpRepoPath file : string) (dev : option string) (d : ChangelogDetails)
    (touched : list string) : M unit :=
  allProjectPaths <-
    call (fun _ => getAllProjectPaths env tmpRepoPath)
         (Call_getAllProjectPaths tmpRepoPath) ;;
  Logger.notice
    "Removing existing changelog files in case a change is reverted and the entry is no longer needed" ;;
  forEach allProjectPaths (removeExistingChangelog tmpRepoPath file) ;;
  when (Nat.eqb (List.length touched) 0)
    (Logger.notice "No projects require a changelog" ;;
     process_exit 0) ;;
  when (negb (truthy dev))
    (Logger.notice ("Installing dependencies in " ++ tmpRepoPath) ;;
     call_void (fun t => execSync env t "pnpm install" tmpRepoPath)
               (Call_execSync "pnpm install" tmpRepoPath)) ;;
  forEach touched (runChangelogCommand tmpRepoPath file d).

(** The statements after the [try] statement (lines 164-203). *)
Definition commitAndPush (tmpRepoPath br : string) (touched : list string) : M unit :=
  Logger.notice ("Changelogs created for " ++ String.concat ", " touched) ;;
  emit (Call_simpleGit tmpRepoPath ["core.hooksPath=/dev/null"]) ;;
  ci <- call_bool (fun _ => isGithubCI env) Call_isGithubCI ;;
  when ci
    (_ <- call (fun t => git_raw env t
                  ["config"; "--global"; "user.email"; "github-actions@github.com"])
               (Git_raw ["config"; "--global"; "user.email"; "github-actions@github.com"]) ;;
     _ <- call (fun t => git_raw env t
                  ["config"; "--global"; "user.name"; "github-actions"])
               (Git_raw ["config"; "--global"; "user.name"; "github-actions"]) ;;
     ret tt) ;;
  shortStatus <- call (fun t => git_raw env t ["status"; "--short"])
                      (Git_raw ["status"; "--short"]) ;;
  when (Nat.eqb (String.length shortStatus) 0)
    (Logger.notice "No changes in changelog files. Skipping commit and push." ;;
     process_exit 0) ;;
  Logger.notice "Adding and committing changes" ;;
  call_void (fun t => git_add env t ".") (Git_add ".") ;;
  call_void (fun t => git_commit env t "Adding changelog from automation.")
            (Git_commit "Adding changelog from automation.") ;;
  call_void (fun t => git_push env t "origin" br) (Git_push "origin" br) ;;
  Logger.notice ("Pushed changes to " ++ br).

(** The action of the [changefile] command (lines 44-204). *)
Definition changefile_action (prNumber : string) (options : Options) : M unit :=
  let o := owner options in
  let n := name options in
  let dev := devRepoPath options in
  Logger.startTask ("Getting pull request data for PR number " ++ prNumber) ;;
  pr <- call (fun _ => getPullRequestData env o n prNumber)
             (Call_getPullRequestData o n prNumber) ;;
  Logger.endTask ;;
  automate <- call_bool (fun _ => shouldAutomateChangelog env (prBody pr))
                        (Call_shouldAutomateChangelog (prBody pr)) ;;
  when (negb automate)
    (Logger.notice
       ("PR #" ++ prNumber ++ " does not have the " ++ dq
        ++ "Automatically create a changelog entry from the details" ++ dq
        ++ " checkbox checked. No changelog will be created.") ;;
     process_exit 0) ;;
  d <- call (fun _ => getChangelogDetails env (prBody pr))
            (Call_getChangelogDetails (prBody pr)) ;;
  Logger.startTask
    ("Making a temporary clone of '" ++ headOwner pr ++ "/" ++ n ++ "'") ;;
  tmpRepoPath <-
    (if truthy dev then ret (text dev)
     else call (fun _ => cloneAuthenticatedRepo env (headOwner pr) n false)
               (Call_cloneAuthenticatedRepo (headOwner pr) n false)) ;;
  Logger.endTask ;;
  Logger.notice
    ("Temporary clone of '" ++ headOwner pr ++ "/" ++ n ++ "' created at "
     ++ tmpRepoPath) ;;
  Logger.notice ("Checking out remote branch " ++ branch pr) ;;
  call_void (fun _ => checkoutRemoteBranch env tmpRepoPath (branch pr))
            (Call_checkoutRemoteBranch tmpRepoPath (branch pr)) ;;
  Logger.notice "Getting all touched projects requiring a changelog" ;;
  touched <-
    call (fun _ => getTouchedProjectsRequiringChangelog env
                     tmpRepoPath (base pr) (head pr) (fileName pr) o n)
         (Call_getTouchedProjectsRequiringChangelog
            tmpRepoPath (base pr) (head pr) (fileName pr) o n) ;;
  try_catch
    (reconcileAndGenerate tmpRepoPath (fileName pr) dev d touched)
    (fun e => Logger.error e) ;;
  commitAndPush tmpRepoPath (branch pr) touched.

(** A run of the command starts with an empty trace. *)
Definition run (prNumber : string) (options : Options) : outcome unit * Trace :=
  changefile_action prNumber options [].

End Action.

(** Modelled from the spec: the dispatcher that runs the action
    ([program.parse] of the entry point) is not part of the action.
    Section 6 of the specification fixes the exit status: [0] on success
    or an intentional no-op, non-zero on any fatal error.  An action that
    returns ends the process with status 0, an uncaught throw with status
    1, and [process.exit( c )] with status [c]. *)
Definition exit_code (o : outcome unit) : Z :=
  match o with
  | Done _ => 0
  | Thrown _ => 1
  | Exited c => c
  end.

(** ** Reading a trace *)

(** [startsWith p s]: the string [s] begins with [p]. *)
Fixpoint startsWith (p s : string) : bool :=
  match p, s with
  | EmptyString, _ => true
  | String a p', String b s' => Ascii.eqb a b && startsWith p' s'
  | String _ _, EmptyString => false
  end.

(** A shell command is a fragment-generation command when it starts the
    way line 157 starts it. *)
Definition isGenerateCmd (cmd : string) : bool := startsWith "pnpm --filter=" cmd.

Definition isGenerate (ev : Event) : bool :=
  match ev with
  | Call_execSync cmd _ _ => isGenerateCmd cmd
  | _ => false
  end.

Definition isInstall (ev : Event) : bool :=
  match ev with
  | Call_execSync cmd _ _ => cmd =? "pnpm install"
  | _ => false
  end.

Definition isClone (ev : Event) : bool :=
  match ev with
  | Call_cloneAuthenticatedRepo _ _ _ _ => true
  | _ => false
  end.

Definition isCheckout (ev : Event) : bool :=
  match ev with
  | Call_checkoutRemoteBranch _ _ _ => true
  | _ => false
  end.

(** Staging, committing and pushing. *)
Definition isStageCommitPush (ev : Event) : bool :=
  match ev with
  | Git_add _ _ | Git_commit _ _ | Git_push _ _ _ => true
  | _ => false
  end.

(** The calls that can change something: a clone, a checkout, a child
    process, any git command. *)
Definition isMutation (ev : Event) : bool :=
  match ev with
  | Call_cloneAuthenticatedRepo _ _ _ _ | Call_checkoutRemoteBranch _ _ _
  | Call_execSync _ _ _ | Git_raw _ _ | Git_add _ _ | Git_commit _ _
  | Git_push _ _ _ => true
  | _ => false
  end.

(** A call that threw. *)
Definition isFailure (ev : Event) : bool :=
  match ev with
  | Call_getPullRequestData _ _ _ (inl _) | Call_getChangelogDetails _ (inl _)
  | Call_cloneAuthenticatedRepo _ _ _ (inl _)
  | Call_checkoutRemoteBranch _ _ (Some _)
  | Call_getTouchedProjectsRequiringChangelog _ _ _ _ _ _ (inl _)
  | Call_getAllProjectPaths _ (inl _) | Call_execSync _ _ (Some _)
  | Git_raw _ (inl _) | Git_add _ (Some _) | Git_commit _ (Some _)
  | Git_push _ _ (Some _) => true
  | _ => false
  end.

(** A git call that threw. *)
Definition isGitFailure (ev : Event) : bool :=
  match ev with
  | Git_raw _ (inl _) | Git_add _ (Some _) | Git_commit _ (Some _)
  | Git_push _ _ (Some _) => true
  | _ => false
  end.

(** [git config] writes the file its scope flag selects: with [--global]
    the per-user file outside any repository. *)
Definition writesGlobalGitConfig (ev : Event) : bool :=
  match ev with
  | Git_raw ("config" :: rest) _ => existsb (String.eqb "--global") rest
  | _ => false
  end.

(** A [git config] call that writes the repository's own file: one without
    a flag that selects another. *)
Definition writesLocalGitConfig (ev : Event) : bool :=
  match ev with
  | Git_raw ("config" :: rest) _ =>
      negb (existsb (fun a => (a =? "--global") || (a =? "--system")) rest)
  | _ => false
  end.

(** The commands of the fragment-generation calls of a trace, in order. *)
Fixpoint generatedCmds (t : Trace) : list string :=
  match t with
  | [] => []
  | Call_execSync cmd _ _ :: t' =>
      if isGenerateCmd cmd then cmd :: generatedCmds t' else generatedCmds t'
  | _ :: t' => generatedCmds t'
  end.

Definition count (P : Event -> bool) (t : Trace) : nat :=
  List.length (filter P t).

(** The part of a trace before the first event that satisfies [P]. *)
Fixpoint beforeFirst (P : Event -> bool) (t : Trace) : Trace :=
  match t with
  | [] => []
  | ev :: t' => if P ev then [] else ev :: beforeFirst P t'
  end.
(** ** The shell's view of a command string

    [execSync( cmd, ... )] hands its string to the shell ([/bin/sh -c]),
    which splits it into the words of a command.  This is that splitting
    for a simple command, by the quoting rules of the POSIX shell: blanks
    separate words; a backslash keeps the next character; single quotes
    keep everything up to the next single quote; double quotes keep
    everything up to the next double quote, except that a backslash
    before [$], a backquote, a double quote or a backslash keeps that
    character, and a backslash before a newline goes away with the
    newline.  The quoting characters themselves are removed.

    The splitting answers [Words] only where these rules decide the
    words.  A quote left open is the syntax error of the shell
    ([Unterminated]); and wherever the shell would do more than split
    (an expansion by [$] or a backquote, an operator, a pattern, a
    comment, a tilde, a brace, an assignment or a reserved word in front)
    the answer is [Beyond]: nothing is claimed about such a string. *)
Inductive Parse :=
| Words (ws : list string)
| Unterminated
| Beyond.

Inductive Quoting := Bare | BareEscape | Double | DoubleEscape | Single.

Definition isBlank (c : ascii) : bool := Ascii.eqb c " " || Ascii.eqb c "009".

Definition isNewline (c : ascii) : bool := Ascii.eqb c "010".

Definition isQuote (c : ascii) : bool := Ascii.eqb c "034".

Definition isSingleQuote (c : ascii) : bool := Ascii.eqb c "039".

Definition isBackslash (c : ascii) : bool := Ascii.eqb c "092".

(** The characters that start an expansion, inside double quotes too. *)
Definition isExpansion (c : ascii) : bool := Ascii.eqb c "$" || Ascii.eqb c "096".

(** The characters that separate words when unquoted. *)
Definition isShellMetachar (c : ascii) : bool :=
  isBlank c || isNewline c || Ascii.eqb c "|" || Ascii.eqb c "&" || Ascii.eqb c ";"
  || Ascii.eqb c "(" || Ascii.eqb c ")" || Ascii.eqb c "<" || Ascii.eqb c ">".

(** The unquoted characters at which the shell does more than split:
    operators and the newline, patterns, braces and [!]. *)
Definition isBeyond (c : ascii) : bool :=
  isNewline c || Ascii.eqb c "|" || Ascii.eqb c "&" || Ascii.eqb c ";"
  || Ascii.eqb c "(" || Ascii.eqb c ")" || Ascii.eqb c "<" || Ascii.eqb c ">"
  || Ascii.eqb c "*" || Ascii.eqb c "?" || Ascii.eqb c "["
  || Ascii.eqb c "{" || Ascii.eqb c "}" || Ascii.eqb c "!".

(** The characters that are special only where a word starts: the comment
    sign and the tilde. *)
Definition isBeyondAtStart (c : ascii) : bool := Ascii.eqb c "#" || Ascii.eqb c "~".

(** No string given to [execSync] holds a null character. *)
Definition isNull (c : ascii) : bool := Ascii.eqb c "000".

(** The characters that a backslash keeps inside double quotes. *)
Definition isEscapable (c : ascii) : bool := isExpansion c || isQuote c || isBackslash c.

Fixpoint hasChar (P : ascii -> bool) (s : string) : bool :=
  match s with
  | EmptyString => false
  | String c s' => P c || hasChar P s'
  end.

Definition wordInProgress (cur : option string) : string :=
  match cur with
  | Some w => w
  | None => EmptyString
  end.

(** The word in progress with one more character. *)
Definition keep (cur : option string) (c : ascii) : option string :=
  Some (wordInProgress cur ++ String c EmptyString).

(** The words read so far are [seen], last first; [cur] is the word in
    progress, if one has started. *)
Definition closeWord (cur : option string) (seen : list string) : list string :=
  match cur with
  | Some w => w :: seen
  | None => seen
  end.

Fixpoint splitFrom (s : string) (q : Quoting) (cur : option string) (seen : list string)
  : Parse :=
  match s with
  | EmptyString =>
      match q with
      | Bare => Words (rev (closeWord cur seen))
      | BareEscape => Beyond
      | Double | DoubleEscape | Single => Unterminated
      end
  | String c s' =>
      if isNull c then Beyond
      else
        match q with
        | Bare =>
            if isBlank c then splitFrom s' Bare None (closeWord cur seen)
            else if isQuote c then splitFrom s' Double (Some (wordInProgress cur)) seen
            else if isSingleQuote c then splitFrom s' Single (Some (wordInProgress cur)) seen
            else if isBackslash c then splitFrom s' BareEscape cur seen
            else if isExpansion c || isBeyond c then Beyond
            else if isBeyondAtStart c
                 then match cur with
                      | Some _ => splitFrom s' Bare (keep cur c) seen
                      | None => Beyond
                      end
            else splitFrom s' Bare (keep cur c) seen
        | BareEscape =>
            if isNewline c then splitFrom s' Bare cur seen
            else splitFrom s' Bare (keep cur c) seen
        | Double =>
            if isQuote c then splitFrom s' Bare cur seen
            else if isBackslash c then splitFrom s' DoubleEscape cur seen
            else if isExpansion c then Beyond
            else splitFrom s' Double (keep cur c) seen
        | DoubleEscape =>
            if isEscapable c then splitFrom s' Double (keep cur c) seen
            else if isNewline c then splitFrom s' Double cur seen
            else splitFrom s' Double (keep (keep cur "092") c) seen
        | Single =>
            if isSingleQuote c then splitFrom s' Bare cur seen
            else splitFrom s' Single (keep cur c) seen
        end
  end.

(** The words in front of a command that are not its name: reserved words
    and assignments. *)
Definition reservedWords : list string :=
  ["if"; "then"; "else"; "elif"; "fi"; "do"; "done"; "case"; "esac"; "while";
   "until"; "for"; "in"; "function"; "select"; "time"; "coproc"; "[["; "]]"].

Definition isCommandName (w : string) : bool :=
  negb (hasChar (Ascii.eqb "=") w) && negb (existsb (String.eqb w) reservedWords).

(** The words are those of a command when the first one is its name. *)
Definition checkName (r : Parse) : Parse :=
  match r with
  | Words (w :: ws) => if isCommandName w then Words (w :: ws) else Beyond
  | _ => r
  end.

Definition shellWords (s : string) : Parse := checkName (splitFrom s Bare None []).

(** ** Texts that the quoting of line 157 keeps whole *)

Fixpoint allChars (P : ascii -> bool) (s : string) : bool :=
  match s with
  | EmptyString => true
  | String c s' => P c && allChars P s'
  end.

(** A character that is an ordinary part of a word wherever it stands
    unquoted. *)
Definition isPlain (c : ascii) : bool :=
  negb (isNull c || isBlank c || isQuote c || isSingleQuote c || isBackslash c
        || isExpansion c || isBeyond c || isBeyondAtStart c).

(** A word that needs no quoting. *)
Definition isPlainWord (s : string) : bool := negb (s =? EmptyString) && allChars isPlain s.

(** A character that stands for itself between double quotes: any but the
    double quote, the backslash, [$] and the backquote. *)
Definition isSafeQuoted (c : ascii) : bool :=
  negb (isNull c || isQuote c || isBackslash c || isExpansion c).

Definition isSafeText (t : option string) : bool :=
  match t with
  | Some m => allChars isSafeQuoted m
  | None => true
  end.

(** The arguments an optional text is meant to contribute: its flag and
    the text, when there is a text. *)
Definition argOf (flag : string) (t : option string) : list string :=
  if truthy t then [flag; text t] else [].

(** The words of the command of line 157 before the message. *)
Definition fixedWords (project file : string) (d : ChangelogDetails) : list string :=
  ["pnpm"; "--filter=" ++ project; "run"; "changelog"; "add";
   "-f"; file; "-s"; significance d; "-t"; type d].

(** The two optional expressions of lines 151-156. *)
Definition messageExpression (d : ChangelogDetails) : string :=
  if truthy (message d) then "-e " ++ dq ++ text (message d) ++ dq else EmptyString.

Definition commentExpression (d : ChangelogDetails) : string :=
  if truthy (comment d) then "-c " ++ dq ++ text (comment d) ++ dq else EmptyString.


(** ** The shape of a run

    What each block of the action adds to the trace, written out so that
    the theorems below can refer to it. *)
Local Open Scope list_scope.

Section Shapes.

Variable env : Env.
Variables (tmpRepoPath file : string).

(** The path tested and removed for a project (lines 112-117). *)
Definition fragmentPath (projectPath : string) : string :=
  nodePath_join env [tmpRepoPath; projectPath; "changelog"; file].

(** One pass of the first loop that completes: the project and what
    [existsSync] answered for it. *)
Definition removalEvents (pb : string * bool) : Trace :=
  let path := fragmentPath (fst pb) in
  if snd pb
  then [Call_existsSync path true;
        Logger_notice ("Remove existing changelog file " ++ path)%string;
        Call_execSync ("rm " ++ path)%string tmpRepoPath None]
  else [Call_existsSync path false].

(** The pass of the first loop in which [rm] throws. *)
Definition removalFailure (projectPath : string) (e : Err) : Trace :=
  let path := fragmentPath projectPath in
  [Call_existsSync path true;
   Logger_notice ("Remove existing changelog file " ++ path)%string;
   Call_execSync ("rm " ++ path)%string tmpRepoPath (Some e)].

(** One pass of the second loop, with the result of the command. *)
Definition generationEvents (d : ChangelogDetails) (r : option Err) (project : string) : Trace :=
  [Logger_notice ("Running changelog command for " ++ project)%string;
   Call_execSync (changelogCmd project file d) tmpRepoPath r].

Definition installEvents (r : option Err) : Trace :=
  [Logger_notice ("Installing dependencies in " ++ tmpRepoPath)%string;
   Call_execSync "pnpm install" tmpRepoPath r].

Definition reconcileHead (paths : list string) : Trace :=
  [Call_getAllProjectPaths tmpRepoPath (inr paths);
   Logger_notice
     "Removing existing changelog files in case a change is reverted and the entry is no longer needed"].

(** The ways the [try] block can end, each with the events it adds. *)
Inductive BodyShape (dev : option string) (d : ChangelogDetails) (touched : list string)
  : outcome unit -> Trace -> Prop :=
| Body_listing_throws e :
    BodyShape dev d touched (Thrown e) [Call_getAllProjectPaths tmpRepoPath (inl e)]
| Body_removal_throws done p post e :
    BodyShape dev d touched (Thrown e)
      (reconcileHead (map fst done ++ p :: post)
         ++ flat_map removalEvents done ++ removalFailure p e)
| Body_nothing_touched done :
    touched = [] ->
    BodyShape dev d touched (Exited 0)
      (reconcileHead (map fst done) ++ flat_map removalEvents done
         ++ [Logger_notice "No projects require a changelog"; Process_exit 0])
| Body_install_throws done e :
    touched <> [] -> truthy dev = false ->
    BodyShape dev d touched (Thrown e)
      (reconcileHead (map fst done) ++ flat_map removalEvents done
         ++ installEvents (Some e))
| Body_generated done :
    touched <> [] ->
    BodyShape dev d touched (Done tt)
      (reconcileHead (map fst done) ++ flat_map removalEvents done
         ++ (if truthy dev then [] else installEvents None)
         ++ flat_map (generationEvents d None) touched)
| Body_generation_throws done gen p post e :
    touched = gen ++ p :: post ->
    BodyShape dev d touched (Thrown e)
      (reconcileHead (map fst done) ++ flat_map removalEvents done
         ++ (if truthy dev then [] else installEvents None)
         ++ flat_map (generationEvents d None) gen
         ++ generationEvents d (Some e) p).

End Shapes.

(** The events up to the [try] statement in a run that gets there
    (lines 53-103). *)
Definition prefixEvents (prNumber : string) (options : Options)
    (pr : PullRequestData) (d : ChangelogDetails) (tmpRepoPath : string)
    (touched : list string) : Trace :=
  [Logger_startTask ("Getting pull request data for PR number " ++ prNumber)%string;
   Call_getPullRequestData (owner options) (name options) prNumber (inr pr);
   Logger_endTask;
   Call_shouldAutomateChangelog (prBody pr) true;
   Call_getChangelogDetails (prBody pr) (inr d);
   Logger_startTask
     ("Making a temporary clone of '" ++ headOwner pr ++ "/" ++ name options ++ "'")%string]
  ++ (if truthy (devRepoPath options) then []
      else [Call_cloneAuthenticatedRepo (headOwner pr) (name options) false
              (inr tmpRepoPath)])
  ++ [Logger_endTask;
      Logger_notice
        ("Temporary clone of '" ++ headOwner pr ++ "/" ++ name options
         ++ "' created at " ++ tmpRepoPath)%string;
      Logger_notice ("Checking out remote branch " ++ branch pr)%string;
      Call_checkoutRemoteBranch tmpRepoPath (branch pr) None;
      Logger_notice "Getting all touched projects requiring a changelog";
      Call_getTouchedProjectsRequiringChangelog tmpRepoPath (base pr) (head pr)
        (fileName pr) (owner options) (name options) (inr touched)].

Section CommitShapes.

Variable env : Env.
Variables (tmpRepoPath br : string) (touched : list string).

Definition identityEmail : list string :=
  ["config"; "--global"; "user.email"; "github-actions@github.com"].

Definition identityName : list string :=
  ["config"; "--global"; "user.name"; "github-actions"].

Definition statusShort : list string := ["status"; "--short"].

(** The events every pass through the last block starts with
    (lines 164-175). *)
Definition commitHead : Trace :=
  [Logger_notice ("Changelogs created for " ++ String.concat ", " touched)%string;
   Call_simpleGit tmpRepoPath ["core.hooksPath=/dev/null"];
   Call_isGithubCI (isGithubCI env)].

(** The identity configuration when both calls return (lines 175-188). *)
Definition identityEvents (s1 s2 : string) : Trace :=
  if isGithubCI env
  then [Git_raw identityEmail (inr s1); Git_raw identityName (inr s2)]
  else [].

Definition stagingEvents (rAdd : option Err) : Trace :=
  [Logger_notice "Adding and committing changes"; Git_add "." rAdd].

(** The ways the last block can end, each with the events it adds. *)
Inductive CommitShape : outcome unit -> Trace -> Prop :=
| Commit_email_throws e :
    isGithubCI env = true ->
    CommitShape (Thrown e) (commitHead ++ [Git_raw identityEmail (inl e)])
| Commit_name_throws s1 e :
    isGithubCI env = true ->
    CommitShape (Thrown e)
      (commitHead ++ [Git_raw identityEmail (inr s1); Git_raw identityName (inl e)])
| Commit_status_throws s1 s2 e :
    CommitShape (Thrown e)
      (commitHead ++ identityEvents s1 s2 ++ [Git_raw statusShort (inl e)])
| Commit_nothing_to_commit s1 s2 s :
    String.length s = 0 ->
    CommitShape (Exited 0)
      (commitHead ++ identityEvents s1 s2
         ++ [Git_raw statusShort (inr s);
             Logger_notice "No changes in changelog files. Skipping commit and push.";
             Process_exit 0])
| Commit_add_throws s1 s2 s e :
    String.length s <> 0 ->
    CommitShape (Thrown e)
      (commitHead ++ identityEvents s1 s2
         ++ Git_raw statusShort (inr s) :: stagingEvents (Some e))
| Commit_commit_throws s1 s2 s e :
    String.length s <> 0 ->
    CommitShape (Thrown e)
      (commitHead ++ identityEvents s1 s2
         ++ Git_raw statusShort (inr s) :: stagingEvents None
         ++ [Git_commit "Adding changelog from automation." (Some e)])
| Commit_push_throws s1 s2 s e :
    String.length s <> 0 ->
    CommitShape (Thrown e)
      (commitHead ++ identityEvents s1 s2
         ++ Git_raw statusShort (inr s) :: stagingEvents None
         ++ [Git_commit "Adding changelog from automation." None;
             Git_push "origin" br (Some e)])
| Commit_pushed s1 s2 s :
    String.length s <> 0 ->
    CommitShape (Done tt)
      (commitHead ++ identityEvents s1 s2
         ++ Git_raw statusShort (inr s) :: stagingEvents None
         ++ [Git_commit "Adding changelog from automation." None;
             Git_push "origin" br None;
             Logger_notice ("Pushed changes to " ++ br)%string]).

End CommitShapes.

Section RunShapes.

Variable env : Env.
Variables (prNumber : string) (options : Options).

Definition fetchEvents (r : Err + PullRequestData) : Trace :=
  [Logger_startTask ("Getting pull request data for PR number " ++ prNumber)%string;
   Call_getPullRequestData (owner options) (name options) prNumber r].

(** The notice of lines 62-64. *)
Definition notRequestedNotice : string :=
  ("PR #" ++ prNumber ++ " does not have the " ++ dq
   ++ "Automatically create a changelog entry from the details" ++ dq
   ++ " checkbox checked. No changelog will be created.")%string.

Definition cloneTask (pr : PullRequestData) : Event :=
  Logger_startTask
    ("Making a temporary clone of '" ++ headOwner pr ++ "/" ++ name options ++ "'")%string.

Definition cloneNotices (pr : PullRequestData) (tmpRepoPath : string) : Trace :=
  [Logger_endTask;
   Logger_notice
     ("Temporary clone of '" ++ headOwner pr ++ "/" ++ name options
      ++ "' created at " ++ tmpRepoPath)%string;
   Logger_notice ("Checking out remote branch " ++ branch pr)%string].

(** The ways a run can end, each with its trace. *)
Inductive RunShape : outcome unit -> Trace -> Prop :=
| Run_fetch_throws e :
    RunShape (Thrown e) (fetchEvents (inl e))
| Run_not_requested pr :
    RunShape (Exited 0)
      (fetchEvents (inr pr)
         ++ [Logger_endTask; Call_shouldAutomateChangelog (prBody pr) false;
             Logger_notice notRequestedNotice; Process_exit 0])
| Run_details_throw pr e :
    RunShape (Thrown e)
      (fetchEvents (inr pr)
         ++ [Logger_endTask; Call_shouldAutomateChangelog (prBody pr) true;
             Call_getChangelogDetails (prBody pr) (inl e)])
| Run_clone_throws pr d e :
    truthy (devRepoPath options) = false ->
    RunShape (Thrown e)
      (fetchEvents (inr pr)
         ++ [Logger_endTask; Call_shouldAutomateChangelog (prBody pr) true;
             Call_getChangelogDetails (prBody pr) (inr d); cloneTask pr;
             Call_cloneAuthenticatedRepo (headOwner pr) (name options) false (inl e)])
| Run_checkout_throws pr d tmpRepoPath e :
    RunShape (Thrown e)
      (fetchEvents (inr pr)
         ++ [Logger_endTask; Call_shouldAutomateChangelog (prBody pr) true;
             Call_getChangelogDetails (prBody pr) (inr d); cloneTask pr]
         ++ (if truthy (devRepoPath options) then []
             else [Call_cloneAuthenticatedRepo (headOwner pr) (name options) false
                     (inr tmpRepoPath)])
         ++ cloneNotices pr tmpRepoPath
         ++ [Call_checkoutRemoteBranch tmpRepoPath (branch pr) (Some e)])
| Run_touched_throws pr d tmpRepoPath e :
    RunShape (Thrown e)
      (fetchEvents (inr pr)
         ++ [Logger_endTask; Call_shouldAutomateChangelog (prBody pr) true;
             Call_getChangelogDetails (prBody pr) (inr d); cloneTask pr]
         ++ (if truthy (devRepoPath options) then []
             else [Call_cloneAuthenticatedRepo (headOwner pr) (name options) false
                     (inr tmpRepoPath)])
         ++ cloneNotices pr tmpRepoPath
         ++ [Call_checkoutRemoteBranch tmpRepoPath (branch pr) None;
             Logger_notice "Getting all touched projects requiring a changelog";
             Call_getTouchedProjectsRequiringChangelog tmpRepoPath (base pr) (head pr)
               (fileName pr) (owner options) (name options) (inl e)])
| Run_exits_in_try pr d tmpRepoPath touched evs c :
    BodyShape env tmpRepoPath (fileName pr) (devRepoPath options) d touched
      (Exited c) evs ->
    RunShape (Exited c)
      (prefixEvents prNumber options pr d tmpRepoPath touched ++ evs)
| Run_commit_after_try pr d tmpRepoPath touched evs o t :
    BodyShape env tmpRepoPath (fileName pr) (devRepoPath options) d touched
      (Done tt) evs ->
    commitAndPush env tmpRepoPath (branch pr) touched
      (prefixEvents prNumber options pr d tmpRepoPath touched ++ evs) = (o, t) ->
    RunShape o t
| Run_commit_after_catch pr d tmpRepoPath touched evs e o t :
    BodyShape env tmpRepoPath (fileName pr) (devRepoPath options) d touched
      (Thrown e) evs ->
    commitAndPush env tmpRepoPath (branch pr) touched
      (prefixEvents prNumber options pr d tmpRepoPath touched ++ evs
         ++ [Logger_error e]) = (o, t) ->
    RunShape o t.

End RunShapes.

(** The events each part of the action can add. *)
Definition inPrefix (ev : Event) : bool :=
  match ev with
  | Logger_startTask _ | Logger_endTask | Logger_notice _
  | Call_getPullRequestData _ _ _ _ | Call_shouldAutomateChangelog _ _
  | Call_getChangelogDetails _ _ | Call_cloneAuthenticatedRepo _ _ _ _
  | Call_checkoutRemoteBranch _ _ _
  | Call_getTouchedProjectsRequiringChangelog _ _ _ _ _ _ _
  | Process_exit _ => true
  | _ => false
  end.

Definition inBody (ev : Event) : bool :=
  match ev with
  | Call_getAllProjectPaths _ _ | Logger_notice _ | Call_existsSync _ _
  | Call_execSync _ _ _ | Process_exit _ => true
  | _ => false
  end.

Definition inCommit (ev : Event) : bool :=
  match ev with
  | Logger_notice _ | Call_simpleGit _ _ | Call_isGithubCI _ | Git_raw _ _
  | Git_add _ _ | Git_commit _ _ | Git_push _ _ _ | Process_exit _ => true
  | _ => false
  end.

(** The call that lists the touched projects, when it returns. *)
Definition listedTouched (ev : Event) : bool :=
  match ev with
  | Call_getTouchedProjectsRequiringChangelog _ _ _ _ _ _ (inr _) => true
  | _ => false
  end.

Definition isGitRaw (ev : Event) : bool :=
  match ev with
  | Git_raw _ _ => true
  | _ => false
  end.

Definition isExec (ev : Event) : bool :=
  match ev with
  | Call_execSync _ _ _ => true
  | _ => false
  end.

(** A call of the reconciliation that threw: the listing of the projects
    or the removal of a fragment. *)
Definition isReconcileFailure (ev : Event) : bool :=
  match ev with
  | Call_getAllProjectPaths _ (inl _) => true
  | Call_execSync cmd _ (Some _) => startsWith "rm " cmd
  | _ => false
  end.

Definition isListing (ev : Event) : bool :=
  match ev with
  | Call_getAllProjectPaths _ _ => true
  | _ => false
  end.

Definition isCICheck (ev : Event) : bool :=
  match ev with
  | Call_isGithubCI _ => true
  | _ => false
  end.

(** ** A concrete world

    A small world to run the action in: a pull request on branch
    [add/thing] whose fragment is named [1234-add-thing], and a monorepo
    of three projects.  The world keeps the fragment files of the working
    copy: it starts from the files on the branch, a successful [rm]
    removes one, a successful generation command writes one whose content
    is determined by the command, and [git status --short] is empty when
    the working copy has the files of the branch again.  The knobs choose
    the rest of what the collaborators answer. *)
Module Demo.

Local Open Scope string_scope.

Record Knobs := {
  automate : bool;
  details : Err + ChangelogDetails;
  touchedProjects : list string;
  failingCmd : string -> bool;
  ci : bool;
  onBranch : list (string * string)
}.

Definition pr : PullRequestData := {|
  prBody := "### Changelog entry";
  headOwner := "alice";
  branch := "add/thing";
  fileName := "1234-add-thing";
  head := "c0ffee";
  base := "deadbeef"
|}.

Definition patchFix : ChangelogDetails := {|
  significance := "patch";
  type := "fix";
  message := Some "Fix the thing";
  comment := None
|}.

Definition allProjects : list string :=
  ["plugins/woocommerce"; "packages/js/data"; "docs"].

Definition join (parts : list string) : string := String.concat "/" parts.

Definition fragmentOf (root project : string) : string :=
  join [root; project; "changelog"; fileName pr].

Definition removeFile (path : string) (files : list (string * string))
  : list (string * string) :=
  filter (fun f => negb (fst f =? path)) files.

(** The fragment a generation command writes, if the command is one. *)
Definition written (k : Knobs) (cmd cwd : string) : option (string * string) :=
  match details k with
  | inr d =>
      match find (fun p => cmd =? changelogCmd p (fileName pr) d) allProjects with
      | Some p => Some (fragmentOf cwd p, cmd)
      | None => None
      end
  | inl _ => None
  end.

Definition afterEvent (k : Knobs) (files : list (string * string)) (ev : Event)
  : list (string * string) :=
  match ev with
  | Call_execSync cmd cwd None =>
      if startsWith "rm " cmd
      then removeFile (substring 3 (String.length cmd - 3) cmd) files
      else match written k cmd cwd with
           | Some f => f :: removeFile (fst f) files
           | None => files
           end
  | _ => files
  end.

Definition workingCopy (k : Knobs) (t : Trace) : list (string * string) :=
  fold_left (afterEvent k) t (onBranch k).

Definition hasFile (files : list (string * string)) (f : string * string) : bool :=
  existsb (fun g => (fst g =? fst f) && (snd g =? snd f)) files.

Definition sameFiles (a b : list (string * string)) : bool :=
  forallb (hasFile b) a && forallb (hasFile a) b.

Definition world (k : Knobs) : Env := {|
  getPullRequestData := fun _ _ _ => inr pr;
  shouldAutomateChangelog := fun _ => automate k;
  getChangelogDetails := fun _ => details k;
  cloneAuthenticatedRepo := fun _ _ _ => inr "/tmp/clone";
  checkoutRemoteBranch := fun _ _ => None;
  getTouchedProjectsRequiringChangelog := fun _ _ _ _ _ _ => inr (touchedProjects k);
  getAllProjectPaths := fun _ => inr allProjects;
  isGithubCI := ci k;
  nodePath_join := join;
  existsSync := fun t path => existsb (fun f => fst f =? path) (workingCopy k t);
  execSync := fun _ cmd _ => if failingCmd k cmd then Some "Command failed" else None;
  git_raw := fun t args =>
    match args with
    | ["status"; "--short"] =>
        inr (if sameFiles (workingCopy k t) (onBranch k) then EmptyString else "?? changelog/")
    | _ => inr EmptyString
    end;
  git_add := fun _ _ => None;
  git_commit := fun _ _ => None;
  git_push := fun _ _ _ => None
|}.

Definition options : Options := {|
  owner := "woocommerce";
  name := "woocommerce";
  devRepoPath := None
|}.

Definition devOptions : Options := {|
  owner := "woocommerce";
  name := "woocommerce";
  devRepoPath := Some "/home/dev/woocommerce"
|}.

(** A stale fragment in [docs], left by an earlier run of the pipeline. *)
Definition stale : list (string * string) :=
  [(fragmentOf "/tmp/clone" "docs", "an earlier entry")].

(** Everything goes well: two touched projects, continuous integration. *)
Definition healthy : Knobs := {|
  automate := true;
  details := inr patchFix;
  touchedProjects := ["plugins/woocommerce"; "packages/js/data"];
  failingCmd := fun _ => false;
  ci := true;
  onBranch := stale
|}.

(** The checkbox is not checked. *)
Definition unchecked : Knobs := {|
  automate := false;
  details := inr patchFix;
  touchedProjects := ["plugins/woocommerce"; "packages/js/data"];
  failingCmd := fun _ => false;
  ci := true;
  onBranch := stale
|}.

(** The checkbox is checked and the significance is missing. *)
Definition malformed : Knobs := {|
  automate := true;
  details := inl "No changelog significance found";
  touchedProjects := ["plugins/woocommerce"; "packages/js/data"];
  failingCmd := fun _ => false;
  ci := true;
  onBranch := stale
|}.

(** The pull request touches no project that requires a changelog. *)
Definition untouched : Knobs := {|
  automate := true;
  details := inr patchFix;
  touchedProjects := [];
  failingCmd := fun _ => false;
  ci := true;
  onBranch := stale
|}.

(** Two stale fragments, left by earlier runs of the pipeline. *)
Definition twoStale : list (string * string) :=
  [(fragmentOf "/tmp/clone" "plugins/woocommerce", "an earlier entry");
   (fragmentOf "/tmp/clone" "docs", "an earlier entry")].

(** The pull request touches no project that requires a changelog; the
    branch holds two stale fragments and the second cannot be removed. *)
Definition untouchedLocked : Knobs := {|
  automate := true;
  details := inr patchFix;
  touchedProjects := [];
  failingCmd := fun cmd => cmd =? "rm " ++ fragmentOf "/tmp/clone" "docs";
  ci := true;
  onBranch := twoStale
|}.

(** The generation command of the first touched project fails. *)
Definition firstFails : Knobs := {|
  automate := true;
  details := inr patchFix;
  touchedProjects := ["plugins/woocommerce"; "packages/js/data"];
  failingCmd := fun cmd =>
    cmd =? changelogCmd "plugins/woocommerce" (fileName pr) patchFix;
  ci := true;
  onBranch := stale
|}.

(** The stale fragment cannot be removed. *)
Definition staleLocked : Knobs := {|
  automate := true;
  details := inr patchFix;
  touchedProjects := ["plugins/woocommerce"; "packages/js/data"];
  failingCmd := startsWith "rm ";
  ci := true;
  onBranch := stale
|}.

(** The files on the branch once a run has pushed. *)
Definition isPushed (ev : Event) : bool :=
  match ev with
  | Git_push _ _ None => true
  | _ => false
  end.

Definition pushed (k : Knobs) (t : Trace) : list (string * string) :=
  if existsb isPushed t then workingCopy k t else onBranch k.

(** The same world once a run with trace [t] is over: the branch has what
    the run pushed. *)
Definition rerun (k : Knobs) (t : Trace) : Knobs := {|
  automate := automate k;
  details := details k;
  touchedProjects := touchedProjects k;
  failingCmd := failingCmd k;
  ci := ci k;
  onBranch := pushed k t
|}.

(** The same world on a given day, with a generator that dates what it
    writes: the content of a fragment is the command followed by the day,
    so that regenerating a fragment on another day yields another
    content. *)
Definition writtenOn (day : string) (k : Knobs) (cmd cwd : string)
  : option (string * string) :=
  match written k cmd cwd with
  | Some f => Some (fst f, snd f ++ " on " ++ day)
  | None => None
  end.

Definition afterEventOn (day : string) (k : Knobs) (files : list (string * string))
    (ev : Event) : list (string * string) :=
  match ev with
  | Call_execSync cmd cwd None =>
      if startsWith "rm " cmd
      then removeFile (substring 3 (String.length cmd - 3) cmd) files
      else match writtenOn day k cmd cwd with
           | Some f => f :: removeFile (fst f) files
           | None => files
           end
  | _ => files
  end.

Definition workingCopyOn (day : string) (k : Knobs) (t : Trace) : list (string * string) :=
  fold_left (afterEventOn day k) t (onBranch k).

Definition worldOn (day : string) (k : Knobs) : Env := {|
  getPullRequestData := fun _ _ _ => inr pr;
  shouldAutomateChangelog := fun _ => automate k;
  getChangelogDetails := fun _ => details k;
  cloneAuthenticatedRepo := fun _ _ _ => inr "/tmp/clone";
  checkoutRemoteBranch := fun _ _ => None;
  getTouchedProjectsRequiringChangelog := fun _ _ _ _ _ _ => inr (touchedProjects k);
  getAllProjectPaths := fun _ => inr allProjects;
  isGithubCI := ci k;
  nodePath_join := join;
  existsSync := fun t path => existsb (fun f => fst f =? path) (workingCopyOn day k t);
  execSync := fun _ cmd _ => if failingCmd k cmd then Some "Command failed" else None;
  git_raw := fun t args =>
    match args with
    | ["status"; "--short"] =>
        inr (if sameFiles (workingCopyOn day k t) (onBranch k)
             then EmptyString else "?? changelog/")
    | _ => inr EmptyString
    end;
  git_add := fun _ _ => None;
  git_commit := fun _ _ => None;
  git_push := fun _ _ _ => None
|}.

(** The world once a run of that day with trace [t] is over. *)
Definition rerunOn (day : string) (k : Knobs) (t : Trace) : Knobs := {|
  automate := automate k;
  details := details k;
  touchedProjects := touchedProjects k;
  failingCmd := failingCmd k;
  ci := ci k;
  onBranch := if existsb isPushed t then workingCopyOn day k t else onBranch k
|}.

(** The branch as the healthy pipeline left it on Monday. *)
Definition sinceMonday : Knobs :=
  rerunOn "Monday" healthy (snd (run (worldOn "Monday" healthy) "1234" options)).

(** A second run of the healthy pipeline, on the branch as the first run
    left it. *)
Definition again : Knobs :=
  rerun healthy (snd (run (world healthy) "1234" options)).

(** The working copy once the fragments of all the projects are removed. *)
Definition reconciled (root : string) (files : list (string * string))
  : list (string * string) :=
  fold_left (fun w p => removeFile (fragmentOf root p) w) allProjects files.

(** The working copy once the generation commands of the given projects
    have run. *)
Definition regenerated (k : Knobs) (d : ChangelogDetails) (root : string)
    (projects : list string) (files : list (string * string))
  : list (string * string) :=
  fold_left
    (fun w p => afterEvent k w (Call_execSync (changelogCmd p (fileName pr) d) root None))
    projects files.

(** A file survives the reconciliation when it is no project's fragment. *)
Definition survives (root : string) (f : string * string) : bool :=
  forallb (fun p => negb (fst f =? fragmentOf root p)) allProjects.

(** Where the working copy of a run is. *)
Definition rootOf (o : Options) : string :=
  if truthy (devRepoPath o) then text (devRepoPath o) else "/tmp/clone".

End Demo.

(** ** More ways to read a trace *)

(** The value a call threw, if it threw. *)
Definition thrown (ev : Event) : option Err :=
  match ev with
  | Call_getPullRequestData _ _ _ (inl e) | Call_getChangelogDetails _ (inl e)
  | Call_cloneAuthenticatedRepo _ _ _ (inl e)
  | Call_checkoutRemoteBranch _ _ (Some e)
  | Call_getTouchedProjectsRequiringChangelog _ _ _ _ _ _ (inl e)
  | Call_getAllProjectPaths _ (inl e) | Call_execSync _ _ (Some e)
  | Git_raw _ (inl e) | Git_add _ (Some e) | Git_commit _ (Some e)
  | Git_push _ _ (Some e) => Some e
  | _ => None
  end.

Definition isExit (ev : Event) : bool :=
  match ev with
  | Process_exit _ => true
  | _ => false
  end.

(** The creation of the git client (lines 170-173). *)
Definition isGitClient (ev : Event) : bool :=
  match ev with
  | Call_simpleGit _ _ => true
  | _ => false
  end.

(** A command sent through the git client. *)
Definition isGitCommand (ev : Event) : bool :=
  match ev with
  | Git_raw _ _ | Git_add _ _ | Git_commit _ _ | Git_push _ _ _ => true
  | _ => false
  end.

(** A push that returned. *)
Definition pushReturned (ev : Event) : bool :=
  match ev with
  | Git_push _ _ None => true
  | _ => false
  end.

Definition isStartTask (ev : Event) : bool :=
  match ev with
  | Logger_startTask _ => true
  | _ => false
  end.

Definition isEndTask (ev : Event) : bool :=
  match ev with
  | Logger_endTask => true
  | _ => false
  end.

(** The two calls that sit between a [startTask] and its [endTask], when
    they throw. *)
Definition leavesTaskOpen (ev : Event) : bool :=
  match ev with
  | Call_getPullRequestData _ _ _ (inl _)
  | Call_cloneAuthenticatedRepo _ _ _ (inl _) => true
  | _ => false
  end.

(** The git commands of a trace, without their results. *)
Inductive GitStep :=
| Raw (args : list string)
| Add (files : string)
| Commit (msg : string)
| Push (remote br : string).

Fixpoint gitSteps (t : Trace) : list GitStep :=
  match t with
  | [] => []
  | Git_raw args _ :: t' => Raw args :: gitSteps t'
  | Git_add files _ :: t' => Add files :: gitSteps t'
  | Git_commit msg _ :: t' => Commit msg :: gitSteps t'
  | Git_push remote br _ :: t' => Push remote br :: gitSteps t'
  | _ :: t' => gitSteps t'
  end.

(** The git commands of lines 175-202, in the order they are written. *)
Definition gitScript (ci : bool) (br : string) : list GitStep :=
  (if ci then [Raw identityEmail; Raw identityName] else [])
  ++ [Raw statusShort; Add "."; Commit "Adding changelog from automation.";
      Push "origin" br].

(** The event works in the directory [w], when it names a directory. *)
Definition RootedAt (w : string) (ev : Event) : Prop :=
  match ev with
  | Call_checkoutRemoteBranch path _ _
  | Call_getTouchedProjectsRequiringChangelog path _ _ _ _ _ _
  | Call_getAllProjectPaths path _
  | Call_execSync _ path _
  | Call_simpleGit path _ => path = w
  | _ => True
  end.

(** The trace [t] ends with the events [suffix]. *)
Definition endsWith (t suffix : Trace) : Prop := exists before, t = before ++ suffix.

(** The calls that only the [try] block makes (lines 105-159). *)
Definition calledInTry (ev : Event) : bool :=
  match ev with
  | Call_getAllProjectPaths _ _ | Call_existsSync _ _ | Call_execSync _ _ _ => true
  | _ => false
  end.

(** The three notices that announce an early exit (lines 62-65, 132 and
    193-195). *)
Definition exitNotices (prNumber : string) : list string :=
  [notRequestedNotice prNumber;
   "No projects require a changelog";
   "No changes in changelog files. Skipping commit and push."].

(** The removal of a file (line 124). *)
Definition isRemoval (ev : Event) : bool :=
  match ev with
  | Call_execSync cmd _ _ => startsWith "rm " cmd
  | _ => false
  end.

(** A test that found the fragment of a project (line 119). *)
Definition isFound (ev : Event) : bool :=
  match ev with
  | Call_existsSync _ true => true
  | _ => false
  end.

(** [adds Q m]: whatever the trace so far, the computation [m] only adds
    events to it, and every event it adds satisfies [Q]. *)
Definition adds {A} (Q : Event -> Prop) (m : M A) : Prop :=
  forall t, exists evs, snd (m t) = t ++ evs /\ Forall Q evs.

(** The event works in the directory [w], and is not a clone. *)
Definition inWorkingCopy (w : string) (ev : Event) : Prop :=
  RootedAt w ev /\ isClone ev = false.

(** A call of [Logger.error] (line 161). *)
Definition isErrorLog (ev : Event) : bool :=
  match ev with
  | Logger_error _ => true
  | _ => false
  end.

(** ** The stages of a run *)

(** The stage of the action a call belongs to, in the order the source
    writes them: fetching (0), the checkbox (1), the details (2), the
    clone (3), the checkout (4), the touched projects (5), the listing of
    the projects (6), the reconciliation (7), the installation (8), the
    generation (9), the git client (10), the environment test (11), the
    identity (12), the status (13), staging (14), the commit (15) and the
    push (16).  The logger and [process.exit] belong to no stage. *)
Definition stageOf (ev : Event) : option nat :=
  match ev with
  | Call_getPullRequestData _ _ _ _ => Some 0
  | Call_shouldAutomateChangelog _ _ => Some 1
  | Call_getChangelogDetails _ _ => Some 2
  | Call_cloneAuthenticatedRepo _ _ _ _ => Some 3
  | Call_checkoutRemoteBranch _ _ _ => Some 4
  | Call_getTouchedProjectsRequiringChangelog _ _ _ _ _ _ _ => Some 5
  | Call_getAllProjectPaths _ _ => Some 6
  | Call_existsSync _ _ => Some 7
  | Call_execSync cmd _ _ =>
      if startsWith "rm " cmd then Some 7
      else if cmd =? "pnpm install" then Some 8
      else Some 9
  | Call_simpleGit _ _ => Some 10
  | Call_isGithubCI _ => Some 11
  | Git_raw args _ => if hd EmptyString args =? "config" then Some 12 else Some 13
  | Git_add _ _ => Some 14
  | Git_commit _ _ => Some 15
  | Git_push _ _ _ => Some 16
  | _ => None
  end.

Definition stages (t : Trace) : list nat :=
  flat_map (fun ev => match stageOf ev with Some n => [n] | None => [] end) t.

(** A sorted list of stages between [lo] and [hi]. *)
Definition within (lo hi : nat) (l : list nat) : Prop :=
  StronglySorted le l /\ Forall (fun n => lo <= n <= hi) l.

(** The paths a trace tested with [existsSync], in order. *)
Definition testedPaths (t : Trace) : list string :=
  flat_map (fun ev => match ev with Call_existsSync path _ => [path] | _ => [] end) t.

(** * Properties *)

Unset Implicit Arguments.

(** ** Lists and traces *)

Lemma beforeFirst_app_clean (P : Event -> bool) (a b : Trace) :
  existsb P a = false -> beforeFirst P (a ++ b) = a ++ beforeFirst P b.
Proof.
  induction a as [|x a IH]; simpl; intros H; [reflexivity|].
  apply orb_false_iff in H as [Hx Ha]. rewrite Hx, IH by assumption. reflexivity.
Qed.

Lemma count_app (P : Event -> bool) (a b : Trace) :
  count P (a ++ b) = count P a + count P b.
Proof. unfold count. rewrite filter_app, length_app. reflexivity. Qed.

Lemma count_none (P : Event -> bool) (a : Trace) :
  existsb P a = false -> count P a = 0.
Proof.
  unfold count. induction a as [|x a IH]; simpl; intros H; [reflexivity|].
  apply orb_false_iff in H as [Hx Ha]. rewrite Hx. auto.
Qed.

Lemma generatedCmds_app (a b : Trace) :
  generatedCmds (a ++ b) = generatedCmds a ++ generatedCmds b.
Proof.
  induction a as [|x a IH]; simpl; [reflexivity|].
  destruct x; auto. destruct (isGenerateCmd cmd); simpl; rewrite IH; reflexivity.
Qed.

Lemma generatedCmds_clean (a : Trace) :
  existsb isGenerate a = false -> generatedCmds a = [].
Proof.
  induction a as [|x a IH]; simpl; intros H; [reflexivity|].
  apply orb_false_iff in H as [Hx Ha].
  destruct x; auto. simpl in Hx. rewrite Hx. auto.
Qed.

Lemma existsb_flat_map_false {A} (P : Event -> bool) (f : A -> Trace) (l : list A) :
  (forall x, existsb P (f x) = false) -> existsb P (flat_map f l) = false.
Proof.
  intros H. induction l as [|x l IH]; simpl; [reflexivity|].
  rewrite existsb_app, H, IH. reflexivity.
Qed.

(** ** The two loops *)

Lemma forEach_cons_done {A} (f : A -> M unit) (x : A) (l : list A) (t t' : Trace) :
  f x t = (Done tt, t') -> forEach (x :: l) f t = forEach l f t'.
Proof. intros H. simpl. unfold bind. rewrite H. reflexivity. Qed.

Lemma forEach_cons_thrown {A} (f : A -> M unit) (x : A) (l : list A) (t t' : Trace) e :
  f x t = (Thrown e, t') -> forEach (x :: l) f t = (Thrown e, t').
Proof. intros H. simpl. unfold bind. rewrite H. reflexivity. Qed.

Section Loops.

Variable env : Env.
Variables (tmpRepoPath file : string).

Lemma removal_pass (p : string) (t : Trace) :
  (exists b, removeExistingChangelog env tmpRepoPath file p t
             = (Done tt, t ++ removalEvents env tmpRepoPath file (p, b)))
  \/ (exists e, removeExistingChangelog env tmpRepoPath file p t
                = (Thrown e, t ++ removalFailure env tmpRepoPath file p e)).
Proof.
  unfold removeExistingChangelog, removalEvents, removalFailure, fragmentPath.
  cbn [fst snd]. set (path := nodePath_join env _).
  unfold bind, call_bool, when, Logger.notice, emit, call_void, ret.
  destruct (existsSync env t path).
  - destruct (execSync env _ _ _) as [e|].
    + right. exists e. rewrite <- ?app_assoc. reflexivity.
    + left. exists true. rewrite <- ?app_assoc. reflexivity.
  - left. exists false. reflexivity.
Qed.

Lemma forEach_removal_shape (l : list string) (t : Trace) :
  (exists done,
      map fst done = l /\
      forEach l (removeExistingChangelog env tmpRepoPath file) t
      = (Done tt, t ++ flat_map (removalEvents env tmpRepoPath file) done))
  \/ (exists done p post e,
      l = map fst done ++ p :: post /\
      forEach l (removeExistingChangelog env tmpRepoPath file) t
      = (Thrown e, t ++ flat_map (removalEvents env tmpRepoPath file) done
                     ++ removalFailure env tmpRepoPath file p e)).
Proof.
  revert t. induction l as [|p l IH]; intros t.
  - left. exists []. simpl. rewrite app_nil_r. auto.
  - destruct (removal_pass p t) as [[b Hp] | [e Hp]].
    + rewrite (forEach_cons_done _ _ l _ _ Hp).
      destruct (IH (t ++ removalEvents env tmpRepoPath file (p, b)))
        as [(done & Hd & Hrun) | (done & q & post & e & Hd & Hrun)].
      * left. exists ((p, b) :: done). split; [simpl; congruence|].
        rewrite Hrun. cbn [flat_map]. rewrite <- ?app_assoc. reflexivity.
      * right. exists ((p, b) :: done), q, post, e. split; [simpl; congruence|].
        rewrite Hrun. cbn [flat_map]. rewrite <- ?app_assoc. reflexivity.
    + right. exists [], p, l, e. split; [reflexivity|].
      rewrite (forEach_cons_thrown _ _ l _ _ _ Hp). reflexivity.
Qed.

Lemma generation_pass (d : ChangelogDetails) (p : string) (t : Trace) :
  exists r, runChangelogCommand env tmpRepoPath file d p t
            = (match r with None => Done tt | Some e => Thrown e end,
               t ++ generationEvents tmpRepoPath file d r p).
Proof.
  unfold runChangelogCommand, generationEvents.
  unfold bind, Logger.notice, emit, call_void.
  destruct (execSync env _ _ _) as [e|].
  - exists (Some e). rewrite <- ?app_assoc. reflexivity.
  - exists None. rewrite <- ?app_assoc. reflexivity.
Qed.

Lemma forEach_generation_shape (d : ChangelogDetails) (l : list string) (t : Trace) :
  forEach l (runChangelogCommand env tmpRepoPath file d) t
  = (Done tt, t ++ flat_map (generationEvents tmpRepoPath file d None) l)
  \/ (exists gen p post e,
      l = gen ++ p :: post /\
      forEach l (runChangelogCommand env tmpRepoPath file d) t
      = (Thrown e, t ++ flat_map (generationEvents tmpRepoPath file d None) gen
                     ++ generationEvents tmpRepoPath file d (Some e) p)).
Proof.
  revert t. induction l as [|p l IH]; intros t.
  - left. simpl. rewrite app_nil_r. reflexivity.
  - destruct (generation_pass d p t) as [[e|] Hp].
    + right. exists [], p, l, e. split; [reflexivity|].
      rewrite (forEach_cons_thrown _ _ l _ _ _ Hp). reflexivity.
    + rewrite (forEach_cons_done _ _ l _ _ Hp).
      destruct (IH (t ++ generationEvents tmpRepoPath file d None p))
        as [Hrun | (gen & q & post & e & Hd & Hrun)].
      * left. rewrite Hrun. cbn [flat_map]. rewrite <- ?app_assoc. reflexivity.
      * right. exists (p :: gen), q, post, e. split; [simpl; congruence|].
        rewrite Hrun. cbn [flat_map]. rewrite <- ?app_assoc. reflexivity.
Qed.

End Loops.

(** ** The blocks of the action *)

Lemma reconcileAndGenerate_shape env tmpRepoPath file dev d touched t :
  exists o evs,
    reconcileAndGenerate env tmpRepoPath file dev d touched t = (o, t ++ evs)
    /\ BodyShape env tmpRepoPath file dev d touched o evs.
Proof.
  unfold reconcileAndGenerate, bind, call, Logger.notice, emit.
  destruct (getAllProjectPaths env tmpRepoPath) as [e|paths].
  { exists (Thrown e), [Call_getAllProjectPaths tmpRepoPath (inl e)].
    split; [reflexivity | constructor]. }
  match goal with |- context [forEach paths ?f ?t0] =>
    destruct (forEach_removal_shape env tmpRepoPath file paths t0)
      as [(done & Hd & Hrun) | (done & q & post & e & Hd & Hrun)];
    rewrite Hrun; clear Hrun end.
  2:{ subst paths. eexists _, _. split; [|apply Body_removal_throws].
      unfold reconcileHead. rewrite <- ?app_assoc. reflexivity. }
  subst paths. destruct touched as [|p touched'].
  { cbn [List.length Nat.eqb when]. unfold bind, process_exit.
    eexists _, _. split; [|apply Body_nothing_touched; reflexivity].
    unfold reconcileHead. rewrite <- ?app_assoc. reflexivity. }
  cbn [List.length Nat.eqb when]. unfold ret at 1.
  destruct (truthy dev) eqn:Hdev; cbn [negb when].
  - unfold ret at 1.
    match goal with |- context [forEach (p :: touched') ?f ?t0] =>
      destruct (forEach_generation_shape env tmpRepoPath file d (p :: touched') t0)
        as [Hrun | (gen & q & post & e & Hd & Hrun)];
      rewrite Hrun; clear Hrun end.
    + eexists _, _. split; [|apply Body_generated; discriminate].
      rewrite Hdev. unfold reconcileHead. rewrite <- ?app_assoc. reflexivity.
    + eexists _, _. split; [|eapply Body_generation_throws; exact Hd].
      rewrite Hdev. unfold reconcileHead. rewrite <- ?app_assoc. reflexivity.
  - unfold bind, call_void.
    destruct (execSync env _ "pnpm install" tmpRepoPath) as [e|].
    { eexists _, _. split; [|apply Body_install_throws; [discriminate|exact Hdev]].
      unfold reconcileHead, installEvents. rewrite <- ?app_assoc. reflexivity. }
    match goal with |- context [forEach (p :: touched') ?f ?t0] =>
      destruct (forEach_generation_shape env tmpRepoPath file d (p :: touched') t0)
        as [Hrun | (gen & q & post & e & Hd & Hrun)];
      rewrite Hrun; clear Hrun end.
    + eexists _, _. split; [|apply Body_generated; discriminate].
      rewrite Hdev. unfold reconcileHead, installEvents.
      rewrite <- ?app_assoc. reflexivity.
    + eexists _, _. split; [|eapply Body_generation_throws; exact Hd].
      rewrite Hdev. unfold reconcileHead, installEvents.
      rewrite <- ?app_assoc. reflexivity.
Qed.

Lemma commitAndPush_shape env tmpRepoPath br touched t :
  exists o evs,
    commitAndPush env tmpRepoPath br touched t = (o, t ++ evs)
    /\ CommitShape env tmpRepoPath br touched o evs.
Proof.
  unfold commitAndPush.
  unfold bind at 1, Logger.notice at 1, emit at 1.
  unfold bind at 1, emit at 1.
  unfold bind at 1, call_bool at 1.
  fold identityEmail identityName statusShort.
  set (t1 := ((t ++ _) ++ _) ++ _).
  assert (Ht1 : t1 = t ++ commitHead env tmpRepoPath touched).
  { unfold t1, commitHead. rewrite <- ?app_assoc. reflexivity. }
  clearbody t1. subst t1.
  (* the rest of the block, once the identity is configured *)
  assert (Hrest : forall s1 s2,
    exists o evs,
      (shortStatus <- call (fun t0 => git_raw env t0 statusShort) (Git_raw statusShort) ;;
       when (Nat.eqb (String.length shortStatus) 0)
         (Logger.notice "No changes in changelog files. Skipping commit and push." ;;
          process_exit 0) ;;
       Logger.notice "Adding and committing changes" ;;
       call_void (fun t0 => git_add env t0 ".") (Git_add ".") ;;
       call_void (fun t0 => git_commit env t0 "Adding changelog from automation.")
                 (Git_commit "Adding changelog from automation.") ;;
       call_void (fun t0 => git_push env t0 "origin" br) (Git_push "origin" br) ;;
       Logger.notice ("Pushed changes to " ++ br)%string)
        ((t ++ commitHead env tmpRepoPath touched) ++ identityEvents env s1 s2)
      = (o, t ++ evs)
      /\ CommitShape env tmpRepoPath br touched o evs).
  { intros s1 s2. unfold bind at 1, call at 1.
    destruct (git_raw env _ statusShort) as [e|s].
    { eexists _, _. split; [|apply (Commit_status_throws _ _ _ _ s1 s2 e)].
      rewrite <- ?app_assoc. reflexivity. }
    unfold bind at 1.
    destruct (Nat.eqb (String.length s) 0) eqn:Hs; cbn [when].
    { apply Nat.eqb_eq in Hs. unfold bind, Logger.notice, emit, process_exit.
      eexists _, _. split; [|apply (Commit_nothing_to_commit _ _ _ _ s1 s2 s Hs)].
      rewrite <- ?app_assoc. reflexivity. }
    apply Nat.eqb_neq in Hs. unfold ret at 1.
    unfold bind at 1, Logger.notice at 1, emit at 1.
    unfold bind at 1, call_void at 1.
    destruct (git_add env _ ".") as [e|].
    { eexists _, _. split; [|apply (Commit_add_throws _ _ _ _ s1 s2 s e Hs)].
      unfold stagingEvents. rewrite <- ?app_assoc. reflexivity. }
    unfold bind at 1, call_void at 1.
    destruct (git_commit env _ _) as [e|].
    { eexists _, _. split; [|apply (Commit_commit_throws _ _ _ _ s1 s2 s e Hs)].
      unfold stagingEvents. rewrite <- ?app_assoc. reflexivity. }
    unfold bind at 1, call_void at 1.
    destruct (git_push env _ _ _) as [e|].
    { eexists _, _. split; [|apply (Commit_push_throws _ _ _ _ s1 s2 s e Hs)].
      unfold stagingEvents. rewrite <- ?app_assoc. reflexivity. }
    unfold Logger.notice, emit.
    eexists _, _. split; [|apply (Commit_pushed _ _ _ _ s1 s2 s Hs)].
    unfold stagingEvents. rewrite <- ?app_assoc. reflexivity. }
  unfold bind at 1.
  destruct (isGithubCI env) eqn:Hci; cbn [when].
  - unfold bind at 1, call at 1.
    destruct (git_raw env _ identityEmail) as [e|s1].
    { eexists _, _. split; [|apply (Commit_email_throws _ _ _ _ e Hci)].
      unfold commitHead. rewrite Hci. rewrite <- ?app_assoc. reflexivity. }
    unfold bind at 1, call at 1.
    destruct (git_raw env _ identityName) as [e|s2].
    { eexists _, _. split; [|apply (Commit_name_throws _ _ _ _ s1 e Hci)].
      unfold commitHead. rewrite Hci. rewrite <- ?app_assoc. reflexivity. }
    unfold ret at 1.
    destruct (Hrest s1 s2) as (o & evs & Hrun & Hshape).
    unfold identityEvents in Hrun. rewrite Hci in Hrun.
    exists o, evs. split; [|exact Hshape].
    rewrite <- Hrun. f_equal. rewrite <- ?app_assoc. reflexivity.
  - unfold ret at 1.
    destruct (Hrest EmptyString EmptyString) as (o & evs & Hrun & Hshape).
    unfold identityEvents in Hrun. rewrite Hci in Hrun.
    exists o, evs. split; [|exact Hshape].
    rewrite <- Hrun. f_equal. rewrite app_nil_r. reflexivity.
Qed.

Lemma changefile_action_shape env prNumber options :
  exists o t,
    changefile_action env prNumber options [] = (o, t)
    /\ RunShape env prNumber options o t.
Proof.
  unfold changefile_action.
  unfold bind at 1, Logger.startTask at 1, emit at 1.
  unfold bind at 1, call at 1.
  destruct (getPullRequestData env _ _ _) as [e|pr].
  { eexists _, _. split; [reflexivity | apply Run_fetch_throws]. }
  unfold bind at 1, Logger.endTask at 1, emit at 1.
  unfold bind at 1, call_bool at 1.
  unfold bind at 1.
  destruct (shouldAutomateChangelog env (prBody pr)); cbn [negb when].
  2:{ unfold bind, Logger.notice, emit, process_exit.
      eexists _, _. split; [reflexivity | apply Run_not_requested]. }
  unfold ret at 1.
  unfold bind at 1, call at 1.
  destruct (getChangelogDetails env (prBody pr)) as [e|d].
  { eexists _, _. split; [reflexivity | apply Run_details_throw]. }
  unfold bind at 1, Logger.startTask at 1, emit at 1.
  unfold bind at 1.
  assert (Hmain : forall tmpRepoPath t0,
    t0 = fetchEvents prNumber options (inr pr)
           ++ [Logger_endTask; Call_shouldAutomateChangelog (prBody pr) true;
               Call_getChangelogDetails (prBody pr) (inr d); cloneTask options pr]
           ++ (if truthy (devRepoPath options) then []
               else [Call_cloneAuthenticatedRepo (headOwner pr) (name options) false
                       (inr tmpRepoPath)]) ->
    exists o t,
      (Logger.endTask ;;
       Logger.notice
         ("Temporary clone of '" ++ headOwner pr ++ "/" ++ name options
          ++ "' created at " ++ tmpRepoPath)%string ;;
       Logger.notice ("Checking out remote branch " ++ branch pr)%string ;;
       call_void (fun _ => checkoutRemoteBranch env tmpRepoPath (branch pr))
                 (Call_checkoutRemoteBranch tmpRepoPath (branch pr)) ;;
       Logger.notice "Getting all touched projects requiring a changelog" ;;
       touched <-
         call (fun _ => getTouchedProjectsRequiringChangelog env
                          tmpRepoPath (base pr) (head pr) (fileName pr)
                          (owner options) (name options))
              (Call_getTouchedProjectsRequiringChangelog
                 tmpRepoPath (base pr) (head pr) (fileName pr)
                 (owner options) (name options)) ;;
       try_catch
         (reconcileAndGenerate env tmpRepoPath (fileName pr) (devRepoPath options) d touched)
         (fun e => Logger.error e) ;;
       commitAndPush env tmpRepoPath (branch pr) touched) t0 = (o, t)
      /\ RunShape env prNumber options o t).
  { intros tmpRepoPath t0 Ht0.
    unfold bind at 1, Logger.endTask at 1, emit at 1.
    unfold bind at 1, Logger.notice at 1, emit at 1.
    unfold bind at 1, Logger.notice at 1, emit at 1.
    unfold bind at 1, call_void at 1.
    destruct (checkoutRemoteBranch env tmpRepoPath (branch pr)) as [e|].
    { eexists _, _. split; [reflexivity|]. subst t0. rewrite <- ?app_assoc.
      apply (Run_checkout_throws env prNumber options pr d tmpRepoPath e). }
    unfold bind at 1, Logger.notice at 1, emit at 1.
    unfold bind at 1, call at 1.
    destruct (getTouchedProjectsRequiringChangelog env _ _ _ _ _ _) as [e|touched].
    { eexists _, _. split; [reflexivity|]. subst t0. rewrite <- ?app_assoc.
      apply (Run_touched_throws env prNumber options pr d tmpRepoPath e). }
    set (t1 := (((((t0 ++ _) ++ _) ++ _) ++ _) ++ _) ++ _).
    assert (Ht1 : t1 = prefixEvents prNumber options pr d tmpRepoPath touched).
    { unfold t1, prefixEvents. subst t0. unfold fetchEvents, cloneTask.
      rewrite <- ?app_assoc. reflexivity. }
    clearbody t1. subst t1. clear Ht0 t0.
    unfold bind at 1, try_catch.
    destruct (reconcileAndGenerate_shape env tmpRepoPath (fileName pr)
                (devRepoPath options) d touched
                (prefixEvents prNumber options pr d tmpRepoPath touched))
      as (o & evs & Hrun & Hshape).
    rewrite Hrun. destruct o as [[]|e|c].
    - destruct (commitAndPush env tmpRepoPath (branch pr) touched _) as [o t] eqn:Hc.
      exists o, t. split; [reflexivity|].
      eapply Run_commit_after_try; [exact Hshape | exact Hc].
    - unfold Logger.error, emit.
      destruct (commitAndPush env tmpRepoPath (branch pr) touched _) as [o t] eqn:Hc.
      exists o, t. split; [reflexivity|].
      eapply Run_commit_after_catch; [exact Hshape|].
      rewrite <- Hc. rewrite <- ?app_assoc. reflexivity.
    - eexists _, _. split; [reflexivity|]. apply Run_exits_in_try. exact Hshape. }
  destruct (truthy (devRepoPath options)) eqn:Hdev.
  - unfold ret at 1.
    apply (Hmain (text (devRepoPath options))).
    unfold fetchEvents. rewrite ?Hdev. rewrite <- ?app_assoc. reflexivity.
  - unfold call at 1.
    destruct (cloneAuthenticatedRepo env _ _ _) as [e|tmpRepoPath].
    { eexists _, _. split; [reflexivity|]. rewrite <- ?app_assoc.
      apply (Run_clone_throws env prNumber options pr d e Hdev). }
    apply (Hmain tmpRepoPath).
    unfold fetchEvents. rewrite ?Hdev. rewrite <- ?app_assoc. reflexivity.
Qed.

Lemma run_shape env prNumber options :
  RunShape env prNumber options
    (fst (run env prNumber options)) (snd (run env prNumber options)).
Proof.
  unfold run.
  destruct (changefile_action_shape env prNumber options) as (o & t & Hrun & Hshape).
  rewrite Hrun. exact Hshape.
Qed.

(** ** Which events each block can add *)

Lemma forallb_flat_map {A} (P : Event -> bool) (f : A -> Trace) (l : list A) :
  (forall x, forallb P (f x) = true) -> forallb P (flat_map f l) = true.
Proof.
  intros H. induction l as [|x l IH]; simpl; [reflexivity|].
  rewrite forallb_app, H, IH. reflexivity.
Qed.

Lemma disjoint_clean (K P : Event -> bool) (t : Trace) :
  forallb K t = true -> (forall ev, K ev = true -> P ev = false) ->
  existsb P t = false.
Proof.
  intros HK HP. induction t as [|x t IH]; simpl in *; [reflexivity|].
  apply andb_prop in HK as [Hx Ht]. rewrite (HP x Hx), IH by assumption. reflexivity.
Qed.

Lemma In_app_clean (P : Event -> bool) (ev : Event) (a b : Trace) :
  In ev (a ++ b) -> P ev = true -> existsb P a = false -> In ev b.
Proof.
  intros Hin HP Ha. apply in_app_or in Hin as [Hin|Hin]; [|exact Hin].
  assert (existsb P a = true) by (apply existsb_exists; eauto). congruence.
Qed.

Ltac kinds :=
  repeat first
    [ reflexivity
    | rewrite forallb_app
    | apply andb_true_intro; split
    | apply forallb_flat_map; intros
    | match goal with
      | |- context [if ?b then _ else _] => destruct b
      | |- context [removalEvents _ _ _ ?pb] => destruct pb as [? []]
      end ].

Lemma prefixEvents_kinds prNumber options pr d tmpRepoPath touched :
  forallb inPrefix (prefixEvents prNumber options pr d tmpRepoPath touched) = true.
Proof. unfold prefixEvents. kinds. Qed.

Lemma BodyShape_kinds env tmpRepoPath file dev d touched o evs :
  BodyShape env tmpRepoPath file dev d touched o evs -> forallb inBody evs = true.
Proof. intros H. destruct H; kinds. Qed.

Lemma CommitShape_kinds env tmpRepoPath br touched o evs :
  CommitShape env tmpRepoPath br touched o evs -> forallb inCommit evs = true.
Proof. intros H. destruct H; unfold identityEvents; kinds. Qed.

(** ** A run, split at the [try] statement *)

Lemma run_split env prNumber options :
  let O := fst (run env prNumber options) in
  let T := snd (run env prNumber options) in
  (forallb inPrefix T = true /\ existsb listedTouched T = false
   /\ (truthy (devRepoPath options) = true -> existsb isClone T = false))
  \/ exists pr d tmpRepoPath touched evs ob tail,
       BodyShape env tmpRepoPath (fileName pr) (devRepoPath options) d touched ob evs
       /\ T = prefixEvents prNumber options pr d tmpRepoPath touched ++ evs ++ tail
       /\ match ob with
          | Exited c => tail = [] /\ O = Exited c
          | Done _ =>
              CommitShape env tmpRepoPath (branch pr) touched O tail
              /\ (O, T) = commitAndPush env tmpRepoPath (branch pr) touched
                            (prefixEvents prNumber options pr d tmpRepoPath touched ++ evs)
          | Thrown e =>
              exists cevs,
                tail = Logger_error e :: cevs
                /\ CommitShape env tmpRepoPath (branch pr) touched O cevs
                /\ (O, T) = commitAndPush env tmpRepoPath (branch pr) touched
                              (prefixEvents prNumber options pr d tmpRepoPath touched
                                 ++ evs ++ [Logger_error e])
          end.
Proof.
  cbv zeta. pose proof (run_shape env prNumber options) as Hs.
  destruct (run env prNumber options) as [O T]. cbn [fst snd] in *.
  destruct Hs.
  1-6: left; try destruct (truthy (devRepoPath options)); repeat split;
    solve [reflexivity | intros; congruence].
  - right. exists pr, d, tmpRepoPath, touched, evs, (Exited c), [].
    split; [assumption|]. rewrite app_nil_r. auto.
  - right.
    destruct (commitAndPush_shape env tmpRepoPath (branch pr) touched
                (prefixEvents prNumber options pr d tmpRepoPath touched ++ evs))
      as (o' & cevs & Hrun & Hc).
    rewrite Hrun in H0. apply pair_equal_spec in H0 as [<- <-].
    exists pr, d, tmpRepoPath, touched, evs, (Done tt), cevs.
    split; [assumption|]. rewrite <- app_assoc. split; [reflexivity|].
    split; [assumption|]. rewrite app_assoc. symmetry. exact Hrun.
  - right.
    destruct (commitAndPush_shape env tmpRepoPath (branch pr) touched
                (prefixEvents prNumber options pr d tmpRepoPath touched ++ evs
                   ++ [Logger_error e]))
      as (o' & cevs & Hrun & Hc).
    rewrite Hrun in H0. apply pair_equal_spec in H0 as [<- <-].
    exists pr, d, tmpRepoPath, touched, evs, (Thrown e), (Logger_error e :: cevs).
    split; [assumption|]. split; [rewrite <- ?app_assoc; reflexivity|].
    exists cevs. split; [reflexivity|]. split; [assumption|].
    symmetry. exact Hrun.
Qed.

(** ** Membership in the traces of the shapes *)

Ltac in_cases H :=
  repeat match type of H with
  | In _ (_ ++ _) => apply in_app_or in H; destruct H as [H|H]
  | In _ (_ :: _) => destruct H as [H|H]
  | In _ [] => destruct H
  | In _ (if ?b then _ else _) => destruct b eqn:?
  | In _ (identityEvents _ _ _) => unfold identityEvents in H
  | In _ (commitHead _ _ _) => unfold commitHead in H
  | In _ (stagingEvents _) => unfold stagingEvents in H
  | In _ (reconcileHead _ _) => unfold reconcileHead in H
  | In _ (installEvents _ _) => unfold installEvents in H
  | In _ (removalFailure _ _ _ _ _) => unfold removalFailure in H
  | In _ (generationEvents _ _ _ _ _) => unfold generationEvents in H
  end;
  try discriminate H.

(** Finds an event in a trace given as a concatenation. *)
Ltac in_solve :=
  solve [ assumption
        | apply in_eq
        | apply in_cons; in_solve
        | apply in_or_app; left; in_solve
        | apply in_or_app; right; in_solve ].

Lemma in_clean (P : Event -> bool) (ev : Event) (t : Trace) :
  In ev t -> P ev = true -> existsb P t = false -> False.
Proof.
  intros Hin HP Ht.
  assert (existsb P t = true) by (apply existsb_exists; eauto). congruence.
Qed.

Lemma CommitShape_clean (P : Event -> bool) env tmpRepoPath br touched o evs :
  CommitShape env tmpRepoPath br touched o evs ->
  (forall ev, inCommit ev = true -> P ev = false) -> existsb P evs = false.
Proof.
  intros H HP. apply disjoint_clean with (K := inCommit); [|exact HP].
  eapply CommitShape_kinds; eassumption.
Qed.

Lemma BodyShape_clean (P : Event -> bool) env tmpRepoPath file dev d touched o evs :
  BodyShape env tmpRepoPath file dev d touched o evs ->
  (forall ev, inBody ev = true -> P ev = false) -> existsb P evs = false.
Proof.
  intros H HP. apply disjoint_clean with (K := inBody); [|exact HP].
  eapply BodyShape_kinds; eassumption.
Qed.

Lemma prefixEvents_clean (P : Event -> bool) prNumber options pr d tmpRepoPath touched :
  (forall ev, inPrefix ev = true -> P ev = false) ->
  existsb P (prefixEvents prNumber options pr d tmpRepoPath touched) = false.
Proof.
  intros HP. apply disjoint_clean with (K := inPrefix); [|exact HP].
  apply prefixEvents_kinds.
Qed.

(** Closes [forall ev, K ev = true -> P ev = false] for classifiers that
    look at the constructor only. *)
Ltac by_kind := intros []; simpl; intros; first [reflexivity | discriminate].

Lemma CommitShape_status env tmpRepoPath br touched o evs s :
  CommitShape env tmpRepoPath br touched o evs ->
  In (Git_raw statusShort (inr s)) evs -> String.length s = 0 ->
  o = Exited 0
  /\ existsb isStageCommitPush evs = false
  /\ exists t, evs = t ++ [Git_raw statusShort (inr s);
                           Logger_notice
                             "No changes in changelog files. Skipping commit and push.";
                           Process_exit 0].
Proof.
  intros Hshape Hin Hlen.
  destruct Hshape; in_cases Hin;
    try (injection Hin as ->; congruence).
  all: injection Hin as ->.
  all: split; [reflexivity|]; split;
    [unfold identityEvents; destruct (isGithubCI env); reflexivity|].
  all: eexists; rewrite app_assoc; reflexivity.
Qed.

Lemma prefixEvents_touched prNumber options pr d tmpRepoPath touched
      path b h file o n touched' :
  In (Call_getTouchedProjectsRequiringChangelog path b h file o n (inr touched'))
     (prefixEvents prNumber options pr d tmpRepoPath touched) ->
  touched' = touched /\ path = tmpRepoPath /\ file = fileName pr.
Proof.
  intros Hin. unfold prefixEvents in Hin. in_cases Hin.
  all: injection Hin; intros; subst; auto.
Qed.

(** Where the call that lists the touched projects can sit in a run. *)
Lemma touched_in_run env prNumber options pr d tmpRepoPath touched evs tail
      path b h file o n touched' ob oc :
  BodyShape env tmpRepoPath (fileName pr) (devRepoPath options) d touched ob evs ->
  (tail = [] \/ exists cevs,
      (tail = cevs \/ exists e, tail = Logger_error e :: cevs)
      /\ CommitShape env tmpRepoPath (branch pr) touched oc cevs) ->
  In (Call_getTouchedProjectsRequiringChangelog path b h file o n (inr touched'))
     (prefixEvents prNumber options pr d tmpRepoPath touched ++ evs ++ tail) ->
  touched' = touched /\ path = tmpRepoPath /\ file = fileName pr.
Proof.
  intros Hbody Htail Hin.
  apply in_app_or in Hin as [Hin|Hin]; [eapply prefixEvents_touched; eassumption|].
  exfalso. apply (in_clean listedTouched _ _ Hin); [reflexivity|].
  rewrite existsb_app. apply orb_false_iff. split.
  - eapply BodyShape_clean; [eassumption | by_kind].
  - destruct Htail as [-> | (cevs & [-> | (e & ->)] & Hc)]; [reflexivity | |].
    + eapply CommitShape_clean; [eassumption | by_kind].
    + simpl. eapply CommitShape_clean; [eassumption | by_kind].
Qed.

Lemma removalEvents_no_generate env tmpRepoPath file done :
  existsb isGenerate (flat_map (removalEvents env tmpRepoPath file) done) = false.
Proof. apply existsb_flat_map_false. intros [p []]; reflexivity. Qed.

Lemma removalEvents_no_install env tmpRepoPath file done :
  existsb isInstall (flat_map (removalEvents env tmpRepoPath file) done) = false.
Proof. apply existsb_flat_map_false. intros [p []]; reflexivity. Qed.

Lemma removalEvents_no_failure env tmpRepoPath file done :
  existsb isFailure (flat_map (removalEvents env tmpRepoPath file) done) = false.
Proof. apply existsb_flat_map_false. intros [p []]; reflexivity. Qed.

(** ** Generation calls *)

Lemma isGenerateCmd_changelogCmd project file d :
  isGenerateCmd (changelogCmd project file d) = true.
Proof. reflexivity. Qed.

Lemma generatedCmds_generation tmpRepoPath file d r p :
  generatedCmds (generationEvents tmpRepoPath file d r p) = [changelogCmd p file d].
Proof. reflexivity. Qed.

Lemma generatedCmds_generations tmpRepoPath file d l :
  generatedCmds (flat_map (generationEvents tmpRepoPath file d None) l)
  = map (fun p => changelogCmd p file d) l.
Proof.
  induction l as [|p l IH]; [reflexivity|].
  cbn [flat_map map]. rewrite generatedCmds_app, generatedCmds_generation, IH.
  reflexivity.
Qed.

Lemma firstn_app_one {A} (gen : list A) (p : A) (post : list A) :
  firstn (S (List.length gen)) (gen ++ p :: post) = gen ++ [p].
Proof.
  induction gen as [|x gen IH]; [reflexivity|].
  change (x :: firstn (S (List.length gen)) (gen ++ p :: post) = x :: gen ++ [p]).
  rewrite IH. reflexivity.
Qed.

Lemma reconcile_no_generate env tmpRepoPath file paths done :
  generatedCmds (reconcileHead tmpRepoPath paths
                   ++ flat_map (removalEvents env tmpRepoPath file) done) = [].
Proof.
  apply generatedCmds_clean. rewrite existsb_app, removalEvents_no_generate. reflexivity.
Qed.

(** The generation calls of the [try] block run through the touched
    projects in order and stop at the first that throws. *)
Lemma BodyShape_generated env tmpRepoPath file dev d touched o evs :
  BodyShape env tmpRepoPath file dev d touched o evs ->
  exists k, generatedCmds evs = map (fun p => changelogCmd p file d) (firstn k touched).
Proof.
  intros H. destruct H.
  - exists 0. reflexivity.
  - exists 0. rewrite app_assoc, generatedCmds_app, reconcile_no_generate. reflexivity.
  - exists 0. rewrite app_assoc, generatedCmds_app, reconcile_no_generate. reflexivity.
  - exists 0. rewrite app_assoc, generatedCmds_app, reconcile_no_generate. reflexivity.
  - exists (List.length touched). rewrite firstn_all.
    rewrite app_assoc, generatedCmds_app, reconcile_no_generate.
    rewrite generatedCmds_app, generatedCmds_generations.
    destruct (truthy dev); reflexivity.
  - exists (S (List.length gen)). subst touched. rewrite firstn_app_one.
    rewrite app_assoc, generatedCmds_app, reconcile_no_generate.
    rewrite !generatedCmds_app, generatedCmds_generations, generatedCmds_generation.
    rewrite map_app. destruct (truthy dev); reflexivity.
Qed.

Lemma CommitShape_head env tmpRepoPath br touched o evs :
  CommitShape env tmpRepoPath br touched o evs ->
  exists rest,
    evs = Logger_notice ("Changelogs created for " ++ String.concat ", " touched)%string
            :: rest.
Proof. intros H. destruct H; eexists; reflexivity. Qed.

Lemma prefixEvents_details prNumber options pr d tmpRepoPath touched :
  In (Call_getChangelogDetails (prBody pr) (inr d))
     (prefixEvents prNumber options pr d tmpRepoPath touched).
Proof. unfold prefixEvents. simpl. auto 10. Qed.

(** ** Installation *)

Lemma beforeFirst_app_hit (P : Event -> bool) (a b : Trace) :
  existsb P a = true -> beforeFirst P (a ++ b) = beforeFirst P a.
Proof.
  induction a as [|x a IH]; simpl; intros H; [discriminate|].
  destruct (P x); [reflexivity|]. simpl in H. rewrite IH by assumption. reflexivity.
Qed.

Lemma beforeFirst_clean (P : Event -> bool) (a : Trace) :
  existsb P a = false -> beforeFirst P a = a.
Proof.
  intros H. rewrite <- (app_nil_r a) at 1.
  rewrite beforeFirst_app_clean by assumption. simpl. apply app_nil_r.
Qed.

Lemma generations_no_install tmpRepoPath file d r l :
  existsb isInstall (flat_map (generationEvents tmpRepoPath file d r) l) = false.
Proof. apply existsb_flat_map_false. reflexivity. Qed.

Lemma reconcile_no_install env tmpRepoPath file paths done :
  existsb isInstall (reconcileHead tmpRepoPath paths
                       ++ flat_map (removalEvents env tmpRepoPath file) done) = false.
Proof. rewrite existsb_app, removalEvents_no_install. reflexivity. Qed.

Lemma reconcile_no_generate_event env tmpRepoPath file paths done :
  existsb isGenerate (reconcileHead tmpRepoPath paths
                        ++ flat_map (removalEvents env tmpRepoPath file) done) = false.
Proof. rewrite existsb_app, removalEvents_no_generate. reflexivity. Qed.

(** What the [try] block did about installation. *)
Lemma BodyShape_install env tmpRepoPath file dev d touched o evs :
  BodyShape env tmpRepoPath file dev d touched o evs ->
  (existsb isInstall evs = false /\ existsb isGenerate evs = false
   /\ (touched = [] \/ existsb isReconcileFailure evs = true))
  \/ (truthy dev = true /\ existsb isInstall evs = false)
  \/ (truthy dev = false /\ count isInstall evs = 1
      /\ existsb isGenerate (beforeFirst isInstall evs) = false).
Proof.
  intros H. destruct H.
  - left. auto.
  - left. repeat split.
    + rewrite app_assoc, existsb_app, reconcile_no_install. reflexivity.
    + rewrite app_assoc, existsb_app, reconcile_no_generate_event. reflexivity.
    + right. rewrite !existsb_app. unfold removalFailure. simpl.
      rewrite !orb_true_r. reflexivity.
  - left. repeat split; auto.
    + rewrite app_assoc, existsb_app, reconcile_no_install. reflexivity.
    + rewrite app_assoc, existsb_app, reconcile_no_generate_event. reflexivity.
  - right. right. split; [assumption|]. split.
    + rewrite app_assoc, count_app, (count_none _ _ (reconcile_no_install _ _ _ _ _)).
      reflexivity.
    + rewrite app_assoc, beforeFirst_app_clean by apply reconcile_no_install.
      rewrite existsb_app, reconcile_no_generate_event. reflexivity.
  - destruct (truthy dev) eqn:Hdev.
    + right. left. split; [reflexivity|].
      rewrite app_assoc, existsb_app, reconcile_no_install.
      apply generations_no_install.
    + right. right. split; [reflexivity|]. split.
      * rewrite app_assoc, count_app, (count_none _ _ (reconcile_no_install _ _ _ _ _)).
        rewrite count_app, (count_none _ _ (generations_no_install _ _ _ _ _)).
        reflexivity.
      * rewrite app_assoc, beforeFirst_app_clean by apply reconcile_no_install.
        rewrite existsb_app, reconcile_no_generate_event. reflexivity.
  - destruct (truthy dev) eqn:Hdev.
    + right. left. split; [reflexivity|].
      rewrite app_assoc, existsb_app, reconcile_no_install. cbn [app orb].
      rewrite existsb_app, generations_no_install. reflexivity.
    + right. right. split; [reflexivity|]. split.
      * rewrite app_assoc, count_app, (count_none _ _ (reconcile_no_install _ _ _ _ _)).
        rewrite count_app, count_app, (count_none _ _ (generations_no_install _ _ _ _ _)).
        reflexivity.
      * rewrite app_assoc, beforeFirst_app_clean by apply reconcile_no_install.
        rewrite existsb_app, reconcile_no_generate_event. reflexivity.
Qed.

Lemma count_positive (P : Event -> bool) (t : Trace) :
  count P t <> 0 -> existsb P t = true.
Proof.
  intros H. destruct (existsb P t) eqn:E; [reflexivity|].
  rewrite count_none in H by assumption. congruence.
Qed.

(** The events after the [try] statement: none, or the last block,
    preceded by the logged error when the [try] block threw. *)
Lemma tail_clean (P : Event -> bool) env tmpRepoPath br touched
      (O : outcome unit) (T t0 : Trace) (t0' : Err -> Trace)
      (ob : outcome unit) (tail : Trace) :
  match ob with
  | Exited c => tail = [] /\ O = Exited c
  | Done _ =>
      CommitShape env tmpRepoPath br touched O tail
      /\ (O, T) = commitAndPush env tmpRepoPath br touched t0
  | Thrown e =>
      exists cevs,
        tail = Logger_error e :: cevs
        /\ CommitShape env tmpRepoPath br touched O cevs
        /\ (O, T) = commitAndPush env tmpRepoPath br touched (t0' e)
  end ->
  (forall ev, inCommit ev = true -> P ev = false) ->
  (forall e, P (Logger_error e) = false) ->
  existsb P tail = false.
Proof.
  intros Hob HP Herr. destruct ob as [[]|e|c].
  - destruct Hob as [Hc _]. eapply CommitShape_clean; eassumption.
  - destruct Hob as (cevs & -> & Hc & _). simpl. rewrite Herr.
    eapply CommitShape_clean; eassumption.
  - destruct Hob as [-> _]. reflexivity.
Qed.

(** ** Reconciliation *)

Lemma in_beforeFirst (P : Event -> bool) (a b : Trace) (ev : Event) :
  In ev a -> existsb P a = false -> In ev (beforeFirst P (a ++ b)).
Proof.
  intros Hin Ha. rewrite beforeFirst_app_clean by assumption.
  apply in_or_app. left. exact Hin.
Qed.

Lemma removalEvents_no_reconcile_failure env tmpRepoPath file done :
  existsb isReconcileFailure (flat_map (removalEvents env tmpRepoPath file) done) = false.
Proof. apply existsb_flat_map_false. intros [p []]; reflexivity. Qed.

Lemma generations_no_reconcile_failure tmpRepoPath file d r l :
  existsb isReconcileFailure (flat_map (generationEvents tmpRepoPath file d r) l) = false.
Proof. apply existsb_flat_map_false. intros p. destruct r; reflexivity. Qed.

Lemma generations_no_listing tmpRepoPath file d r l :
  existsb isListing (flat_map (generationEvents tmpRepoPath file d r) l) = false.
Proof. apply existsb_flat_map_false. reflexivity. Qed.

Lemma removalEvents_no_listing env tmpRepoPath file done :
  existsb isListing (flat_map (removalEvents env tmpRepoPath file) done) = false.
Proof. apply existsb_flat_map_false. intros [p []]; reflexivity. Qed.

(** Either the reconciliation threw, and then the block made no
    generation call, or it ran to its end over all the listed projects. *)
Lemma BodyShape_reconcile env tmpRepoPath file dev d touched o evs :
  BodyShape env tmpRepoPath file dev d touched o evs ->
  (existsb isReconcileFailure evs = true /\ existsb isGenerate evs = false)
  \/ (existsb isReconcileFailure evs = false
      /\ exists done rest,
           evs = reconcileHead tmpRepoPath (map fst done)
                   ++ flat_map (removalEvents env tmpRepoPath file) done ++ rest
           /\ existsb isListing rest = false).
Proof.
  intros H. destruct H.
  - left. auto.
  - left. split.
    + rewrite !existsb_app. unfold removalFailure. simpl.
      rewrite !orb_true_r. reflexivity.
    + rewrite app_assoc, existsb_app, reconcile_no_generate_event. reflexivity.
  - right. split.
    + rewrite !existsb_app, removalEvents_no_reconcile_failure. reflexivity.
    + eexists _, _. split; reflexivity.
  - right. split.
    + rewrite !existsb_app, removalEvents_no_reconcile_failure. reflexivity.
    + eexists _, _. split; reflexivity.
  - right. split.
    + rewrite !existsb_app, removalEvents_no_reconcile_failure,
        generations_no_reconcile_failure.
      destruct (truthy dev); reflexivity.
    + eexists _, _. split; [reflexivity|].
      rewrite existsb_app, generations_no_listing. destruct (truthy dev); reflexivity.
  - right. split.
    + rewrite !existsb_app, removalEvents_no_reconcile_failure,
        generations_no_reconcile_failure.
      destruct (truthy dev); reflexivity.
    + eexists _, _. split; [reflexivity|].
      rewrite !existsb_app, generations_no_listing. destruct (truthy dev); reflexivity.
Qed.

Lemma removal_of_listed env tmpRepoPath file done p :
  In p (map fst done) ->
  exists b,
    In (Call_existsSync (fragmentPath env tmpRepoPath file p) b)
       (flat_map (removalEvents env tmpRepoPath file) done)
    /\ (b = true ->
        In (Call_execSync ("rm " ++ fragmentPath env tmpRepoPath file p)%string
              tmpRepoPath None)
           (flat_map (removalEvents env tmpRepoPath file) done)).
Proof.
  intros Hin. apply in_map_iff in Hin as ([q b] & <- & Hin). exists b. split.
  - apply in_flat_map. exists (q, b). split; [exact Hin|].
    unfold removalEvents. destruct b; simpl; auto.
  - intros ->. apply in_flat_map. exists (q, true). split; [exact Hin|].
    unfold removalEvents. simpl. auto.
Qed.

Lemma prefixEvents_fetch prNumber options pr d tmpRepoPath touched :
  In (Call_getPullRequestData (owner options) (name options) prNumber (inr pr))
     (prefixEvents prNumber options pr d tmpRepoPath touched).
Proof. unfold prefixEvents. simpl. auto. Qed.

(** ** The identity configuration *)

Lemma CommitShape_ci env tmpRepoPath br touched o evs b :
  CommitShape env tmpRepoPath br touched o evs ->
  In (Call_isGithubCI b) evs -> b = isGithubCI env.
Proof.
  intros H Hin. destruct H; in_cases Hin; injection Hin; auto.
Qed.

Lemma CommitShape_identity env tmpRepoPath br touched o evs :
  CommitShape env tmpRepoPath br touched o evs ->
  existsb writesLocalGitConfig evs = false
  /\ existsb writesGlobalGitConfig evs = isGithubCI env
  /\ (isGithubCI env = true ->
      exists r, In (Git_raw identityEmail r) evs
                /\ match r with
                   | inr _ => exists r', In (Git_raw identityName r') evs
                   | inl _ => True
                   end)
  /\ (forall args r, In (Git_raw args r) evs ->
      args = identityEmail \/ args = identityName \/ args = statusShort).
Proof.
  intros H. destruct H; unfold identityEvents, commitHead, stagingEvents;
    try rewrite H; destruct (isGithubCI env) eqn:Hci; try discriminate.
  all: split; [reflexivity|]; split; [reflexivity|]; split.
  all: try (intros; discriminate).
  all: try (intros _; eexists; split; [simpl; eauto 8 | simpl; eauto 12]).
  all: intros args r Hin; simpl in Hin;
    repeat (destruct Hin as [Hin|Hin]; [try discriminate Hin; injection Hin; auto|]);
    destruct Hin.
Qed.

Lemma CommitShape_exit env tmpRepoPath br touched o evs :
  CommitShape env tmpRepoPath br touched o evs ->
  exit_code o = 0%Z \/ existsb isGitFailure evs = true.
Proof.
  intros H. destruct H; [right|right|right|left|right|right|right|left];
    try reflexivity;
    unfold identityEvents; destruct (isGithubCI env); reflexivity.
Qed.

(** ** A generation call that throws *)

Lemma generations_succeeded tmpRepoPath file d gen q :
  In q gen ->
  In (Call_execSync (changelogCmd q file d) tmpRepoPath None)
     (flat_map (generationEvents tmpRepoPath file d None) gen).
Proof.
  intros Hin. apply in_flat_map. exists q. split; [exact Hin|].
  unfold generationEvents. simpl. auto.
Qed.

Lemma not_in_successes {A} (f : A -> Trace) (l : list A) cmd cwd (e : Err) :
  (forall x, existsb isFailure (f x) = false) ->
  ~ In (Call_execSync cmd cwd (Some e)) (flat_map f l).
Proof.
  intros Hf Hin. apply (in_clean isFailure _ _ Hin); [reflexivity|].
  apply existsb_flat_map_false. exact Hf.
Qed.

(** A throwing generation call is the last event of the [try] block; the
    projects before it in the list were generated, none after it. *)
Lemma BodyShape_generation_failure env tmpRepoPath file dev d touched o evs cmd cwd e :
  BodyShape env tmpRepoPath file dev d touched o evs ->
  In (Call_execSync cmd cwd (Some e)) evs -> isGenerateCmd cmd = true ->
  exists gen p post before,
    touched = gen ++ p :: post
    /\ o = Thrown e
    /\ cmd = changelogCmd p file d /\ cwd = tmpRepoPath
    /\ evs = before ++ [Call_execSync cmd cwd (Some e)]
    /\ generatedCmds before = map (fun q => changelogCmd q file d) gen
    /\ (forall q, In q gen ->
        In (Call_execSync (changelogCmd q file d) tmpRepoPath None) before).
Proof.
  intros H Hin Hcmd.
  assert (Hrm : forall done,
             ~ In (Call_execSync cmd cwd (Some e))
                  (flat_map (removalEvents env tmpRepoPath file) done)).
  { intros done. apply not_in_successes. intros [p []]; reflexivity. }
  assert (Hgn : forall l,
             ~ In (Call_execSync cmd cwd (Some e))
                  (flat_map (generationEvents tmpRepoPath file d None) l)).
  { intros l. apply not_in_successes. reflexivity. }
  destruct H; in_cases Hin;
    try (exfalso; eapply Hrm; eassumption);
    try (exfalso; eapply Hgn; eassumption);
    try (injection Hin as <- <- <-; discriminate Hcmd);
    try (injection Hin as <- <-; discriminate Hcmd).
  all: injection Hin as <- <- ->.
  all: exists gen, p, post.
  all: eexists; split; [assumption|]; split; [reflexivity|]; split; [reflexivity|];
    split; [reflexivity|]; split;
    [change (generationEvents tmpRepoPath file d (Some e) p)
       with ([Logger_notice ("Running changelog command for " ++ p)%string]
               ++ [Call_execSync (changelogCmd p file d) tmpRepoPath (Some e)]);
     rewrite ?app_assoc; reflexivity|].
  all: split.
  all: try (intros q Hq; apply in_or_app; left; apply in_or_app; right;
            apply generations_succeeded; exact Hq).
  all: rewrite !generatedCmds_app, generatedCmds_generations.
  all: rewrite (generatedCmds_clean (reconcileHead _ _)) by reflexivity.
  all: rewrite (generatedCmds_clean (flat_map (removalEvents _ _ _) _))
         by apply removalEvents_no_generate.
  all: destruct (truthy dev); simpl; rewrite ?app_nil_r; reflexivity.
Qed.

Lemma prefixEvents_listed prNumber options pr d tmpRepoPath touched :
  In (Call_getTouchedProjectsRequiringChangelog tmpRepoPath (base pr) (head pr)
        (fileName pr) (owner options) (name options) (inr touched))
     (prefixEvents prNumber options pr d tmpRepoPath touched).
Proof.
  unfold prefixEvents. apply in_or_app. right. apply in_or_app. right.
  simpl. auto 10.
Qed.

(** ** Words of a command string *)

Lemma append_assoc (a b c : string) :
  ((a ++ b) ++ c = a ++ b ++ c)%string.
Proof. induction a as [|x a IH]; simpl; [reflexivity | rewrite IH; reflexivity]. Qed.

Lemma isPlain_tests (c : ascii) :
  isPlain c = true ->
  isNull c = false /\ isBlank c = false /\ isQuote c = false /\ isSingleQuote c = false
  /\ isBackslash c = false /\ isExpansion c = false /\ isBeyond c = false
  /\ isBeyondAtStart c = false.
Proof.
  unfold isPlain. intros H. apply negb_true_iff in H.
  repeat (apply orb_false_iff in H as [H ?]). auto 10.
Qed.

Lemma isSafeQuoted_tests (c : ascii) :
  isSafeQuoted c = true ->
  isNull c = false /\ isQuote c = false /\ isBackslash c = false /\ isExpansion c = false.
Proof.
  unfold isSafeQuoted. intros H. apply negb_true_iff in H.
  repeat (apply orb_false_iff in H as [H ?]). auto.
Qed.

(** A plain stretch goes whole into the word in progress. *)
Lemma splitFrom_plain (p rest w : string) (seen : list string) :
  allChars isPlain p = true ->
  splitFrom (p ++ rest)%string Bare (Some w) seen
  = splitFrom rest Bare (Some (w ++ p)%string) seen.
Proof.
  revert w. induction p as [|c p IH]; intros w Hp.
  - cbn [append]. replace (w ++ EmptyString)%string with w; [reflexivity|].
    clear. induction w as [|x w IH]; cbn; [reflexivity | rewrite <- IH; reflexivity].
  - cbn [allChars] in Hp. apply andb_prop in Hp as [Hc Hp].
    destruct (isPlain_tests c Hc) as (H1 & H2 & H3 & H4 & H5 & H6 & H7 & H8).
    cbn [append splitFrom]. rewrite H1, H2, H3, H4, H5, H6, H7, H8. cbn [orb].
    unfold keep. cbn [wordInProgress]. rewrite (IH _ Hp), append_assoc. reflexivity.
Qed.

(** A plain word starts a word. *)
Lemma splitFrom_word (p rest : string) (seen : list string) :
  isPlainWord p = true ->
  splitFrom (p ++ rest)%string Bare None seen = splitFrom rest Bare (Some p) seen.
Proof.
  unfold isPlainWord. intros H. apply andb_prop in H as [Hne Hp].
  destruct p as [|c p]; [discriminate Hne|].
  cbn [allChars] in Hp. apply andb_prop in Hp as [Hc Hp].
  destruct (isPlain_tests c Hc) as (H1 & H2 & H3 & H4 & H5 & H6 & H7 & H8).
  cbn [append splitFrom]. rewrite H1, H2, H3, H4, H5, H6, H7, H8. cbn [orb].
  unfold keep. cbn [wordInProgress append].
  rewrite (splitFrom_plain p rest _ seen Hp). reflexivity.
Qed.

(** Between double quotes, a stretch without the four special characters
    goes whole into the word in progress. *)
Lemma splitFrom_safe (m rest w : string) (seen : list string) :
  allChars isSafeQuoted m = true ->
  splitFrom (m ++ rest)%string Double (Some w) seen
  = splitFrom rest Double (Some (w ++ m)%string) seen.
Proof.
  revert w. induction m as [|c m IH]; intros w Hm.
  - cbn [append]. replace (w ++ EmptyString)%string with w; [reflexivity|].
    clear. induction w as [|x w IH]; cbn; [reflexivity | rewrite <- IH; reflexivity].
  - cbn [allChars] in Hm. apply andb_prop in Hm as [Hc Hm].
    destruct (isSafeQuoted_tests c Hc) as (H1 & H2 & H3 & H4).
    cbn [append splitFrom]. rewrite H1, H2, H3, H4.
    unfold keep. cbn [wordInProgress]. rewrite (IH _ Hm), append_assoc. reflexivity.
Qed.

(** Reads the characters written out in the command string. *)
Ltac lit := cbn; cbv [keep wordInProgress closeWord]; cbn.

Lemma changelogCmd_parts (project file : string) (d : ChangelogDetails) :
  changelogCmd project file d
  = ("pnpm --filter=" ++ project ++ " run changelog add -f " ++ file
     ++ " -s " ++ significance d ++ " -t " ++ type d
     ++ " " ++ messageExpression d ++ " " ++ commentExpression d ++ " " ++ "-n")%string.
Proof. reflexivity. Qed.

(** The words before the message, when they need no quoting. *)
Lemma splitFrom_fixed (project file : string) (d : ChangelogDetails) (rest : string) :
  isPlainWord project = true -> isPlainWord file = true ->
  isPlainWord (significance d) = true -> isPlainWord (type d) = true ->
  splitFrom ("pnpm --filter=" ++ project ++ " run changelog add -f " ++ file
             ++ " -s " ++ significance d ++ " -t " ++ type d ++ " " ++ rest)%string
            Bare None []
  = splitFrom rest Bare None (rev (fixedWords project file d)).
Proof.
  intros Hp Hf Hs Ht. unfold isPlainWord in Hp. apply andb_prop in Hp as [_ Hp].
  lit. rewrite (splitFrom_plain project _ _ _ Hp). lit.
  rewrite (splitFrom_word file _ _ Hf). lit.
  rewrite (splitFrom_word (significance d) _ _ Hs). lit.
  rewrite (splitFrom_word (type d) _ _ Ht). lit. reflexivity.
Qed.

Lemma isSafeText_truthy (t : option string) :
  isSafeText t = true -> truthy t = true -> allChars isSafeQuoted (text t) = true.
Proof. destruct t as [m|]; [intros H _; exact H | discriminate]. Qed.

(** An optional text without the four special characters is read as its
    flag and one word, the text itself. *)
Lemma splitFrom_message (d : ChangelogDetails) (rest : string) (seen : list string) :
  isSafeText (message d) = true ->
  splitFrom (messageExpression d ++ " " ++ rest)%string Bare None seen
  = splitFrom rest Bare None (rev (argOf "-e" (message d)) ++ seen).
Proof.
  intros Hsafe. unfold messageExpression, argOf.
  destruct (truthy (message d)) eqn:Ht; [|lit; reflexivity].
  pose proof (isSafeText_truthy _ Hsafe Ht) as Hm.
  unfold dq. rewrite !append_assoc. lit.
  rewrite (splitFrom_safe _ _ _ _ Hm). lit. reflexivity.
Qed.

Lemma splitFrom_comment (d : ChangelogDetails) (rest : string) (seen : list string) :
  isSafeText (comment d) = true ->
  splitFrom (commentExpression d ++ " " ++ rest)%string Bare None seen
  = splitFrom rest Bare None (rev (argOf "-c" (comment d)) ++ seen).
Proof.
  intros Hsafe. unfold commentExpression, argOf.
  destruct (truthy (comment d)) eqn:Ht; [|lit; reflexivity].
  pose proof (isSafeText_truthy _ Hsafe Ht) as Hm.
  unfold dq. rewrite !append_assoc. lit.
  rewrite (splitFrom_safe _ _ _ _ Hm). lit. reflexivity.
Qed.

Lemma checkName_pnpm (ws : list string) :
  checkName (Words ("pnpm"%string :: ws)) = Words ("pnpm"%string :: ws).
Proof. reflexivity. Qed.

(** The end of the command string. *)
Lemma splitFrom_end (seen : list string) :
  splitFrom "-n" Bare None seen = Words (rev seen ++ ["-n"%string]).
Proof. reflexivity. Qed.

(** Texts without the four special characters are confined. *)
Lemma safe_texts_are_confined (project file : string) (d : ChangelogDetails) :
  isPlainWord project = true -> isPlainWord file = true ->
  isPlainWord (significance d) = true -> isPlainWord (type d) = true ->
  isSafeText (message d) = true -> isSafeText (comment d) = true ->
  shellWords (changelogCmd project file d)
  = Words (fixedWords project file d ++ argOf "-e" (message d)
             ++ argOf "-c" (comment d) ++ ["-n"%string]).
Proof.
  intros Hp Hf Hs Ht Hm Hc. unfold shellWords.
  rewrite changelogCmd_parts, (splitFrom_fixed _ _ _ _ Hp Hf Hs Ht).
  rewrite (splitFrom_message _ _ _ Hm), (splitFrom_comment _ _ _ Hc), splitFrom_end.
  rewrite !rev_app_distr, !rev_involutive, <- !app_assoc.
  apply checkName_pnpm.
Qed.

Lemma quoted_is_truthy (a b : string) : truthy (Some (a ++ dq ++ b)%string) = true.
Proof. destruct a; reflexivity. Qed.

(** The first double quote of a text ends the stretch that line 157
    opened: what follows it is read outside the quotes. *)
Lemma message_quote_ends_the_stretch (project file : string) (d : ChangelogDetails)
      (a b : string) :
  isPlainWord project = true -> isPlainWord file = true ->
  isPlainWord (significance d) = true -> isPlainWord (type d) = true ->
  message d = Some (a ++ dq ++ b)%string -> allChars isSafeQuoted a = true ->
  shellWords (changelogCmd project file d)
  = checkName
      (splitFrom (b ++ dq ++ " " ++ commentExpression d ++ " " ++ "-n")%string Bare
         (Some a) ("-e"%string :: rev (fixedWords project file d))).
Proof.
  intros Hp Hf Hs Ht Hmsg Ha. unfold shellWords.
  rewrite changelogCmd_parts, (splitFrom_fixed _ _ _ _ Hp Hf Hs Ht).
  unfold messageExpression. rewrite Hmsg, quoted_is_truthy. cbn [text].
  unfold dq. rewrite !append_assoc. lit.
  rewrite (splitFrom_safe _ _ _ _ Ha). lit. reflexivity.
Qed.

Lemma comment_quote_ends_the_stretch (project file : string) (d : ChangelogDetails)
      (a b : string) :
  isPlainWord project = true -> isPlainWord file = true ->
  isPlainWord (significance d) = true -> isPlainWord (type d) = true ->
  isSafeText (message d) = true ->
  comment d = Some (a ++ dq ++ b)%string -> allChars isSafeQuoted a = true ->
  shellWords (changelogCmd project file d)
  = checkName
      (splitFrom (b ++ dq ++ " " ++ "-n")%string Bare (Some a)
         ("-c"%string :: rev (argOf "-e" (message d)) ++ rev (fixedWords project file d))).
Proof.
  intros Hp Hf Hs Ht Hm Hcom Ha. unfold shellWords.
  rewrite changelogCmd_parts, (splitFrom_fixed _ _ _ _ Hp Hf Hs Ht).
  rewrite (splitFrom_message _ _ _ Hm).
  unfold commentExpression. rewrite Hcom, quoted_is_truthy. cbn [text].
  unfold dq. rewrite !append_assoc. lit.
  rewrite (splitFrom_safe _ _ _ _ Ha). lit. reflexivity.
Qed.

(** A word placed between two double quotes of the message is an argument
    of its own. *)
Lemma quoted_word_is_an_argument (project file : string) (d : ChangelogDetails)
      (a w b : string) :
  isPlainWord project = true -> isPlainWord file = true ->
  isPlainWord (significance d) = true -> isPlainWord (type d) = true ->
  message d = Some (a ++ dq ++ " " ++ w ++ " " ++ dq ++ b)%string ->
  allChars isSafeQuoted a = true -> isPlainWord w = true ->
  allChars isSafeQuoted b = true -> isSafeText (comment d) = true ->
  shellWords (changelogCmd project file d)
  = Words (fixedWords project file d ++ ["-e"%string; a; w; b]
             ++ argOf "-c" (comment d) ++ ["-n"%string]).
Proof.
  intros Hp Hf Hs Ht Hmsg Ha Hw Hb Hc.
  rewrite (message_quote_ends_the_stretch _ _ _ _ _ Hp Hf Hs Ht Hmsg Ha).
  set (tail := (commentExpression d ++ " " ++ "-n")%string).
  unfold dq. rewrite !append_assoc. lit.
  rewrite (splitFrom_word w _ _ Hw). lit.
  rewrite (splitFrom_safe _ _ _ _ Hb). lit.
  subst tail. rewrite (splitFrom_comment _ _ _ Hc), splitFrom_end.
  cbn [rev app]. rewrite !rev_app_distr, !rev_involutive, <- !app_assoc.
  cbn [app]. apply checkName_pnpm.
Qed.

(** ** The action in the concrete world *)

Lemma substring_all (s : string) : substring 0 (String.length s) s = s.
Proof. induction s as [|c s IH]; simpl; [reflexivity | rewrite IH; reflexivity]. Qed.

Lemma removeFile_absent (path : string) (files : list (string * string)) :
  existsb (fun f => fst f =? path)%string files = false ->
  Demo.removeFile path files = files.
Proof.
  unfold Demo.removeFile. induction files as [|f files IH]; simpl; intros H; [reflexivity|].
  apply orb_false_iff in H as [Hf Hfiles]. rewrite Hf, IH by assumption. reflexivity.
Qed.

Lemma afterEvent_rm (k : Demo.Knobs) (files : list (string * string)) (path cwd : string) :
  Demo.afterEvent k files (Call_execSync ("rm " ++ path)%string cwd None)
  = Demo.removeFile path files.
Proof.
  unfold Demo.afterEvent.
  change (startsWith "rm " ("rm " ++ path)%string) with true. cbv iota.
  change (String.length ("rm " ++ path)%string - 3) with (String.length path - 0).
  rewrite Nat.sub_0_r. change (substring 3 (String.length path) ("rm " ++ path)%string)
    with (substring 0 (String.length path) path).
  rewrite substring_all. reflexivity.
Qed.

Lemma workingCopy_app (k : Demo.Knobs) (t evs : Trace) :
  Demo.workingCopy k (t ++ evs) = fold_left (Demo.afterEvent k) evs (Demo.workingCopy k t).
Proof. unfold Demo.workingCopy. apply fold_left_app. Qed.

Section World.

Variable k : Demo.Knobs.
Hypothesis commands_succeed : forall cmd, Demo.failingCmd k cmd = false.

Variable root : string.

Lemma world_removal_pass (p : string) (t : Trace) :
  exists evs,
    removeExistingChangelog (Demo.world k) root (fileName Demo.pr) p t = (Done tt, t ++ evs)
    /\ fold_left (Demo.afterEvent k) evs (Demo.workingCopy k t)
       = Demo.removeFile (Demo.fragmentOf root p) (Demo.workingCopy k t)
    /\ existsb isStageCommitPush evs = false.
Proof.
  unfold removeExistingChangelog.
  change (nodePath_join (Demo.world k) [root; p; "changelog"; fileName Demo.pr])
    with (Demo.fragmentOf root p).
  set (path := Demo.fragmentOf root p).
  unfold bind, call_bool, when, Logger.notice, emit, call_void, ret.
  change (existsSync (Demo.world k) t path)
    with (existsb (fun f => fst f =? path)%string (Demo.workingCopy k t)).
  destruct (existsb _ (Demo.workingCopy k t)) eqn:Hex.
  - change (execSync (Demo.world k) ?t ?c ?w)
      with (if Demo.failingCmd k c then Some "Command failed"%string else None).
    rewrite commands_succeed.
    eexists. split; [rewrite <- !app_assoc; reflexivity|]. split; [|reflexivity].
    cbn [app fold_left]. rewrite afterEvent_rm. reflexivity.
  - eexists. split; [reflexivity|]. split; [|reflexivity].
    cbn [fold_left]. rewrite removeFile_absent by exact Hex. reflexivity.
Qed.

Lemma world_removal_loop (l : list string) (t : Trace) :
  exists evs,
    forEach l (removeExistingChangelog (Demo.world k) root (fileName Demo.pr)) t
    = (Done tt, t ++ evs)
    /\ fold_left (Demo.afterEvent k) evs (Demo.workingCopy k t)
       = fold_left (fun w p => Demo.removeFile (Demo.fragmentOf root p) w) l
           (Demo.workingCopy k t)
    /\ existsb isStageCommitPush evs = false.
Proof.
  revert t. induction l as [|p l IH]; intros t.
  - exists []. rewrite app_nil_r. auto.
  - destruct (world_removal_pass p t) as (evs1 & Hrun1 & Heff1 & Hc1).
    destruct (IH (t ++ evs1)) as (evs2 & Hrun2 & Heff2 & Hc2).
    exists (evs1 ++ evs2). split; [|split].
    + rewrite (forEach_cons_done _ _ l _ _ Hrun1), Hrun2, app_assoc. reflexivity.
    + rewrite fold_left_app, Heff1. rewrite workingCopy_app, Heff1 in Heff2. exact Heff2.
    + rewrite existsb_app, Hc1, Hc2. reflexivity.
Qed.

Lemma world_generation_loop (d : ChangelogDetails) (l : list string) (t : Trace) :
  exists evs,
    forEach l (runChangelogCommand (Demo.world k) root (fileName Demo.pr) d) t
    = (Done tt, t ++ evs)
    /\ fold_left (Demo.afterEvent k) evs (Demo.workingCopy k t)
       = Demo.regenerated k d root l (Demo.workingCopy k t)
    /\ existsb isStageCommitPush evs = false.
Proof.
  revert t. induction l as [|p l IH]; intros t.
  - exists []. rewrite app_nil_r. auto.
  - assert (Hrun1 : runChangelogCommand (Demo.world k) root (fileName Demo.pr) d p t
                    = (Done tt,
                       t ++ generationEvents root (fileName Demo.pr) d None p)).
    { unfold runChangelogCommand, generationEvents, bind, Logger.notice, emit, call_void.
      change (execSync (Demo.world k) ?t ?c ?w)
        with (if Demo.failingCmd k c then Some "Command failed"%string else None).
      rewrite commands_succeed, <- !app_assoc. reflexivity. }
    destruct (IH (t ++ generationEvents root (fileName Demo.pr) d None p))
      as (evs2 & Hrun2 & Heff2 & Hc2).
    exists (generationEvents root (fileName Demo.pr) d None p ++ evs2). split; [|split].
    + rewrite (forEach_cons_done _ _ l _ _ Hrun1), Hrun2, app_assoc. reflexivity.
    + rewrite fold_left_app. rewrite workingCopy_app in Heff2. exact Heff2.
    + rewrite existsb_app, Hc2. reflexivity.
Qed.

(** The [try] block: it removes the fragments of all the projects, then
    writes those of the touched ones. *)
Lemma world_body (dev : option string) (d : ChangelogDetails)
      (touched : list string) (t : Trace) :
  exists o evs,
    reconcileAndGenerate (Demo.world k) root (fileName Demo.pr) dev d touched t
    = (o, t ++ evs)
    /\ existsb isStageCommitPush evs = false
    /\ match touched with
       | [] => o = Exited 0
       | _ :: _ =>
           o = Done tt
           /\ fold_left (Demo.afterEvent k) evs (Demo.workingCopy k t)
              = Demo.regenerated k d root touched
                  (Demo.reconciled root (Demo.workingCopy k t))
       end.
Proof.
  unfold reconcileAndGenerate.
  unfold bind at 1, call at 1.
  change (getAllProjectPaths (Demo.world k) root) with (@inr Err _ Demo.allProjects).
  cbv iota beta.
  unfold bind at 1, Logger.notice at 1, emit at 1.
  unfold bind at 1.
  match goal with |- context [forEach Demo.allProjects ?f ?t0] =>
    destruct (world_removal_loop Demo.allProjects t0) as (evsR & HrunR & HeffR & HcR);
    rewrite HrunR; set (tR := t0) in *
  end.
  assert (HwR : Demo.workingCopy k (tR ++ evsR)
                = Demo.reconciled root (Demo.workingCopy k t)).
  { rewrite workingCopy_app, HeffR. unfold tR.
    rewrite !workingCopy_app. reflexivity. }
  destruct touched as [|p touched'].
  { cbn [List.length Nat.eqb when]. unfold bind, Logger.notice, emit, process_exit.
    eexists _, _. split; [unfold tR; rewrite <- !app_assoc; reflexivity|].
    split; [|reflexivity].
    rewrite !existsb_app, HcR. reflexivity. }
  cbn [List.length Nat.eqb when]. unfold bind at 1, ret at 1.
  assert (Hinstall : exists evsI,
             when (negb (truthy dev))
               (Logger.notice ("Installing dependencies in " ++ root)%string ;;
                call_void (fun t0 => execSync (Demo.world k) t0 "pnpm install" root)
                          (Call_execSync "pnpm install" root)) (tR ++ evsR)
             = (Done tt, (tR ++ evsR) ++ evsI)
             /\ existsb isStageCommitPush evsI = false
             /\ Demo.workingCopy k ((tR ++ evsR) ++ evsI)
                = Demo.workingCopy k (tR ++ evsR)).
  { destruct (truthy dev); cbn [negb when].
    - exists []. rewrite app_nil_r. auto.
    - unfold bind, Logger.notice, emit, call_void.
      change (execSync (Demo.world k) ?t ?c ?w)
        with (if Demo.failingCmd k c then Some "Command failed"%string else None).
      rewrite commands_succeed.
      exists (installEvents root None). split; [rewrite <- !app_assoc; reflexivity|].
      split; [reflexivity|].
      rewrite (workingCopy_app k (tR ++ evsR)). unfold installEvents. cbn [fold_left].
      unfold Demo.afterEvent at 2. unfold Demo.afterEvent at 1.
      change (startsWith "rm " "pnpm install") with false. cbv iota.
      unfold Demo.written. destruct (Demo.details k); reflexivity. }
  destruct Hinstall as (evsI & HrunI & HcI & HwI).
  unfold bind at 1. rewrite HrunI.
  destruct (world_generation_loop d (p :: touched') ((tR ++ evsR) ++ evsI))
    as (evsG & HrunG & HeffG & HcG).
  rewrite HrunG.
  eexists _, _. split; [unfold tR; rewrite <- !app_assoc; reflexivity|].
  split; [rewrite !existsb_app, HcR, HcI, HcG; reflexivity|].
  split; [reflexivity|].
  rewrite <- HwR, <- HwI, <- HeffG, <- !workingCopy_app.
  f_equal. unfold tR. rewrite <- !app_assoc. reflexivity.
Qed.

(** The last block: it commits and pushes exactly when the working copy
    differs from the branch. *)
Lemma world_commit (br : string) (touched : list string) (t : Trace) :
  exists o evs,
    commitAndPush (Demo.world k) root br touched t = (o, t ++ evs)
    /\ existsb isStageCommitPush evs
       = negb (Demo.sameFiles (Demo.workingCopy k t) (Demo.onBranch k))
    /\ existsb Demo.isPushed evs
       = negb (Demo.sameFiles (Demo.workingCopy k t) (Demo.onBranch k))
    /\ Demo.workingCopy k (t ++ evs) = Demo.workingCopy k t.
Proof.
  unfold commitAndPush.
  unfold bind at 1, Logger.notice at 1, emit at 1.
  unfold bind at 1, emit at 1.
  unfold bind at 1, call_bool at 1.
  change (isGithubCI (Demo.world k)) with (Demo.ci k).
  set (t1 := ((t ++ _) ++ _) ++ _).
  assert (Hw1 : Demo.workingCopy k t1 = Demo.workingCopy k t).
  { unfold t1. rewrite !workingCopy_app. reflexivity. }
  assert (Ht1 : exists evs1, t1 = t ++ evs1 /\ existsb isStageCommitPush evs1 = false
                             /\ existsb Demo.isPushed evs1 = false).
  { eexists. split; [unfold t1; rewrite <- !app_assoc; reflexivity|].
    split; reflexivity. }
  clearbody t1.
  (* the identity configuration changes nothing *)
  assert (Hid : exists evs2,
             when (Demo.ci k)
               (_ <- call (fun t0 => git_raw (Demo.world k) t0
                             ["config"; "--global"; "user.email"; "github-actions@github.com"])
                          (Git_raw ["config"; "--global"; "user.email";
                                    "github-actions@github.com"]) ;;
                _ <- call (fun t0 => git_raw (Demo.world k) t0
                             ["config"; "--global"; "user.name"; "github-actions"])
                          (Git_raw ["config"; "--global"; "user.name"; "github-actions"]) ;;
                ret tt) t1
             = (Done tt, t1 ++ evs2)
             /\ existsb isStageCommitPush evs2 = false
             /\ existsb Demo.isPushed evs2 = false
             /\ Demo.workingCopy k (t1 ++ evs2) = Demo.workingCopy k t1).
  { destruct (Demo.ci k); cbn [when].
    - eexists. split; [|split; [|split]].
      + unfold bind, call, ret. cbn [Demo.world git_raw]. rewrite <- !app_assoc. reflexivity.
      + reflexivity.
      + reflexivity.
      + rewrite workingCopy_app. reflexivity.
    - exists []. rewrite app_nil_r. auto. }
  destruct Hid as (evs2 & Hrun2 & Hc2 & Hp2 & Hw2).
  destruct Ht1 as (evs1 & -> & Hc1 & Hp1).
  unfold bind at 1. rewrite Hrun2.
  unfold bind at 1, call at 1.
  change (git_raw (Demo.world k) ((t ++ evs1) ++ evs2) ["status"; "--short"])
    with (@inr Err string
            (if Demo.sameFiles (Demo.workingCopy k ((t ++ evs1) ++ evs2)) (Demo.onBranch k)
             then EmptyString else "?? changelog/"%string)).
  cbv iota beta. rewrite Hw2, Hw1.
  destruct (Demo.sameFiles (Demo.workingCopy k t) (Demo.onBranch k)) eqn:Hsame.
  - cbn [String.length Nat.eqb when]. unfold bind, Logger.notice, emit, process_exit.
    eexists _, _. split; [rewrite <- !app_assoc; reflexivity|].
    split; [rewrite !existsb_app, Hc1, Hc2; reflexivity|].
    split; [rewrite !existsb_app, Hp1, Hp2; reflexivity|].
    rewrite workingCopy_app, !fold_left_app. cbn [fold_left Demo.afterEvent].
    rewrite <- !workingCopy_app, Hw2. exact Hw1.
  - cbn [String.length Nat.eqb when]. unfold bind, ret, Logger.notice, emit, call_void.
    cbn [Demo.world git_add git_commit git_push].
    eexists _, _. split; [rewrite <- !app_assoc; reflexivity|].
    split; [rewrite !existsb_app, Hc1, Hc2; reflexivity|].
    split; [rewrite !existsb_app, Hp1, Hp2; reflexivity|].
    rewrite workingCopy_app, !fold_left_app. cbn [fold_left Demo.afterEvent].
    rewrite <- !workingCopy_app, Hw2. exact Hw1.
Qed.

End World.

(** The action in the concrete world, when no command fails: whether it
    commits, whether it pushes, and the working copy it ends with. *)
Lemma world_action (k : Demo.Knobs) (prNumber : string) (options : Options) :
  (forall cmd, Demo.failingCmd k cmd = false) ->
  exists o T,
    changefile_action (Demo.world k) prNumber options [] = (o, T)
    /\ match Demo.automate k, Demo.details k, Demo.touchedProjects k with
       | true, inr d, _ :: _ =>
           existsb isStageCommitPush T
           = negb (Demo.sameFiles
                     (Demo.regenerated k d (Demo.rootOf options) (Demo.touchedProjects k)
                        (Demo.reconciled (Demo.rootOf options) (Demo.onBranch k)))
                     (Demo.onBranch k))
           /\ existsb Demo.isPushed T
              = negb (Demo.sameFiles
                        (Demo.regenerated k d (Demo.rootOf options) (Demo.touchedProjects k)
                           (Demo.reconciled (Demo.rootOf options) (Demo.onBranch k)))
                        (Demo.onBranch k))
           /\ Demo.workingCopy k T
              = Demo.regenerated k d (Demo.rootOf options) (Demo.touchedProjects k)
                  (Demo.reconciled (Demo.rootOf options) (Demo.onBranch k))
       | _, _, _ =>
           existsb isStageCommitPush T = false /\ existsb Demo.isPushed T = false
       end.
Proof.
  intros Hok. unfold changefile_action.
  unfold bind at 1, Logger.startTask at 1, emit at 1.
  unfold bind at 1, call at 1.
  change (getPullRequestData (Demo.world k) (owner options) (name options) prNumber)
    with (@inr Err _ Demo.pr).
  cbv iota beta.
  unfold bind at 1, Logger.endTask at 1, emit at 1.
  unfold bind at 1, call_bool at 1.
  change (shouldAutomateChangelog (Demo.world k) (prBody Demo.pr)) with (Demo.automate k).
  cbv zeta.
  unfold bind at 1.
  destruct (Demo.automate k); cbn [negb when].
  2:{ unfold bind, Logger.notice, emit, process_exit.
      eexists _, _. split; [reflexivity|].
      destruct (Demo.details k); split; reflexivity. }
  unfold ret at 1.
  unfold bind at 1, call at 1.
  change (getChangelogDetails (Demo.world k) (prBody Demo.pr)) with (Demo.details k).
  destruct (Demo.details k) as [e|d].
  { eexists _, _. split; [reflexivity|]. split; reflexivity. }
  unfold bind at 1, Logger.startTask at 1, emit at 1.
  unfold bind at 1.
  (* the working copy: the supplied one, or a fresh clone *)
  assert (Hclone : exists evsC,
             (if truthy (devRepoPath options) then ret (text (devRepoPath options))
              else call (fun _ => cloneAuthenticatedRepo (Demo.world k)
                                    (headOwner Demo.pr) (name options) false)
                        (Call_cloneAuthenticatedRepo (headOwner Demo.pr) (name options) false))
               (((((([] ++ [Logger_startTask
                             ("Getting pull request data for PR number " ++ prNumber)%string])
                     ++ [Call_getPullRequestData (owner options) (name options) prNumber
                           (inr Demo.pr)])
                    ++ [Logger_endTask])
                   ++ [Call_shouldAutomateChangelog (prBody Demo.pr) true])
                  ++ [Call_getChangelogDetails (prBody Demo.pr) (inr d)])
                 ++ [Logger_startTask
                       ("Making a temporary clone of '" ++ headOwner Demo.pr ++ "/"
                        ++ name options ++ "'")%string])
             = (Done (Demo.rootOf options), evsC)
             /\ existsb isStageCommitPush evsC = false
             /\ existsb Demo.isPushed evsC = false
             /\ Demo.workingCopy k evsC = Demo.onBranch k).
  { unfold Demo.rootOf. destruct (truthy (devRepoPath options)).
    - eexists. split; [reflexivity|]. repeat split; reflexivity.
    - eexists. split; [reflexivity|]. repeat split; reflexivity. }
  destruct Hclone as (tC & HrunC & HcC & HpC & HwC).
  rewrite HrunC. clear HrunC.
  unfold bind at 1, Logger.endTask at 1, emit at 1.
  unfold bind at 1, Logger.notice at 1, emit at 1.
  unfold bind at 1, Logger.notice at 1, emit at 1.
  unfold bind at 1, call_void at 1.
  change (checkoutRemoteBranch (Demo.world k) (Demo.rootOf options) (branch Demo.pr))
    with (@None Err).
  cbv iota beta.
  unfold bind at 1, Logger.notice at 1, emit at 1.
  unfold bind at 1, call at 1.
  change (getTouchedProjectsRequiringChangelog (Demo.world k) (Demo.rootOf options)
            (base Demo.pr) (head Demo.pr) (fileName Demo.pr) (owner options) (name options))
    with (@inr Err _ (Demo.touchedProjects k)).
  cbv iota beta.
  set (t0 := (((((tC ++ _) ++ _) ++ _) ++ _) ++ _) ++ _).
  assert (Hc0 : existsb isStageCommitPush t0 = false)
    by (unfold t0; rewrite !existsb_app, HcC; reflexivity).
  assert (Hp0 : existsb Demo.isPushed t0 = false)
    by (unfold t0; rewrite !existsb_app, HpC; reflexivity).
  assert (Hw0 : Demo.workingCopy k t0 = Demo.onBranch k)
    by (unfold t0; rewrite !workingCopy_app, HwC; reflexivity).
  clearbody t0. clear HcC HpC HwC tC.
  unfold bind at 1, try_catch.
  destruct (world_body k Hok (Demo.rootOf options) (devRepoPath options) d
              (Demo.touchedProjects k) t0)
    as (o & evs & Hrun & Hc & Hshape).
  rewrite Hrun. destruct (Demo.touchedProjects k) as [|p touched'].
  { subst o. eexists _, _. split; [reflexivity|].
    rewrite !existsb_app, Hc0, Hc.
    split; [reflexivity|].
    clear - Hrun Hp0 Hok.
    assert (Hp : existsb Demo.isPushed evs = false).
    { destruct (reconcileAndGenerate_shape (Demo.world k) (Demo.rootOf options)
                  (fileName Demo.pr) (devRepoPath options) d [] t0)
        as (o' & evs' & Hrun' & Hshape').
      rewrite Hrun in Hrun'. apply pair_equal_spec in Hrun' as [_ Hevs].
      apply app_inv_head in Hevs. subst evs'.
      eapply BodyShape_clean; [eassumption | by_kind]. }
    rewrite Hp0, Hp. reflexivity. }
  destruct Hshape as [-> Heff]. rewrite Hw0 in Heff.
  assert (Hp : existsb Demo.isPushed evs = false).
  { destruct (reconcileAndGenerate_shape (Demo.world k) (Demo.rootOf options)
                (fileName Demo.pr) (devRepoPath options) d (p :: touched') t0)
      as (o' & evs' & Hrun' & Hshape').
    rewrite Hrun in Hrun'. apply pair_equal_spec in Hrun' as [_ Hevs].
    apply app_inv_head in Hevs. subst evs'.
    eapply BodyShape_clean; [eassumption | by_kind]. }
  assert (Hw : Demo.workingCopy k (t0 ++ evs)
               = Demo.regenerated k d (Demo.rootOf options) (p :: touched')
                   (Demo.reconciled (Demo.rootOf options) (Demo.onBranch k))).
  { rewrite workingCopy_app, Hw0. exact Heff. }
  destruct (world_commit k (Demo.rootOf options) (branch Demo.pr) (p :: touched')
              (t0 ++ evs))
    as (oc & cevs & Hrunc & Hcc & Hpc & Hwc).
  rewrite Hrunc. eexists _, _. split; [reflexivity|].
  rewrite Hw in Hcc, Hpc, Hwc.
  split; [rewrite !existsb_app, Hc0, Hc; exact Hcc|].
  split; [rewrite !existsb_app, Hp0, Hp; exact Hpc | exact Hwc].
Qed.

(** ** Running the pipeline twice in the concrete world *)

Lemma filter_narrow {A} (P Q : A -> bool) (l : list A) :
  (forall x, P x = true -> Q x = true) -> filter P (filter Q l) = filter P l.
Proof.
  intros H. induction l as [|x l IH]; simpl; [reflexivity|].
  destruct (Q x) eqn:HQ; simpl.
  - rewrite IH. reflexivity.
  - destruct (P x) eqn:HP; [|exact IH]. apply H in HP. congruence.
Qed.

Lemma reconciled_filter (root : string) (files : list (string * string)) :
  Demo.reconciled root files = filter (Demo.survives root) files.
Proof.
  unfold Demo.reconciled, Demo.survives, Demo.allProjects. cbn [fold_left forallb].
  unfold Demo.removeFile. induction files as [|f files IH]; [reflexivity|].
  cbn [filter]. rewrite andb_true_r.
  destruct (fst f =? Demo.fragmentOf root "plugins/woocommerce")%string; cbn [negb andb filter];
    [exact IH|].
  destruct (fst f =? Demo.fragmentOf root "packages/js/data")%string; cbn [negb andb filter];
    [exact IH|].
  destruct (fst f =? Demo.fragmentOf root "docs")%string; cbn [negb andb filter];
    [exact IH|].
  rewrite IH. reflexivity.
Qed.

Lemma reconciled_twice (root : string) (files : list (string * string)) :
  Demo.reconciled root (Demo.reconciled root files) = Demo.reconciled root files.
Proof. rewrite !reconciled_filter. apply filter_narrow. auto. Qed.

Lemma survives_not_fragment (root p : string) (f : string * string) :
  In p Demo.allProjects -> Demo.survives root f = true ->
  negb (fst f =? Demo.fragmentOf root p)%string = true.
Proof.
  intros Hin Hs. unfold Demo.survives in Hs. rewrite forallb_forall in Hs. apply Hs. exact Hin.
Qed.

(** Generation writes fragments only; the reconciliation removes them. *)
Lemma reconciled_after_generation (k : Demo.Knobs) (d : ChangelogDetails) (root p : string)
      (files : list (string * string)) :
  Demo.reconciled root
    (Demo.afterEvent k files
       (Call_execSync (changelogCmd p (fileName Demo.pr) d) root None))
  = Demo.reconciled root files.
Proof.
  unfold Demo.afterEvent.
  change (startsWith "rm " (changelogCmd p (fileName Demo.pr) d)) with false. cbv iota.
  unfold Demo.written. destruct (Demo.details k) as [e|d']; [reflexivity|].
  destruct (find _ Demo.allProjects) as [q|] eqn:Hfind; [|reflexivity].
  apply find_some in Hfind as [Hq _].
  rewrite !reconciled_filter. cbn [filter fst].
  assert (Hgone : Demo.survives root (Demo.fragmentOf root q,
                                 changelogCmd p (fileName Demo.pr) d) = false).
  { destruct (Demo.survives root _) eqn:Hs; [|reflexivity].
    apply (survives_not_fragment root q) in Hs; [|exact Hq].
    cbn [fst] in Hs. rewrite String.eqb_refl in Hs. discriminate Hs. }
  rewrite Hgone. unfold Demo.removeFile. apply filter_narrow.
  intros f Hf. apply (survives_not_fragment root q); assumption.
Qed.

Lemma reconciled_regenerated (k : Demo.Knobs) (d : ChangelogDetails) (root : string)
      (projects : list string) (files : list (string * string)) :
  Demo.reconciled root (Demo.regenerated k d root projects files)
  = Demo.reconciled root files.
Proof.
  unfold Demo.regenerated. revert files.
  induction projects as [|p projects IH]; intros files; [reflexivity|].
  cbn [fold_left]. rewrite IH. apply reconciled_after_generation.
Qed.

Lemma hasFile_here (files : list (string * string)) (f : string * string) :
  In f files -> Demo.hasFile files f = true.
Proof.
  intros Hin. unfold Demo.hasFile. apply existsb_exists. exists f.
  split; [exact Hin|]. rewrite !String.eqb_refl. reflexivity.
Qed.

Lemma sameFiles_refl (files : list (string * string)) :
  Demo.sameFiles files files = true.
Proof.
  unfold Demo.sameFiles.
  assert (H : forallb (Demo.hasFile files) files = true)
    by (apply forallb_forall; intros f Hf; apply hasFile_here; exact Hf).
  rewrite H. reflexivity.
Qed.

(** In the concrete world, whatever the branch holds and whichever
    projects are touched, a second run of the pipeline on what the first
    run left on the branch stages, commits and pushes nothing. *)
Lemma second_run_commits_nothing (k : Demo.Knobs) (prNumber : string) (options : Options) :
  (forall cmd, Demo.failingCmd k cmd = false) ->
  existsb isStageCommitPush
    (snd (run (Demo.world (Demo.rerun k (snd (run (Demo.world k) prNumber options))))
            prNumber options)) = false.
Proof.
  intros Hok. unfold run.
  destruct (world_action k prNumber options Hok) as (o1 & T1 & Hrun1 & Hfirst).
  rewrite Hrun1. cbn [snd].
  destruct (world_action (Demo.rerun k T1) prNumber options Hok)
    as (o2 & T2 & Hrun2 & Hsecond).
  rewrite Hrun2. cbn [snd]. clear Hrun1 Hrun2.
  cbn [Demo.rerun Demo.automate Demo.details Demo.touchedProjects Demo.onBranch] in Hsecond.
  destruct (Demo.automate k); [|apply Hsecond].
  destruct (Demo.details k) as [e|d] eqn:Hd; [apply Hsecond|].
  destruct (Demo.touchedProjects k) as [|p touched'] eqn:Ht; [apply Hsecond|].
  destruct Hfirst as (_ & Hpushed & Hleft).
  destruct Hsecond as (Hcommits & _).
  rewrite Hcommits. clear Hcommits.
  assert (Hsame_k : forall files,
             Demo.regenerated (Demo.rerun k T1) d (Demo.rootOf options) (p :: touched') files
             = Demo.regenerated k d (Demo.rootOf options) (p :: touched') files)
    by reflexivity.
  rewrite Hsame_k. unfold Demo.pushed. rewrite Hpushed.
  destruct (Demo.sameFiles _ (Demo.onBranch k)) eqn:Hsame; cbn [negb].
  - rewrite Hsame. reflexivity.
  - rewrite Hleft, reconciled_regenerated, reconciled_twice, sameFiles_refl. reflexivity.
Qed.

(** * The claims *)

(** ** When automation is not requested, or the directive is malformed *)

(** C4.  When the pull request is fetched and [shouldAutomateChangelog]
    answers false for its body (the checkbox is absent or unchecked), the
    run prints the notice and ends the process with status 0; its whole
    trace is the fetch, the test, the notice and the exit, so nothing was
    cloned, checked out, executed, generated or committed. *)
Theorem not_requested_is_a_clean_noop env prNumber options pr :
  getPullRequestData env (owner options) (name options) prNumber = inr pr ->
  shouldAutomateChangelog env (prBody pr) = false ->
  run env prNumber options
  = (Exited 0,
     [Logger_startTask ("Getting pull request data for PR number " ++ prNumber)%string;
      Call_getPullRequestData (owner options) (name options) prNumber (inr pr);
      Logger_endTask;
      Call_shouldAutomateChangelog (prBody pr) false;
      Logger_notice (notRequestedNotice prNumber);
      Process_exit 0])
  /\ exit_code (fst (run env prNumber options)) = 0%Z
  /\ existsb isMutation (snd (run env prNumber options)) = false.
Proof.
  intros Hpr Hauto.
  assert (Hrun : run env prNumber options
                 = (Exited 0,
                    [Logger_startTask ("Getting pull request data for PR number " ++ prNumber)%string;
                     Call_getPullRequestData (owner options) (name options) prNumber (inr pr);
                     Logger_endTask;
                     Call_shouldAutomateChangelog (prBody pr) false;
                     Logger_notice (notRequestedNotice prNumber);
                     Process_exit 0])).
  { unfold run, changefile_action.
    unfold bind at 1, Logger.startTask at 1, emit at 1.
    unfold bind at 1, call at 1. rewrite Hpr.
    unfold bind at 1, Logger.endTask at 1, emit at 1.
    unfold bind at 1, call_bool at 1. rewrite Hauto.
    reflexivity. }
  rewrite Hrun. auto.
Qed.

(** C5.  When the pull request is fetched, the checkbox is checked and
    [getChangelogDetails] throws on the body (a missing or malformed
    significance or type), the throw leaves the action: the run ends with
    a non-zero status right after the parse, before any clone, checkout,
    child process or git command. *)
Theorem malformed_directive_aborts_before_clone env prNumber options pr e :
  getPullRequestData env (owner options) (name options) prNumber = inr pr ->
  shouldAutomateChangelog env (prBody pr) = true ->
  getChangelogDetails env (prBody pr) = inl e ->
  run env prNumber options
  = (Thrown e,
     [Logger_startTask ("Getting pull request data for PR number " ++ prNumber)%string;
      Call_getPullRequestData (owner options) (name options) prNumber (inr pr);
      Logger_endTask;
      Call_shouldAutomateChangelog (prBody pr) true;
      Call_getChangelogDetails (prBody pr) (inl e)])
  /\ exit_code (fst (run env prNumber options)) <> 0%Z
  /\ existsb isClone (snd (run env prNumber options)) = false
  /\ existsb isCheckout (snd (run env prNumber options)) = false
  /\ existsb isGenerate (snd (run env prNumber options)) = false
  /\ existsb isMutation (snd (run env prNumber options)) = false.
Proof.
  intros Hpr Hauto Hd.
  assert (Hrun : run env prNumber options
                 = (Thrown e,
                    [Logger_startTask ("Getting pull request data for PR number " ++ prNumber)%string;
                     Call_getPullRequestData (owner options) (name options) prNumber (inr pr);
                     Logger_endTask;
                     Call_shouldAutomateChangelog (prBody pr) true;
                     Call_getChangelogDetails (prBody pr) (inl e)])).
  { unfold run, changefile_action.
    unfold bind at 1, Logger.startTask at 1, emit at 1.
    unfold bind at 1, call at 1. rewrite Hpr.
    unfold bind at 1, Logger.endTask at 1, emit at 1.
    unfold bind at 1, call_bool at 1. rewrite Hauto.
    unfold bind at 1. cbn [negb when]. unfold ret at 1.
    unfold bind at 1, call at 1. rewrite Hd.
    reflexivity. }
  rewrite Hrun. cbn [fst snd exit_code]. repeat split; try reflexivity. discriminate.
Qed.

(** ** Nothing to commit *)

(** In every run whose [git status --short] returns the empty string,
    the action prints the skip notice and ends the process with status 0
    right there: nothing is staged, committed or pushed. *)
Lemma empty_status_exits env prNumber options s :
  In (Git_raw statusShort (inr s)) (snd (run env prNumber options)) ->
  String.length s = 0 ->
  fst (run env prNumber options) = Exited 0
  /\ exit_code (fst (run env prNumber options)) = 0%Z
  /\ existsb isStageCommitPush (snd (run env prNumber options)) = false
  /\ exists t, snd (run env prNumber options)
               = t ++ [Git_raw statusShort (inr s);
                       Logger_notice
                         "No changes in changelog files. Skipping commit and push.";
                       Process_exit 0].
Proof.
  intros Hin Hlen.
  destruct (run_split env prNumber options)
    as [(Hk & _ & _) | (pr & d & tmp & touched & evs & ob & tail & Hbody & HT & Hob)].
  { exfalso. apply (in_clean isGitRaw _ _ Hin); [reflexivity|].
    apply disjoint_clean with (K := inPrefix); [exact Hk | by_kind]. }
  rewrite HT in Hin |- *.
  apply In_app_clean with (P := isGitRaw) in Hin;
    [| reflexivity | apply prefixEvents_clean; by_kind].
  apply In_app_clean with (P := isGitRaw) in Hin;
    [| reflexivity | eapply BodyShape_clean; [eassumption | by_kind]].
  assert (Hpre : existsb isStageCommitPush
                   (prefixEvents prNumber options pr d tmp touched) = false)
    by (apply prefixEvents_clean; by_kind).
  assert (Hev : existsb isStageCommitPush evs = false)
    by (eapply BodyShape_clean; [eassumption | by_kind]).
  destruct ob as [[]|e|c].
  - destruct Hob as [Hc _].
    destruct (CommitShape_status _ _ _ _ _ _ _ Hc Hin Hlen) as (-> & Hclean & t & ->).
    repeat split; try reflexivity.
    + rewrite !existsb_app, Hpre, Hev. rewrite existsb_app in Hclean. exact Hclean.
    + exists (prefixEvents prNumber options pr d tmp touched ++ evs ++ t).
      rewrite <- !app_assoc. reflexivity.
  - destruct Hob as (cevs & -> & Hc & _).
    destruct Hin as [Hin|Hin]; [discriminate|].
    destruct (CommitShape_status _ _ _ _ _ _ _ Hc Hin Hlen) as (-> & Hclean & t & ->).
    repeat split; try reflexivity.
    + rewrite !existsb_app, Hpre, Hev.
      change (existsb isStageCommitPush
                (t ++ [Git_raw statusShort (inr s);
                       Logger_notice
                         "No changes in changelog files. Skipping commit and push.";
                       Process_exit 0]) = false).
      exact Hclean.
    + exists (prefixEvents prNumber options pr d tmp touched ++ evs ++ Logger_error e :: t).
      rewrite <- !app_assoc. reflexivity.
  - destruct Hob as [-> _]. destruct Hin.
Qed.

Lemma CommitShape_nonempty env tmpRepoPath br touched o evs s :
  CommitShape env tmpRepoPath br touched o evs ->
  In (Git_raw statusShort (inr s)) evs -> String.length s <> 0 ->
  (exists r, In (Git_add "." r) evs)
  /\ (existsb isGitFailure evs = false ->
      o = Done tt
      /\ In (Git_commit "Adding changelog from automation." None) evs
      /\ In (Git_push "origin" br None) evs).
Proof.
  intros H Hin Hlen.
  destruct H; in_cases Hin; try (injection Hin as <-; contradiction).
  all: split; [eexists; unfold stagingEvents; in_solve|].
  all: intros Hok; rewrite !existsb_app in Hok; unfold identityEvents in Hok;
    try (destruct (isGithubCI env); discriminate Hok).
  split; [reflexivity|]. split; unfold stagingEvents; in_solve.
Qed.

Lemma nonempty_status_stages env prNumber options s :
  In (Git_raw statusShort (inr s)) (snd (run env prNumber options)) ->
  String.length s <> 0 ->
  (exists r, In (Git_add "." r) (snd (run env prNumber options)))
  /\ (existsb isGitFailure (snd (run env prNumber options)) = false ->
      fst (run env prNumber options) = Done tt
      /\ In (Git_commit "Adding changelog from automation." None)
            (snd (run env prNumber options))
      /\ exists pr,
           In (Call_getPullRequestData (owner options) (name options) prNumber (inr pr))
              (snd (run env prNumber options))
           /\ In (Git_push "origin" (branch pr) None) (snd (run env prNumber options))).
Proof.
  intros Hin Hlen.
  destruct (run_split env prNumber options)
    as [(Hk & _ & _) | (pr & d & tmp & touched & evs & ob & tail & Hbody & HT & Hob)].
  { exfalso. apply (in_clean isGitRaw _ _ Hin); [reflexivity|].
    apply disjoint_clean with (K := inPrefix); [exact Hk | by_kind]. }
  rewrite HT in Hin |- *.
  apply In_app_clean with (P := isGitRaw) in Hin;
    [| reflexivity | apply prefixEvents_clean; by_kind].
  apply In_app_clean with (P := isGitRaw) in Hin;
    [| reflexivity | eapply BodyShape_clean; [eassumption | by_kind]].
  assert (Hc : exists cevs,
             CommitShape env tmp (branch pr) touched (fst (run env prNumber options)) cevs
             /\ In (Git_raw statusShort (inr s)) cevs
             /\ forall ev, In ev cevs -> In ev tail).
  { destruct ob as [[]|e|c].
    - exists tail. destruct Hob as [Hc _]. auto.
    - destruct Hob as (cevs & -> & Hc & _). exists cevs.
      destruct Hin as [Hin|Hin]; [discriminate Hin|].
      split; [exact Hc|]. split; [exact Hin|]. intros ev Hev. right. exact Hev.
    - destruct Hob as [-> _]. destruct Hin. }
  destruct Hc as (cevs & Hc & Hs & Hsub).
  destruct (CommitShape_nonempty _ _ _ _ _ _ _ Hc Hs Hlen) as ((r & Hadd) & Hrest).
  assert (Hup : forall ev, In ev cevs ->
                In ev (prefixEvents prNumber options pr d tmp touched ++ evs ++ tail)).
  { intros ev Hev. apply in_or_app. right. apply in_or_app. right. auto. }
  split; [exists r; auto|].
  intros Hok.
  assert (Hok' : existsb isGitFailure cevs = false).
  { destruct (existsb isGitFailure cevs) eqn:Hx; [|reflexivity].
    apply existsb_exists in Hx as (ev & Hev & Hf).
    exfalso. apply (in_clean isGitFailure _ _ (Hup ev Hev) Hf Hok). }
  destruct (Hrest Hok') as (HO & Hcommit & Hpush).
  split; [exact HO|]. split; [auto|].
  exists pr. split; [apply in_or_app; left; apply prefixEvents_fetch | auto].
Qed.

(** C7, as the code has it.  In every run whose [git status --short],
    computed before anything is staged, returns the empty string, the
    action prints the skip notice and ends the process with status 0
    right there: nothing is staged, committed or pushed.  In every run
    whose status is not empty the action goes on to stage, and when no
    git call throws it commits, pushes and returns.  So a second run
    commits again exactly when its status is not empty: the pipeline is
    idempotent on the branch where regeneration reproduces the files of
    the branch.  It is in the concrete world, whose generation commands
    all return and write a content determined by the command and whose
    [git status] compares the working copy with the branch: there a
    second run on the branch as the first run left it stages, commits and
    pushes nothing, whatever the branch held and whichever projects were
    touched. *)
Theorem empty_status_skips_commit :
  (forall env prNumber options s,
      In (Git_raw statusShort (inr s)) (snd (run env prNumber options)) ->
      String.length s = 0 ->
      fst (run env prNumber options) = Exited 0
      /\ exit_code (fst (run env prNumber options)) = 0%Z
      /\ existsb isStageCommitPush (snd (run env prNumber options)) = false
      /\ exists t, snd (run env prNumber options)
                   = t ++ [Git_raw statusShort (inr s);
                           Logger_notice
                             "No changes in changelog files. Skipping commit and push.";
                           Process_exit 0])
  /\ (forall env prNumber options s,
        In (Git_raw statusShort (inr s)) (snd (run env prNumber options)) ->
        String.length s <> 0 ->
        (exists r, In (Git_add "." r) (snd (run env prNumber options)))
        /\ (existsb isGitFailure (snd (run env prNumber options)) = false ->
            fst (run env prNumber options) = Done tt
            /\ In (Git_commit "Adding changelog from automation." None)
                  (snd (run env prNumber options))
            /\ exists pr,
                 In (Call_getPullRequestData (owner options) (name options) prNumber
                       (inr pr)) (snd (run env prNumber options))
                 /\ In (Git_push "origin" (branch pr) None)
                       (snd (run env prNumber options))))
  /\ (forall k prNumber options,
        (forall cmd, Demo.failingCmd k cmd = false) ->
        existsb isStageCommitPush
          (snd (run (Demo.world (Demo.rerun k (snd (run (Demo.world k) prNumber options))))
                  prNumber options)) = false).
Proof.
  split; [|split].
  - intros env prNumber options s. apply empty_status_exits.
  - intros env prNumber options s. apply nonempty_status_stages.
  - intros k prNumber options. apply second_run_commits_nothing.
Qed.

(** C6, as the code has it.  In every run in which the list of touched
    projects requiring a changelog came back empty, no fragment is
    generated and no dependency is installed.  When moreover the
    reconciliation did not throw (the listing of the projects returned
    and every removal returned), the action prints its notice and ends
    the process with status 0 on line 133: nothing is staged, committed
    or pushed, and no git command is sent at all. *)
Theorem nothing_touched_exits_cleanly env prNumber options path b h file o n :
  In (Call_getTouchedProjectsRequiringChangelog path b h file o n (inr []))
     (snd (run env prNumber options)) ->
  existsb isGenerate (snd (run env prNumber options)) = false
  /\ existsb isInstall (snd (run env prNumber options)) = false
  /\ (existsb isReconcileFailure (snd (run env prNumber options)) = false ->
      fst (run env prNumber options) = Exited 0
      /\ exit_code (fst (run env prNumber options)) = 0%Z
      /\ existsb isStageCommitPush (snd (run env prNumber options)) = false
      /\ existsb isGitRaw (snd (run env prNumber options)) = false
      /\ exists t, snd (run env prNumber options)
                   = t ++ [Logger_notice "No projects require a changelog"; Process_exit 0]).
Proof.
  intros Hin.
  destruct (run_split env prNumber options)
    as [(_ & Hk & _) | (pr & d & tmp & touched & evs & ob & tail & Hbody & HT & Hob)].
  { exfalso. apply (in_clean listedTouched _ _ Hin); [reflexivity | exact Hk]. }
  rewrite HT in Hin |- *.
  assert (Htouched : touched = []).
  { symmetry. eapply (touched_in_run _ _ _ _ _ _ _ _ _ _ _ _ _ _ _ _ _
                        (fst (run env prNumber options)) Hbody); [|exact Hin].
    destruct ob as [[]|e|c].
    - right. exists tail. split; [left; reflexivity | apply Hob].
    - destruct Hob as (cevs & -> & Hc & _). right. exists cevs.
      split; [right; exists e; reflexivity | exact Hc].
    - left. apply Hob. }
  subst touched. clear Hin.
  assert (Hpre : forall P, (forall ev, inPrefix ev = true -> P ev = false) ->
                 existsb P (prefixEvents prNumber options pr d tmp []) = false)
    by (intros; apply prefixEvents_clean; assumption).
  assert (Htail : forall P, (forall ev, inCommit ev = true -> P ev = false) ->
                  (forall e, P (Logger_error e) = false) -> existsb P tail = false).
  { intros P HP Herr.
    eapply (tail_clean P env tmp (branch pr) [] (fst (run env prNumber options))
              (snd (run env prNumber options)) _
              (fun e => prefixEvents prNumber options pr d tmp [] ++ evs ++ [Logger_error e])
              ob tail); [|exact HP | exact Herr].
    destruct ob as [[]|e|c]; exact Hob. }
  assert (Hevs : existsb isGenerate evs = false /\ existsb isInstall evs = false).
  { inversion Hbody; subst; try congruence.
    - split; reflexivity.
    - split; rewrite !existsb_app;
        [rewrite removalEvents_no_generate | rewrite removalEvents_no_install]; reflexivity.
    - split; rewrite !existsb_app;
        [rewrite removalEvents_no_generate | rewrite removalEvents_no_install]; reflexivity.
    - symmetry in H. apply app_eq_nil in H as [_ H]. discriminate H. }
  destruct Hevs as [Hgen Hinst].
  split; [|split].
  - rewrite !existsb_app, Hgen, Hpre, Htail by (try by_kind; intros; reflexivity).
    reflexivity.
  - rewrite !existsb_app, Hinst, Hpre, Htail by (try by_kind; intros; reflexivity).
    reflexivity.
  - intros Hok. rewrite !existsb_app in Hok.
    apply orb_false_iff in Hok as [_ Hok]. apply orb_false_iff in Hok as [Hok _].
    inversion Hbody; subst; try congruence.
    + discriminate Hok.
    + exfalso. rewrite !existsb_app in Hok. unfold removalFailure in Hok.
      cbn [existsb isReconcileFailure startsWith Ascii.eqb Bool.eqb andb orb] in Hok.
      rewrite !orb_true_r in Hok. discriminate Hok.
    + destruct Hob as [-> ->]. rewrite app_nil_r.
      repeat split; try reflexivity.
      * rewrite existsb_app, Hpre by by_kind.
        eapply BodyShape_clean; [eassumption | by_kind].
      * rewrite existsb_app, Hpre by by_kind.
        eapply BodyShape_clean; [eassumption | by_kind].
      * eexists. rewrite !app_assoc. reflexivity.
    + symmetry in H. apply app_eq_nil in H as [_ H]. discriminate H.
Qed.

(** C9.  In every run in which the list of touched projects requiring a
    changelog came back non-empty, the notice [Changelogs created for]
    is printed with the whole list joined in its order, whatever happened
    in between.  The fragment-generation calls of the run all come before
    the notice, and they are the commands of an initial segment of the
    same list, in the same order: the whole list when no call threw, the
    projects up to the first throwing one otherwise. *)
Theorem final_notice_lists_all_touched env prNumber options path b h file o n touched :
  In (Call_getTouchedProjectsRequiringChangelog path b h file o n (inr touched))
     (snd (run env prNumber options)) ->
  touched <> [] ->
  exists t1 t2 body d k,
    snd (run env prNumber options)
    = t1 ++ Logger_notice ("Changelogs created for " ++ String.concat ", " touched)%string
         :: t2
    /\ In (Call_getChangelogDetails body (inr d)) t1
    /\ generatedCmds t1 = map (fun p => changelogCmd p file d) (firstn k touched)
    /\ generatedCmds t2 = [].
Proof.
  intros Hin Hne.
  destruct (run_split env prNumber options)
    as [(_ & Hk & _) | (pr & d & tmp & touched' & evs & ob & tail & Hbody & HT & Hob)].
  { exfalso. apply (in_clean listedTouched _ _ Hin); [reflexivity | exact Hk]. }
  rewrite HT in Hin |- *.
  assert (Htouched : touched = touched' /\ path = tmp /\ file = fileName pr).
  { eapply (touched_in_run _ _ _ _ _ _ _ _ _ _ _ _ _ _ _ _ _
              (fst (run env prNumber options)) Hbody); [|exact Hin].
    destruct ob as [[]|e|c].
    - right. exists tail. split; [left; reflexivity | apply Hob].
    - destruct Hob as (cevs & -> & Hc & _). right. exists cevs.
      split; [right; exists e; reflexivity | exact Hc].
    - left. apply Hob. }
  destruct Htouched as (<- & -> & ->). clear Hin.
  destruct (BodyShape_generated _ _ _ _ _ _ _ _ Hbody) as [k Hgen].
  assert (Hpre : generatedCmds (prefixEvents prNumber options pr d tmp touched) = [])
    by (apply generatedCmds_clean, prefixEvents_clean; by_kind).
  destruct ob as [[]|e|c].
  - destruct Hob as [Hc _].
    destruct (CommitShape_head _ _ _ _ _ _ Hc) as [rest ->].
    exists (prefixEvents prNumber options pr d tmp touched ++ evs), rest, (prBody pr), d, k.
    split; [rewrite <- app_assoc; reflexivity|].
    split; [apply in_or_app; left; apply prefixEvents_details|].
    split; [rewrite generatedCmds_app, Hpre; exact Hgen|].
    apply generatedCmds_clean.
    assert (H := CommitShape_clean isGenerate _ _ _ _ _ _ Hc).
    simpl in H. apply H. by_kind.
  - destruct Hob as (cevs & -> & Hc & _).
    destruct (CommitShape_head _ _ _ _ _ _ Hc) as [rest ->].
    exists (prefixEvents prNumber options pr d tmp touched ++ evs ++ [Logger_error e]),
      rest, (prBody pr), d, k.
    split; [rewrite <- !app_assoc; reflexivity|].
    split; [apply in_or_app; left; apply prefixEvents_details|].
    split; [rewrite !generatedCmds_app, Hpre, app_nil_r; exact Hgen|].
    apply generatedCmds_clean.
    assert (H := CommitShape_clean isGenerate _ _ _ _ _ _ Hc).
    simpl in H. apply H. by_kind.
  - exfalso. inversion Hbody; subst. congruence.
Qed.

(** ** Dependency installation *)

(** C8, as the code has it.  In every run [pnpm install] is called at
    most once.  When a (non-empty) [devRepoPath] is supplied it is never
    called and no clone is made.  Without one: in a run in which the list
    of touched projects came back non-empty and the reconciliation did
    not throw, and likewise in any run that makes a fragment-generation
    call, it is called exactly once and no fragment-generation call comes
    before it. *)
Theorem install_once_before_generation env prNumber options :
  count isInstall (snd (run env prNumber options)) <= 1
  /\ (truthy (devRepoPath options) = true ->
      count isInstall (snd (run env prNumber options)) = 0
      /\ count isClone (snd (run env prNumber options)) = 0)
  /\ (truthy (devRepoPath options) = false ->
      forall path b h file o n touched,
        In (Call_getTouchedProjectsRequiringChangelog path b h file o n (inr touched))
           (snd (run env prNumber options)) ->
        touched <> [] ->
        existsb isReconcileFailure (snd (run env prNumber options)) = false ->
        count isInstall (snd (run env prNumber options)) = 1
        /\ existsb isGenerate
             (beforeFirst isInstall (snd (run env prNumber options))) = false)
  /\ (truthy (devRepoPath options) = false ->
      existsb isGenerate (snd (run env prNumber options)) = true ->
      count isInstall (snd (run env prNumber options)) = 1
      /\ existsb isGenerate
           (beforeFirst isInstall (snd (run env prNumber options))) = false).
Proof.
  destruct (run_split env prNumber options)
    as [(Hk & Hl & Hcl) | (pr & d & tmp & touched & evs & ob & tail & Hbody & HT & Hob)].
  { assert (Hi : existsb isInstall (snd (run env prNumber options)) = false)
      by (apply disjoint_clean with (K := inPrefix); [exact Hk | by_kind]).
    assert (Hg : existsb isGenerate (snd (run env prNumber options)) = false)
      by (apply disjoint_clean with (K := inPrefix); [exact Hk | by_kind]).
    rewrite (count_none _ _ Hi). repeat split; auto.
    - apply count_none; auto.
    - exfalso. eapply (in_clean listedTouched); [eassumption | reflexivity | exact Hl].
    - exfalso. eapply (in_clean listedTouched); [eassumption | reflexivity | exact Hl].
    - congruence.
    - congruence. }
  rewrite HT.
  assert (Hpre : forall P, (forall ev, inPrefix ev = true -> P ev = false) ->
                 existsb P (prefixEvents prNumber options pr d tmp touched) = false)
    by (intros; apply prefixEvents_clean; assumption).
  assert (Htail : forall P, (forall ev, inCommit ev = true -> P ev = false) ->
                  (forall e, P (Logger_error e) = false) -> existsb P tail = false)
    by (intros P HP He;
        exact (tail_clean P _ _ _ _ _ _ _
                 (fun e => prefixEvents prNumber options pr d tmp touched
                             ++ evs ++ [Logger_error e]) _ _ Hob HP He)).
  assert (Hcount : count isInstall (prefixEvents prNumber options pr d tmp touched ++ evs ++ tail)
                   = count isInstall evs).
  { rewrite !count_app, (count_none isInstall _ (Hpre isInstall ltac:(by_kind))).
    rewrite (count_none isInstall tail); [lia|]. apply Htail; [by_kind | intros; reflexivity]. }
  assert (Hgen : existsb isGenerate (prefixEvents prNumber options pr d tmp touched ++ evs ++ tail)
                 = existsb isGenerate evs).
  { rewrite !existsb_app, (Hpre isGenerate ltac:(by_kind)).
    rewrite (Htail isGenerate); [apply orb_false_r | by_kind | intros; reflexivity]. }
  assert (Hrec : existsb isReconcileFailure
                   (prefixEvents prNumber options pr d tmp touched ++ evs ++ tail)
                 = existsb isReconcileFailure evs).
  { rewrite !existsb_app, (Hpre isReconcileFailure ltac:(by_kind)).
    rewrite (Htail isReconcileFailure); [apply orb_false_r | by_kind | intros; reflexivity]. }
  assert (Hreached : truthy (devRepoPath options) = false ->
                     count isInstall evs = 1 ->
                     existsb isGenerate (beforeFirst isInstall evs) = false ->
                     existsb isGenerate
                       (beforeFirst isInstall
                          (prefixEvents prNumber options pr d tmp touched ++ evs ++ tail))
                     = false).
  { intros _ Hone Hbefore.
    rewrite beforeFirst_app_clean by (apply Hpre; by_kind).
    rewrite beforeFirst_app_hit by (apply count_positive; lia).
    rewrite existsb_app, (Hpre isGenerate ltac:(by_kind)). exact Hbefore. }
  rewrite Hcount, Hgen, Hrec.
  assert (Hclone : truthy (devRepoPath options) = true ->
                   count isClone
                     (prefixEvents prNumber options pr d tmp touched ++ evs ++ tail) = 0).
  { intros Hdev. apply count_none. rewrite !existsb_app.
    rewrite (BodyShape_clean isClone _ _ _ _ _ _ _ _ Hbody ltac:(by_kind)).
    rewrite (Htail isClone ltac:(by_kind) ltac:(intros; reflexivity)).
    unfold prefixEvents. rewrite Hdev. reflexivity. }
  assert (Htouched : forall path b h file o n touched0,
             In (Call_getTouchedProjectsRequiringChangelog path b h file o n (inr touched0))
                (prefixEvents prNumber options pr d tmp touched ++ evs ++ tail) ->
             touched0 = touched).
  { intros path b h file o n touched0 Hin.
    eapply (touched_in_run _ _ _ _ _ _ _ _ _ _ _ _ _ _ _ _ _
              (fst (run env prNumber options)) Hbody); [|exact Hin].
    destruct ob as [[]|e|c].
    - right. exists tail. split; [left; reflexivity | apply Hob].
    - destruct Hob as (cevs & -> & Hc & _). right. exists cevs.
      split; [right; exists e; reflexivity | exact Hc].
    - left. apply Hob. }
  destruct (BodyShape_install _ _ _ _ _ _ _ _ Hbody)
    as [(Hi & Hg & Hwhy) | [(Hdev & Hi) | (Hdev & Hone & Hbefore)]].
  - rewrite (count_none _ _ Hi).
    split; [lia|]. split; [intros Hdev; split; [reflexivity | auto]|]. split.
    + intros Hdev path b h file o n touched0 Hin Hne Hrecf. exfalso.
      apply Htouched in Hin. subst touched0. destruct Hwhy; congruence.
    + intros Hdev Hg'. congruence.
  - rewrite (count_none _ _ Hi).
    split; [lia|]. split; [intros _; split; [reflexivity | auto]|].
    split; intros; congruence.
  - rewrite Hone.
    split; [lia|]. split; [intros; congruence|]. split; intros; auto.
Qed.

(** ** Reconciliation comes first *)

(** A run makes a fragment-generation call only after a reconciliation
    that did not throw; and a reconciliation that did not throw has gone
    through every listed project before any generation call. *)
Lemma reconciliation_complete env prNumber options :
  (existsb isGenerate (snd (run env prNumber options)) = true ->
   existsb isReconcileFailure (snd (run env prNumber options)) = false
   /\ exists tmpRepoPath paths,
        In (Call_getAllProjectPaths tmpRepoPath (inr paths))
           (beforeFirst isGenerate (snd (run env prNumber options))))
  /\ (forall tmpRepoPath paths,
        In (Call_getAllProjectPaths tmpRepoPath (inr paths))
           (snd (run env prNumber options)) ->
        existsb isReconcileFailure (snd (run env prNumber options)) = false ->
        exists pr,
          In (Call_getPullRequestData (owner options) (name options) prNumber (inr pr))
             (snd (run env prNumber options))
          /\ forall p, In p paths ->
             exists b,
               In (Call_existsSync (fragmentPath env tmpRepoPath (fileName pr) p) b)
                  (beforeFirst isGenerate (snd (run env prNumber options)))
               /\ (b = true ->
                   In (Call_execSync
                         ("rm " ++ fragmentPath env tmpRepoPath (fileName pr) p)%string
                         tmpRepoPath None)
                      (beforeFirst isGenerate (snd (run env prNumber options))))).
Proof.
  destruct (run_split env prNumber options)
    as [(Hk & _ & _) | (pr & d & tmp & touched & evs & ob & tail & Hbody & HT & Hob)].
  { split.
    - intros Hg. exfalso.
      rewrite (disjoint_clean inPrefix isGenerate _ Hk ltac:(by_kind)) in Hg. discriminate.
    - intros tmp paths Hin _. exfalso.
      apply (in_clean isListing _ _ Hin); [reflexivity|].
      apply disjoint_clean with (K := inPrefix); [exact Hk | by_kind]. }
  rewrite HT.
  assert (Hpre : forall P, (forall ev, inPrefix ev = true -> P ev = false) ->
                 existsb P (prefixEvents prNumber options pr d tmp touched) = false)
    by (intros; apply prefixEvents_clean; assumption).
  assert (Htail : forall P, (forall ev, inCommit ev = true -> P ev = false) ->
                  (forall e, P (Logger_error e) = false) -> existsb P tail = false)
    by (intros P HP He;
        exact (tail_clean P _ _ _ _ _ _ _
                 (fun e => prefixEvents prNumber options pr d tmp touched
                             ++ evs ++ [Logger_error e]) _ _ Hob HP He)).
  assert (Hgen : existsb isGenerate (prefixEvents prNumber options pr d tmp touched ++ evs ++ tail)
                 = existsb isGenerate evs).
  { rewrite !existsb_app, (Hpre isGenerate ltac:(by_kind)).
    rewrite (Htail isGenerate); [apply orb_false_r | by_kind | intros; reflexivity]. }
  assert (Hrec : existsb isReconcileFailure
                   (prefixEvents prNumber options pr d tmp touched ++ evs ++ tail)
                 = existsb isReconcileFailure evs).
  { rewrite !existsb_app, (Hpre isReconcileFailure ltac:(by_kind)).
    rewrite (Htail isReconcileFailure); [apply orb_false_r | by_kind | intros; reflexivity]. }
  rewrite Hgen, Hrec.
  destruct (BodyShape_reconcile _ _ _ _ _ _ _ _ Hbody)
    as [[Hfail Hnone] | (Hok & done & rest & -> & Hrest)].
  { split; intros; congruence. }
  (* the trace, split after the reconciliation *)
  set (reconciled := prefixEvents prNumber options pr d tmp touched
                       ++ reconcileHead tmp (map fst done)
                       ++ flat_map (removalEvents env tmp (fileName pr)) done).
  assert (Hsplit : prefixEvents prNumber options pr d tmp touched
                     ++ (reconcileHead tmp (map fst done)
                           ++ flat_map (removalEvents env tmp (fileName pr)) done ++ rest)
                     ++ tail
                   = reconciled ++ rest ++ tail).
  { unfold reconciled. rewrite <- !app_assoc. reflexivity. }
  rewrite Hsplit.
  assert (Hclean : existsb isGenerate reconciled = false).
  { unfold reconciled. rewrite existsb_app, (Hpre isGenerate ltac:(by_kind)).
    apply reconcile_no_generate_event. }
  split.
  - intros _. split; [exact Hok|]. exists tmp, (map fst done).
    apply in_beforeFirst; [|exact Hclean].
    unfold reconciled, reconcileHead. apply in_or_app. right. simpl. auto.
  - intros tmp' paths Hin _.
    assert (Hlisting : tmp' = tmp /\ paths = map fst done).
    { apply in_app_or in Hin as [Hin|Hin].
      - unfold reconciled in Hin. apply in_app_or in Hin as [Hin|Hin].
        + exfalso. apply (in_clean isListing _ _ Hin); [reflexivity|].
          apply Hpre. by_kind.
        + apply in_app_or in Hin as [Hin|Hin].
          * unfold reconcileHead in Hin. in_cases Hin.
            injection Hin as -> ->. auto.
          * exfalso. apply (in_clean isListing _ _ Hin); [reflexivity|].
            apply removalEvents_no_listing.
      - exfalso. apply (in_clean isListing _ _ Hin); [reflexivity|].
        rewrite existsb_app, Hrest. apply Htail; [by_kind | intros; reflexivity]. }
    destruct Hlisting as [-> ->]. exists pr. split.
    + apply in_or_app. left. unfold reconciled. apply in_or_app. left.
      apply prefixEvents_fetch.
    + intros p Hp.
      destruct (removal_of_listed env tmp (fileName pr) done p Hp) as (b & Hex & Hrm).
      exists b. split.
      * apply in_beforeFirst; [|exact Hclean].
        unfold reconciled. apply in_or_app. right. apply in_or_app. right. exact Hex.
      * intros Hb. apply in_beforeFirst; [|exact Hclean].
        unfold reconciled. apply in_or_app. right. apply in_or_app. right. auto.
Qed.



(** ** The bot identity *)

(** C2, as the code has it.  In every run that reaches the commit step
    in a continuous-integration context, the identity is configured with
    [git config --global]: the call for [user.email] is made and, when it
    returns, the call for [user.name]; both write the per-user
    configuration.  No run makes a [git config] call that writes the
    configuration of the clone.  Outside continuous integration no
    [git config] call is made, and the only other raw git command of a run
    is [git status --short]. *)
Theorem ci_identity_is_configured_globally env prNumber options :
  (In (Call_isGithubCI true) (snd (run env prNumber options)) ->
   existsb writesGlobalGitConfig (snd (run env prNumber options)) = true
   /\ exists r,
        In (Git_raw ["config"; "--global"; "user.email"; "github-actions@github.com"] r)
           (snd (run env prNumber options))
        /\ match r with
           | inr _ =>
               exists r',
                 In (Git_raw ["config"; "--global"; "user.name"; "github-actions"] r')
                    (snd (run env prNumber options))
           | inl _ => True
           end)
  /\ (In (Call_isGithubCI false) (snd (run env prNumber options)) ->
      existsb writesGlobalGitConfig (snd (run env prNumber options)) = false)
  /\ existsb writesLocalGitConfig (snd (run env prNumber options)) = false
  /\ (forall args r, In (Git_raw args r) (snd (run env prNumber options)) ->
      args = ["config"; "--global"; "user.email"; "github-actions@github.com"]
      \/ args = ["config"; "--global"; "user.name"; "github-actions"]
      \/ args = ["status"; "--short"]).
Proof.
  destruct (run_split env prNumber options)
    as [(Hk & _ & _) | (pr & d & tmp & touched & evs & ob & tail & Hbody & HT & Hob)].
  { assert (Hnone : forall P, (forall ev, inPrefix ev = true -> P ev = false) ->
                    existsb P (snd (run env prNumber options)) = false)
      by (intros; apply disjoint_clean with (K := inPrefix); assumption).
    split; [|split; [|split]].
    - intros Hin. exfalso. apply (in_clean isCICheck _ _ Hin); [reflexivity|].
      apply Hnone. by_kind.
    - intros _. apply Hnone. by_kind.
    - apply Hnone. by_kind.
    - intros args r Hin. exfalso. apply (in_clean isGitRaw _ _ Hin); [reflexivity|].
      apply Hnone. by_kind. }
  rewrite HT.
  assert (Hpre : forall P, (forall ev, inPrefix ev = true -> P ev = false) ->
                 existsb P (prefixEvents prNumber options pr d tmp touched) = false)
    by (intros; apply prefixEvents_clean; assumption).
  assert (Hev : forall P, (forall ev, inBody ev = true -> P ev = false) ->
                existsb P evs = false)
    by (intros; eapply BodyShape_clean; eassumption).
  (* what the events after the try statement are *)
  assert (Hcases : tail = []
                   \/ exists cevs,
                        CommitShape env tmp (branch pr) touched
                          (fst (run env prNumber options)) cevs
                        /\ (tail = cevs \/ exists e, tail = Logger_error e :: cevs)).
  { destruct ob as [[]|e|c].
    - right. exists tail. split; [apply Hob | left; reflexivity].
    - destruct Hob as (cevs & -> & Hc & _). right. exists cevs.
      split; [exact Hc | right; exists e; reflexivity].
    - left. apply Hob. }
  assert (Hin_tail : forall P ev, P ev = true ->
                     (forall ev', inPrefix ev' = true -> P ev' = false) ->
                     (forall ev', inBody ev' = true -> P ev' = false) ->
                     In ev (prefixEvents prNumber options pr d tmp touched ++ evs ++ tail) ->
                     In ev tail).
  { intros P ev HP H1 H2 Hin.
    apply In_app_clean with (P := P) in Hin; [| exact HP | apply Hpre; exact H1].
    apply In_app_clean with (P := P) in Hin; [| exact HP | apply Hev; exact H2].
    exact Hin. }
  assert (Hexists : forall P, (forall ev, inPrefix ev = true -> P ev = false) ->
                    (forall ev, inBody ev = true -> P ev = false) ->
                    existsb P (prefixEvents prNumber options pr d tmp touched ++ evs ++ tail)
                    = existsb P tail).
  { intros P H1 H2. rewrite !existsb_app, (Hpre P H1), (Hev P H2). reflexivity. }
  rewrite !(Hexists writesGlobalGitConfig ltac:(by_kind) ltac:(by_kind)).
  rewrite !(Hexists writesLocalGitConfig ltac:(by_kind) ltac:(by_kind)).
  destruct Hcases as [-> | (cevs & Hc & Htl)].
  { split; [|split; [|split]]; try reflexivity.
    - intros Hin. apply (Hin_tail isCICheck) in Hin; [destruct Hin | reflexivity | by_kind | by_kind].
    - intros args r Hin.
      apply (Hin_tail isGitRaw) in Hin; [destruct Hin | reflexivity | by_kind | by_kind]. }
  destruct (CommitShape_identity _ _ _ _ _ _ Hc) as (Hlocal & Hglobal & Hid & Hraw).
  assert (Hsame : forall P, (forall e, P (Logger_error e) = false) ->
                  existsb P tail = existsb P cevs).
  { intros P HP. destruct Htl as [-> | (e & ->)]; [reflexivity|]. simpl. rewrite HP.
    reflexivity. }
  assert (Hsub : forall ev, In ev cevs ->
                 In ev (prefixEvents prNumber options pr d tmp touched ++ evs ++ tail)).
  { intros ev Hin. apply in_or_app. right. apply in_or_app. right.
    destruct Htl as [-> | (e & ->)]; [exact Hin | right; exact Hin]. }
  assert (Hback : forall P ev, P ev = true -> (forall e, P (Logger_error e) = false) ->
                  In ev tail -> In ev cevs).
  { intros P ev HP Herr Hin. destruct Htl as [-> | (e & ->)]; [exact Hin|].
    destruct Hin as [<- | Hin]; [rewrite Herr in HP; discriminate | exact Hin]. }
  rewrite !(Hsame writesGlobalGitConfig ltac:(intros; reflexivity)).
  rewrite !(Hsame writesLocalGitConfig ltac:(intros; reflexivity)).
  rewrite Hglobal. split; [|split; [|split]].
  - intros Hin.
    apply (Hin_tail isCICheck) in Hin; [| reflexivity | by_kind | by_kind].
    apply (Hback isCICheck) in Hin; [| reflexivity | intros; reflexivity].
    apply (CommitShape_ci _ _ _ _ _ _ _ Hc) in Hin. symmetry in Hin.
    split; [exact Hin|].
    destruct (Hid Hin) as (r & Hr & Hname). exists r. split; [apply Hsub; exact Hr|].
    destruct r as [e|s]; [exact I|]. destruct Hname as [r' Hr']. exists r'.
    apply Hsub. exact Hr'.
  - intros Hin.
    apply (Hin_tail isCICheck) in Hin; [| reflexivity | by_kind | by_kind].
    apply (Hback isCICheck) in Hin; [| reflexivity | intros; reflexivity].
    apply (CommitShape_ci _ _ _ _ _ _ _ Hc) in Hin. symmetry. exact Hin.
  - exact Hlocal.
  - intros args r Hin.
    apply (Hin_tail isGitRaw) in Hin; [| reflexivity | by_kind | by_kind].
    apply (Hback isGitRaw) in Hin; [| reflexivity | intros; reflexivity].
    exact (Hraw args r Hin).
Qed.

(** ** A fragment-generation call that throws *)

(** C1, as the code has it.  The [try] statement encloses the whole
    loop, not one pass of it.  In every run in which a
    fragment-generation call throws [e]: the call is for a project [p] of
    the touched list; the projects before [p] in the list were generated
    by calls that returned, in order; the throw is caught and [e] is
    logged at once; no project after [p] is generated; and the rest of
    the run is the commit step, run from there with the whole list, so
    the run ends with status 0 unless a git call throws. *)
Theorem generation_failure_is_caught env prNumber options cmd cwd e :
  In (Call_execSync cmd cwd (Some e)) (snd (run env prNumber options)) ->
  isGenerateCmd cmd = true ->
  exists pr d touched gen p post t1 t2,
    snd (run env prNumber options)
    = t1 ++ Call_execSync cmd cwd (Some e) :: Logger_error e :: t2
    /\ In (Call_getPullRequestData (owner options) (name options) prNumber (inr pr)) t1
    /\ In (Call_getChangelogDetails (prBody pr) (inr d)) t1
    /\ In (Call_getTouchedProjectsRequiringChangelog cwd (base pr) (head pr)
             (fileName pr) (owner options) (name options) (inr touched)) t1
    /\ touched = gen ++ p :: post
    /\ cmd = changelogCmd p (fileName pr) d
    /\ generatedCmds t1 = map (fun q => changelogCmd q (fileName pr) d) gen
    /\ (forall q, In q gen ->
        In (Call_execSync (changelogCmd q (fileName pr) d) cwd None) t1)
    /\ generatedCmds t2 = []
    /\ run env prNumber options
       = commitAndPush env cwd (branch pr) touched
           (t1 ++ [Call_execSync cmd cwd (Some e); Logger_error e])
    /\ (exit_code (fst (run env prNumber options)) = 0%Z
        \/ existsb isGitFailure t2 = true).
Proof.
  intros Hin Hcmd.
  destruct (run_split env prNumber options)
    as [(Hk & _ & _) | (pr & d & tmp & touched & evs & ob & tail & Hbody & HT & Hob)].
  { exfalso. apply (in_clean isExec _ _ Hin); [reflexivity|].
    apply disjoint_clean with (K := inPrefix); [exact Hk | by_kind]. }
  rewrite HT in Hin.
  assert (Htail : existsb isExec tail = false).
  { refine (tail_clean isExec _ _ _ _ _ _ _
              (fun e => prefixEvents prNumber options pr d tmp touched
                          ++ evs ++ [Logger_error e]) _ _ Hob _ _);
      [by_kind | intros; reflexivity]. }
  apply In_app_clean with (P := isExec) in Hin;
    [| reflexivity | apply prefixEvents_clean; by_kind].
  apply in_app_or in Hin as [Hin|Hin];
    [| exfalso; apply (in_clean isExec _ _ Hin); [reflexivity | exact Htail]].
  destruct (BodyShape_generation_failure _ _ _ _ _ _ _ _ _ _ _ Hbody Hin Hcmd)
    as (gen & p & post & before & Ht & -> & -> & -> & -> & Hgen & Hdone).
  destruct Hob as (cevs & -> & Hc & Hrun).
  exists pr, d, touched, gen, p, post,
    (prefixEvents prNumber options pr d tmp touched ++ before), cevs.
  assert (Hpre : generatedCmds (prefixEvents prNumber options pr d tmp touched) = [])
    by (apply generatedCmds_clean, prefixEvents_clean; by_kind).
  split; [rewrite HT, <- !app_assoc; reflexivity|].
  split; [apply in_or_app; left; apply prefixEvents_fetch|].
  split; [apply in_or_app; left; apply prefixEvents_details|].
  split; [apply in_or_app; left; apply prefixEvents_listed|].
  split; [exact Ht|]. split; [reflexivity|].
  split; [rewrite generatedCmds_app, Hpre; exact Hgen|].
  split; [intros q Hq; apply in_or_app; right; apply Hdone; exact Hq|].
  split; [apply generatedCmds_clean;
          eapply CommitShape_clean; [exact Hc | by_kind]|].
  split; [|eapply CommitShape_exit; exact Hc].
  rewrite (surjective_pairing (run env prNumber options)), Hrun.
  f_equal. rewrite <- !app_assoc. reflexivity.
Qed.

(** ** The command string *)


(** * The claims on the concrete world *)

(** Finds an event in a trace that computes. *)
Ltac found := vm_compute; repeat (first [left; reflexivity | right]).

(** ** Where the specification and the code part *)

(** C1, as the specification has it, fails.  Two projects are touched;
    the generation command of the first throws.  Generation is not
    attempted for the second: the only generation call of the run is the
    one that threw.  The run still commits and returns. *)
Lemma first_failure_skips_later_projects :
  let T := snd (run (Demo.world Demo.firstFails) "1234" Demo.options) in
  let first := changelogCmd "plugins/woocommerce" "1234-add-thing" Demo.patchFix in
  let second := changelogCmd "packages/js/data" "1234-add-thing" Demo.patchFix in
  In (Call_getTouchedProjectsRequiringChangelog "/tmp/clone" "deadbeef" "c0ffee"
        "1234-add-thing" "woocommerce" "woocommerce"
        (inr ["plugins/woocommerce"; "packages/js/data"])) T
  /\ In (Call_execSync first "/tmp/clone" (Some "Command failed")) T
  /\ generatedCmds T = [first]
  /\ ~ (exists cwd r, In (Call_execSync second cwd r) T)
  /\ fst (run (Demo.world Demo.firstFails) "1234" Demo.options) = Done tt.
Proof.
  cbv zeta. split; [found|]. split; [found|]. split; [reflexivity|].
  split; [|reflexivity].
  intros (cwd & r & Hin). vm_compute in Hin.
  repeat (destruct Hin as [Hin|Hin]; [discriminate Hin|]). exact Hin.
Qed.

(** C2, as the specification has it, fails.  In continuous integration
    the run configures the identity with [--global]: it writes the
    per-user configuration, outside the clone, and never the
    configuration of the clone. *)
Lemma ci_identity_leaves_the_clone :
  let T := snd (run (Demo.world Demo.healthy) "1234" Demo.options) in
  In (Call_isGithubCI true) T
  /\ In (Git_raw ["config"; "--global"; "user.email"; "github-actions@github.com"]
           (inr EmptyString)) T
  /\ In (Git_raw ["config"; "--global"; "user.name"; "github-actions"] (inr EmptyString)) T
  /\ ~ (forall ev, In ev T -> writesGlobalGitConfig ev = false)
  /\ existsb writesLocalGitConfig T = false.
Proof.
  cbv zeta. split; [found|]. split; [found|]. split; [found|]. split; [|reflexivity].
  intros H.
  specialize (H (Git_raw ["config"; "--global"; "user.email"; "github-actions@github.com"]
                   (inr EmptyString))).
  assert (Hin : In (Git_raw ["config"; "--global"; "user.email"; "github-actions@github.com"]
                      (inr EmptyString))
                   (snd (run (Demo.world Demo.healthy) "1234" Demo.options))) by found.
  specialize (H Hin). discriminate H.
Qed.

(** C8, as the specification has it, fails when the reconciliation
    throws.  Two projects are touched and no [devRepoPath] is supplied;
    the [rm] of the stale fragment fails, the [catch] takes over and
    [pnpm install] is never called. *)
Lemma no_install_after_failed_reconciliation :
  let T := snd (run (Demo.world Demo.staleLocked) "1234" Demo.options) in
  In (Call_getTouchedProjectsRequiringChangelog "/tmp/clone" "deadbeef" "c0ffee"
        "1234-add-thing" "woocommerce" "woocommerce"
        (inr ["plugins/woocommerce"; "packages/js/data"])) T
  /\ truthy (devRepoPath Demo.options) = false
  /\ In (Call_execSync "rm /tmp/clone/docs/changelog/1234-add-thing" "/tmp/clone"
           (Some "Command failed")) T
  /\ count isInstall T = 0.
Proof. cbv zeta. split; [found|]. split; [reflexivity|]. split; [found | reflexivity]. Qed.

(** C6, as the specification has it, fails when the reconciliation
    throws.  No project is touched; the branch holds two stale fragments;
    the first is removed and the [rm] of the second fails.  The [catch]
    takes over before the test of line 131 is reached: the run prints
    [Changelogs created for] with an empty list, finds the working copy
    changed, stages, commits and pushes, and returns without ever calling
    [process.exit]. *)
Lemma failed_removal_commits_with_nothing_touched :
  let T := snd (run (Demo.world Demo.untouchedLocked) "1234" Demo.options) in
  In (Call_getTouchedProjectsRequiringChangelog "/tmp/clone" "deadbeef" "c0ffee"
        "1234-add-thing" "woocommerce" "woocommerce" (inr [])) T
  /\ In (Call_execSync "rm /tmp/clone/plugins/woocommerce/changelog/1234-add-thing"
           "/tmp/clone" None) T
  /\ In (Call_execSync "rm /tmp/clone/docs/changelog/1234-add-thing" "/tmp/clone"
           (Some "Command failed")) T
  /\ In (Logger_notice "Changelogs created for ") T
  /\ In (Git_add "." None) T
  /\ In (Git_commit "Adding changelog from automation." None) T
  /\ In (Git_push "origin" "add/thing" None) T
  /\ existsb isExit T = false
  /\ fst (run (Demo.world Demo.untouchedLocked) "1234" Demo.options) = Done tt.
Proof.
  cbv zeta. split; [found|]. split; [found|]. split; [found|]. split; [found|].
  split; [found|]. split; [found|]. split; [found|]. split; reflexivity.
Qed.

(** C7, as the specification has it, fails where regeneration does not
    reproduce the files of the branch.  The generator dates what it
    writes.  On Monday the pipeline generates the two fragments and
    pushes them.  On Tuesday it runs again for the same pull request, on
    the branch as Monday's run left it: the fragments are removed and
    regenerated with another content, [git status] is not empty, and the
    run commits and pushes a second time.  The same second run made on
    Monday commits nothing. *)
Lemma dated_fragments_are_committed_again :
  let monday := run (Demo.worldOn "Monday" Demo.healthy) "1234" Demo.options in
  let tuesday := run (Demo.worldOn "Tuesday" Demo.sinceMonday) "1234" Demo.options in
  let mondayAgain := run (Demo.worldOn "Monday" Demo.sinceMonday) "1234" Demo.options in
  In (Git_push "origin" "add/thing" None) (snd monday)
  /\ In (Call_getPullRequestData "woocommerce" "woocommerce" "1234" (inr Demo.pr))
        (snd monday)
  /\ In (Call_getPullRequestData "woocommerce" "woocommerce" "1234" (inr Demo.pr))
        (snd tuesday)
  /\ In (Git_raw statusShort (inr "?? changelog/")) (snd tuesday)
  /\ In (Git_add "." None) (snd tuesday)
  /\ In (Git_commit "Adding changelog from automation." None) (snd tuesday)
  /\ In (Git_push "origin" "add/thing" None) (snd tuesday)
  /\ fst tuesday = Done tt
  /\ existsb isStageCommitPush (snd mondayAgain) = false.
Proof.
  cbv zeta. split; [found|]. split; [found|]. split; [found|]. split; [found|].
  split; [found|]. split; [found|]. split; [found|]. split; reflexivity.
Qed.


(** ** Witnesses *)

Lemma generation_failure_witness :
  let env := Demo.world Demo.firstFails in
  let first := changelogCmd "plugins/woocommerce" "1234-add-thing" Demo.patchFix in
  In (Call_execSync first "/tmp/clone" (Some "Command failed"))
     (snd (run env "1234" Demo.options))
  /\ isGenerateCmd first = true
  /\ exists t1 t2,
       snd (run env "1234" Demo.options)
       = t1 ++ Call_execSync first "/tmp/clone" (Some "Command failed")
            :: Logger_error "Command failed" :: t2
       /\ generatedCmds t2 = [].
Proof.
  cbv zeta. split; [found|]. split; [reflexivity|].
  destruct (generation_failure_is_caught (Demo.world Demo.firstFails) "1234" Demo.options
              (changelogCmd "plugins/woocommerce" "1234-add-thing" Demo.patchFix)
              "/tmp/clone" "Command failed" ltac:(found) eq_refl)
    as (pr & d & touched & gen & p & post & t1 & t2 & HT & _ & _ & _ & _ & _ & _ & _ & Hlater & _).
  exists t1, t2. split; assumption.
Defined.

Lemma ci_identity_witness :
  let T := snd (run (Demo.world Demo.healthy) "1234" Demo.options) in
  In (Call_isGithubCI true) T
  /\ existsb writesGlobalGitConfig T = true
  /\ existsb writesLocalGitConfig T = false.
Proof.
  cbv zeta. split; [found|].
  destruct (ci_identity_is_configured_globally (Demo.world Demo.healthy) "1234" Demo.options)
    as (Hci & _ & Hlocal & _).
  split; [apply Hci; found | exact Hlocal].
Defined.


Lemma not_requested_witness :
  let env := Demo.world Demo.unchecked in
  getPullRequestData env "woocommerce" "woocommerce" "1234" = inr Demo.pr
  /\ shouldAutomateChangelog env (prBody Demo.pr) = false
  /\ exit_code (fst (run env "1234" Demo.options)) = 0%Z
  /\ existsb isMutation (snd (run env "1234" Demo.options)) = false.
Proof.
  cbv zeta. split; [reflexivity|]. split; [reflexivity|].
  exact (proj2 (not_requested_is_a_clean_noop (Demo.world Demo.unchecked) "1234"
                  Demo.options Demo.pr eq_refl eq_refl)).
Defined.

Lemma malformed_directive_witness :
  let env := Demo.world Demo.malformed in
  getPullRequestData env "woocommerce" "woocommerce" "1234" = inr Demo.pr
  /\ shouldAutomateChangelog env (prBody Demo.pr) = true
  /\ getChangelogDetails env (prBody Demo.pr) = inl "No changelog significance found"
  /\ exit_code (fst (run env "1234" Demo.options)) <> 0%Z
  /\ existsb isClone (snd (run env "1234" Demo.options)) = false
  /\ existsb isCheckout (snd (run env "1234" Demo.options)) = false
  /\ existsb isGenerate (snd (run env "1234" Demo.options)) = false
  /\ existsb isMutation (snd (run env "1234" Demo.options)) = false.
Proof.
  cbv zeta. split; [reflexivity|]. split; [reflexivity|]. split; [reflexivity|].
  exact (proj2 (malformed_directive_aborts_before_clone (Demo.world Demo.malformed) "1234"
                  Demo.options Demo.pr "No changelog significance found"
                  eq_refl eq_refl eq_refl)).
Defined.

Lemma nothing_touched_witness :
  let env := Demo.world Demo.untouched in
  In (Call_getTouchedProjectsRequiringChangelog "/tmp/clone" "deadbeef" "c0ffee"
        "1234-add-thing" "woocommerce" "woocommerce" (inr []))
     (snd (run env "1234" Demo.options))
  /\ existsb isReconcileFailure (snd (run env "1234" Demo.options)) = false
  /\ fst (run env "1234" Demo.options) = Exited 0
  /\ existsb isStageCommitPush (snd (run env "1234" Demo.options)) = false.
Proof.
  cbv zeta. split; [found|]. split; [reflexivity|].
  destruct (nothing_touched_exits_cleanly (Demo.world Demo.untouched) "1234" Demo.options
              "/tmp/clone" "deadbeef" "c0ffee" "1234-add-thing" "woocommerce" "woocommerce"
              ltac:(found))
    as (_ & _ & Hclean).
  destruct (Hclean eq_refl) as (Hexit & _ & Hcommit & _).
  split; assumption.
Defined.

(** The pipeline run a second time: the first run pushed the two
    fragments, the second removes and regenerates them, [git status] is
    empty and nothing is committed again. *)
Lemma second_run_witness :
  let first := run (Demo.world Demo.healthy) "1234" Demo.options in
  let second := run (Demo.world Demo.again) "1234" Demo.options in
  In (Git_raw statusShort (inr "?? changelog/")) (snd first)
  /\ String.length "?? changelog/" <> 0
  /\ existsb isGitFailure (snd first) = false
  /\ fst first = Done tt
  /\ In (Git_raw statusShort (inr EmptyString)) (snd second)
  /\ String.length EmptyString = 0
  /\ fst second = Exited 0
  /\ existsb isStageCommitPush (snd second) = false
  /\ (forall cmd, Demo.failingCmd Demo.healthy cmd = false)
  /\ existsb isStageCommitPush
       (snd (run (Demo.world
                    (Demo.rerun Demo.healthy
                       (snd (run (Demo.world Demo.healthy) "1234" Demo.options))))
               "1234" Demo.options)) = false.
Proof.
  cbv zeta.
  destruct empty_status_skips_commit as (Hskip & Hstage & Hagain).
  split; [found|]. split; [discriminate|]. split; [reflexivity|].
  split.
  { destruct (Hstage (Demo.world Demo.healthy) "1234" Demo.options "?? changelog/"
                ltac:(found) ltac:(discriminate))
      as (_ & Hdone).
    exact (proj1 (Hdone eq_refl)). }
  split; [found|]. split; [reflexivity|].
  destruct (Hskip (Demo.world Demo.again) "1234" Demo.options EmptyString
              ltac:(found) eq_refl)
    as (Hexit & _ & Hcommit & _).
  split; [exact Hexit|]. split; [exact Hcommit|].
  split; [reflexivity|].
  exact (Hagain Demo.healthy "1234" Demo.options (fun _ => eq_refl)).
Defined.

Lemma install_witness :
  let cloned := snd (run (Demo.world Demo.healthy) "1234" Demo.options) in
  let supplied := snd (run (Demo.world Demo.healthy) "1234" Demo.devOptions) in
  truthy (devRepoPath Demo.devOptions) = true
  /\ count isInstall supplied = 0 /\ count isClone supplied = 0
  /\ truthy (devRepoPath Demo.options) = false
  /\ In (Call_getTouchedProjectsRequiringChangelog "/tmp/clone" "deadbeef" "c0ffee"
           "1234-add-thing" "woocommerce" "woocommerce"
           (inr ["plugins/woocommerce"; "packages/js/data"])) cloned
  /\ ["plugins/woocommerce"; "packages/js/data"] <> []
  /\ existsb isReconcileFailure cloned = false
  /\ count isInstall cloned = 1
  /\ existsb isGenerate (beforeFirst isInstall cloned) = false.
Proof.
  cbv zeta. split; [reflexivity|].
  destruct (install_once_before_generation (Demo.world Demo.healthy) "1234" Demo.devOptions)
    as (_ & Hdev & _).
  destruct (install_once_before_generation (Demo.world Demo.healthy) "1234" Demo.options)
    as (_ & _ & Hreached & _).
  split; [apply Hdev; reflexivity|]. split; [apply Hdev; reflexivity|].
  split; [reflexivity|]. split; [found|]. split; [discriminate|]. split; [reflexivity|].
  apply (Hreached eq_refl "/tmp/clone" "deadbeef" "c0ffee" "1234-add-thing"
           "woocommerce" "woocommerce" ["plugins/woocommerce"; "packages/js/data"]);
    [found | discriminate | reflexivity].
Defined.

Lemma final_notice_witness :
  let T := snd (run (Demo.world Demo.firstFails) "1234" Demo.options) in
  In (Call_getTouchedProjectsRequiringChangelog "/tmp/clone" "deadbeef" "c0ffee"
        "1234-add-thing" "woocommerce" "woocommerce"
        (inr ["plugins/woocommerce"; "packages/js/data"])) T
  /\ ["plugins/woocommerce"; "packages/js/data"] <> []
  /\ existsb isFailure T = true
  /\ exists t1 t2,
       T = t1 ++ Logger_notice
                   "Changelogs created for plugins/woocommerce, packages/js/data" :: t2.
Proof.
  cbv zeta. split; [found|]. split; [discriminate|]. split; [reflexivity|].
  destruct (final_notice_lists_all_touched (Demo.world Demo.firstFails) "1234" Demo.options
              "/tmp/clone" "deadbeef" "c0ffee" "1234-add-thing" "woocommerce" "woocommerce"
              ["plugins/woocommerce"; "packages/js/data"]
              ltac:(found) ltac:(discriminate))
    as (t1 & t2 & body & d & k & HT & _).
  exists t1, t2. exact HT.
Defined.


(** * More of the action *)

(** ** The anatomy of a run *)

Lemma thrown_is_failure (ev : Event) (e : Err) :
  thrown ev = Some e -> isFailure ev = true.
Proof.
  destruct ev; simpl; try discriminate;
    try (destruct r; simpl; try discriminate; reflexivity).
Qed.

Lemma BodyShape_starts env tmpRepoPath file dev d touched o evs :
  BodyShape env tmpRepoPath file dev d touched o evs ->
  exists r rest, evs = Call_getAllProjectPaths tmpRepoPath r :: rest.
Proof. intros H. destruct H; eexists _, _; reflexivity. Qed.

(** A run either is cut short by a throw before the [try] statement, or
    ends at the notice that automation is not requested, or goes through
    the [try] statement. *)
Lemma run_anatomy env prNumber options :
  let O := fst (run env prNumber options) in
  let T := snd (run env prNumber options) in
  (exists e t ev,
      O = Thrown e /\ T = t ++ [ev] /\ thrown ev = Some e
      /\ inBody ev = false /\ isGitCommand ev = false
      /\ forallb inPrefix T = true /\ existsb isFailure t = false
      /\ existsb isExit T = false)
  \/ (O = Exited 0
      /\ exists pr,
           T = fetchEvents prNumber options (inr pr)
                 ++ [Logger_endTask; Call_shouldAutomateChangelog (prBody pr) false;
                     Logger_notice (notRequestedNotice prNumber); Process_exit 0])
  \/ exists pr d tmpRepoPath touched evs ob tail,
       BodyShape env tmpRepoPath (fileName pr) (devRepoPath options) d touched ob evs
       /\ T = prefixEvents prNumber options pr d tmpRepoPath touched ++ evs ++ tail
       /\ match ob with
          | Exited c => tail = [] /\ O = Exited c
          | Done _ =>
              CommitShape env tmpRepoPath (branch pr) touched O tail
              /\ (O, T) = commitAndPush env tmpRepoPath (branch pr) touched
                            (prefixEvents prNumber options pr d tmpRepoPath touched ++ evs)
          | Thrown e =>
              exists cevs,
                tail = Logger_error e :: cevs
                /\ CommitShape env tmpRepoPath (branch pr) touched O cevs
                /\ (O, T) = commitAndPush env tmpRepoPath (branch pr) touched
                              (prefixEvents prNumber options pr d tmpRepoPath touched
                                 ++ evs ++ [Logger_error e])
          end.
Proof.
  cbv zeta.
  destruct (run_split env prNumber options) as [(Hk & _ & _) | Hmain];
    [|right; right; exact Hmain].
  pose proof (run_shape env prNumber options) as Hs.
  destruct (run env prNumber options) as [O T]. cbn [fst snd] in *.
  destruct Hs.
  - left. exists e, [Logger_startTask ("Getting pull request data for PR number "
                                         ++ prNumber)%string], 
      (Call_getPullRequestData (owner options) (name options) prNumber (inl e)).
    repeat split; reflexivity.
  - right. left. split; [reflexivity|]. exists pr. reflexivity.
  - left. eexists e, _, (Call_getChangelogDetails (prBody pr) (inl e)).
    split; [reflexivity|]. split.
    { unfold fetchEvents. cbn [app].
      change [Logger_startTask ("Getting pull request data for PR number " ++ prNumber)%string;
              Call_getPullRequestData (owner options) (name options) prNumber (inr pr);
              Logger_endTask; Call_shouldAutomateChangelog (prBody pr) true;
              Call_getChangelogDetails (prBody pr) (inl e)]
        with ([Logger_startTask ("Getting pull request data for PR number " ++ prNumber)%string;
               Call_getPullRequestData (owner options) (name options) prNumber (inr pr);
               Logger_endTask; Call_shouldAutomateChangelog (prBody pr) true]
                ++ [Call_getChangelogDetails (prBody pr) (inl e)]).
      reflexivity. }
    repeat split; reflexivity.
  - left. eexists e, _,
      (Call_cloneAuthenticatedRepo (headOwner pr) (name options) false (inl e)).
    split; [reflexivity|]. split.
    { unfold fetchEvents. cbn [app].
      change [Logger_startTask ("Getting pull request data for PR number " ++ prNumber)%string;
              Call_getPullRequestData (owner options) (name options) prNumber (inr pr);
              Logger_endTask; Call_shouldAutomateChangelog (prBody pr) true;
              Call_getChangelogDetails (prBody pr) (inr d); cloneTask options pr;
              Call_cloneAuthenticatedRepo (headOwner pr) (name options) false (inl e)]
        with ([Logger_startTask ("Getting pull request data for PR number " ++ prNumber)%string;
               Call_getPullRequestData (owner options) (name options) prNumber (inr pr);
               Logger_endTask; Call_shouldAutomateChangelog (prBody pr) true;
               Call_getChangelogDetails (prBody pr) (inr d); cloneTask options pr]
                ++ [Call_cloneAuthenticatedRepo (headOwner pr) (name options) false (inl e)]).
      reflexivity. }
    repeat split; reflexivity.
  - left. eexists e, _, (Call_checkoutRemoteBranch tmpRepoPath (branch pr) (Some e)).
    split; [reflexivity|]. split; [rewrite !app_assoc; reflexivity|].
    split; [reflexivity|]. split; [reflexivity|]. split; [reflexivity|].
    split; [exact Hk|].
    destruct (truthy (devRepoPath options)); split; reflexivity.
  - left. eexists e, _,
      (Call_getTouchedProjectsRequiringChangelog tmpRepoPath (base pr) (head pr)
         (fileName pr) (owner options) (name options) (inl e)).
    split; [reflexivity|]. split.
    { change [Call_checkoutRemoteBranch tmpRepoPath (branch pr) None;
              Logger_notice "Getting all touched projects requiring a changelog";
              Call_getTouchedProjectsRequiringChangelog tmpRepoPath (base pr) (head pr)
                (fileName pr) (owner options) (name options) (inl e)]
        with ([Call_checkoutRemoteBranch tmpRepoPath (branch pr) None;
               Logger_notice "Getting all touched projects requiring a changelog"]
                ++ [Call_getTouchedProjectsRequiringChangelog tmpRepoPath (base pr) (head pr)
                      (fileName pr) (owner options) (name options) (inl e)]).
      rewrite !app_assoc. reflexivity. }
    split; [reflexivity|]. split; [reflexivity|]. split; [reflexivity|].
    split; [exact Hk|].
    destruct (truthy (devRepoPath options)); split; reflexivity.
  - exfalso. destruct (BodyShape_starts _ _ _ _ _ _ _ _ H) as (r & rest & ->).
    rewrite !forallb_app in Hk. cbn [forallb inPrefix] in Hk.
    rewrite andb_false_r in Hk. discriminate Hk.
  - exfalso.
    destruct (commitAndPush_shape env tmpRepoPath (branch pr) touched
                (prefixEvents prNumber options pr d tmpRepoPath touched ++ evs))
      as (o' & cevs & Hrun & Hc).
    rewrite Hrun in H0. apply pair_equal_spec in H0 as [_ <-].
    destruct (BodyShape_starts _ _ _ _ _ _ _ _ H) as (r & rest & ->).
    rewrite !forallb_app in Hk. cbn [forallb inPrefix] in Hk.
    rewrite andb_false_r in Hk. discriminate Hk.
  - exfalso.
    destruct (commitAndPush_shape env tmpRepoPath (branch pr) touched
                (prefixEvents prNumber options pr d tmpRepoPath touched ++ evs
                   ++ [Logger_error e]))
      as (o' & cevs & Hrun & Hc).
    rewrite Hrun in H0. apply pair_equal_spec in H0 as [_ <-].
    destruct (BodyShape_starts _ _ _ _ _ _ _ _ H) as (r & rest & ->).
    rewrite !forallb_app in Hk. cbn [forallb inPrefix] in Hk.
    rewrite andb_false_r in Hk. discriminate Hk.
Qed.

(** ** The end of a trace *)

Lemma endsWith_refl (s : Trace) : endsWith s s.
Proof. exists []. reflexivity. Qed.

Lemma endsWith_app (a b s : Trace) : endsWith b s -> endsWith (a ++ b) s.
Proof. intros [c ->]. exists (a ++ c). apply app_assoc. Qed.

Lemma endsWith_cons (x : Event) (b s : Trace) : endsWith b s -> endsWith (x :: b) s.
Proof. intros [c ->]. exists (x :: c). reflexivity. Qed.

Ltac ends :=
  repeat first [ apply endsWith_refl | apply endsWith_app | apply endsWith_cons ].

Lemma endsWith_last (t : Trace) (ev ev' : Event) (P : Event -> bool) :
  endsWith t [ev] -> In ev' t -> P ev' = true ->
  (forall before, t = before ++ [ev] -> existsb P before = false) -> ev' = ev.
Proof.
  intros [c ->] Hin HP Hclean. apply in_app_or in Hin as [Hin | [<- | []]]; [|reflexivity].
  exfalso. apply (in_clean P _ _ Hin HP). apply Hclean. reflexivity.
Qed.

(** ** The last block, read further *)

Lemma CommitShape_parts env tmpRepoPath br touched o evs :
  CommitShape env tmpRepoPath br touched o evs ->
  exists rest,
    evs = commitHead env tmpRepoPath touched ++ rest
    /\ existsb isGitClient rest = false.
Proof.
  intros H. destruct H; eexists; (split; [reflexivity|]);
    unfold identityEvents; destruct (isGithubCI env); reflexivity.
Qed.

Lemma CommitShape_push env tmpRepoPath br touched o evs remote br' r :
  CommitShape env tmpRepoPath br touched o evs ->
  In (Git_push remote br' r) evs ->
  remote = "origin"%string /\ br' = br
  /\ o = match r with None => Done tt | Some e => Thrown e end
  /\ exists s,
       String.length s <> 0
       /\ endsWith evs
            ([Git_raw statusShort (inr s);
              Logger_notice "Adding and committing changes";
              Git_add "." None;
              Git_commit "Adding changelog from automation." None;
              Git_push "origin" br r]
               ++ match r with
                  | None => [Logger_notice ("Pushed changes to " ++ br)%string]
                  | Some _ => []
                  end).
Proof.
  intros H Hin. destruct H; in_cases Hin.
  all: injection Hin as <- <- <-.
  all: split; [reflexivity|]; split; [reflexivity|]; split; [reflexivity|].
  all: exists s; split; [assumption|].
  all: unfold stagingEvents; cbn [app]; ends.
Qed.

Lemma CommitShape_returns env tmpRepoPath br touched o evs :
  CommitShape env tmpRepoPath br touched o evs ->
  (o = Done tt <-> existsb pushReturned evs = true).
Proof.
  intros H. destruct H; unfold identityEvents; destruct (isGithubCI env);
    split; intros Hx; solve [reflexivity | discriminate Hx].
Qed.

Lemma CommitShape_thrown env tmpRepoPath br touched o evs :
  CommitShape env tmpRepoPath br touched o evs ->
  (forall e, o = Thrown e ->
     exists ev, endsWith evs [ev] /\ thrown ev = Some e /\ isGitCommand ev = true)
  /\ (forall ev e, In ev evs -> thrown ev = Some e -> o = Thrown e /\ endsWith evs [ev]).
Proof.
  intros H. split.
  - intros e0 Ho. destruct H; try discriminate Ho; injection Ho as <-;
      eexists; (split; [unfold stagingEvents; cbn [app]; ends|]); split; reflexivity.
  - intros ev e0 Hin Hev.
    destruct H; in_cases Hin; subst ev; try discriminate Hev;
      injection Hev as <-; (split; [reflexivity|]);
      unfold stagingEvents; cbn [app]; ends.
Qed.

Lemma CommitShape_exits env tmpRepoPath br touched o evs c :
  CommitShape env tmpRepoPath br touched o evs ->
  o = Exited c \/ In (Process_exit c) evs ->
  c = 0%Z /\ o = Exited 0
  /\ exists before,
       evs = before
               ++ [Logger_notice "No changes in changelog files. Skipping commit and push.";
                   Process_exit 0]
       /\ existsb isExit before = false.
Proof.
  intros H Hc.
  assert (Hgoal : forall s1 s2 s,
             exists before,
               commitHead env tmpRepoPath touched ++ identityEvents env s1 s2
                 ++ [Git_raw statusShort (inr s);
                     Logger_notice "No changes in changelog files. Skipping commit and push.";
                     Process_exit 0]
               = before
                   ++ [Logger_notice "No changes in changelog files. Skipping commit and push.";
                       Process_exit 0]
               /\ existsb isExit before = false).
  { intros s1 s2 s.
    exists (commitHead env tmpRepoPath touched ++ identityEvents env s1 s2
              ++ [Git_raw statusShort (inr s)]).
    split; [rewrite <- !app_assoc; reflexivity|].
    unfold identityEvents. destruct (isGithubCI env); reflexivity. }
  destruct Hc as [Ho | Hin].
  - destruct H; try discriminate Ho. injection Ho as <-. auto.
  - destruct H; in_cases Hin. injection Hin as <-. auto.
Qed.

Lemma gitSteps_app (a b : Trace) : gitSteps (a ++ b) = gitSteps a ++ gitSteps b.
Proof.
  induction a as [|x a IH]; [reflexivity|].
  destruct x; cbn [app gitSteps]; rewrite IH; reflexivity.
Qed.

Lemma gitSteps_clean (a : Trace) : existsb isGitCommand a = false -> gitSteps a = [].
Proof.
  induction a as [|x a IH]; [reflexivity|]. intros H. cbn [existsb] in H.
  apply orb_false_iff in H as [Hx Ha]. destruct x; try discriminate Hx; cbn [gitSteps]; auto.
Qed.

Lemma CommitShape_steps env tmpRepoPath br touched o evs :
  CommitShape env tmpRepoPath br touched o evs ->
  exists n, gitSteps evs = firstn n (gitScript (isGithubCI env) br).
Proof.
  intros H. unfold gitScript.
  destruct H; unfold identityEvents; try rewrite H; destruct (isGithubCI env) eqn:Hci;
    try discriminate.
  all: first
    [ exists 1; reflexivity | exists 2; reflexivity | exists 3; reflexivity
    | exists 4; reflexivity | exists 5; reflexivity | exists 6; reflexivity ].
Qed.

(** The same anatomy, with the two ways into the last block side by
    side: [mid] is empty when the [try] block returned and holds the
    logged error when it threw. *)
Lemma run_stages env prNumber options :
  let O := fst (run env prNumber options) in
  let T := snd (run env prNumber options) in
  (exists e t ev,
      O = Thrown e /\ T = t ++ [ev] /\ thrown ev = Some e
      /\ inBody ev = false /\ isGitCommand ev = false
      /\ forallb inPrefix T = true /\ existsb isFailure t = false
      /\ existsb isExit T = false)
  \/ (O = Exited 0
      /\ exists pr,
           T = fetchEvents prNumber options (inr pr)
                 ++ [Logger_endTask; Call_shouldAutomateChangelog (prBody pr) false;
                     Logger_notice (notRequestedNotice prNumber); Process_exit 0])
  \/ (exists pr d tmpRepoPath touched evs c,
        BodyShape env tmpRepoPath (fileName pr) (devRepoPath options) d touched
          (Exited c) evs
        /\ O = Exited c
        /\ T = prefixEvents prNumber options pr d tmpRepoPath touched ++ evs)
  \/ (exists pr d tmpRepoPath touched evs ob mid cevs,
        BodyShape env tmpRepoPath (fileName pr) (devRepoPath options) d touched ob evs
        /\ (ob = Done tt /\ mid = [] \/ exists e, ob = Thrown e /\ mid = [Logger_error e])
        /\ CommitShape env tmpRepoPath (branch pr) touched O cevs
        /\ T = prefixEvents prNumber options pr d tmpRepoPath touched ++ evs ++ mid ++ cevs
        /\ (O, T) = commitAndPush env tmpRepoPath (branch pr) touched
                      (prefixEvents prNumber options pr d tmpRepoPath touched ++ evs ++ mid)).
Proof.
  cbv zeta.
  destruct (run_anatomy env prNumber options)
    as [Habort | [Hnot | (pr & d & tmp & touched & evs & ob & tail & Hbody & HT & Hob)]];
    [left; exact Habort | right; left; exact Hnot |].
  right. right. destruct ob as [[]|e|c].
  - right. destruct Hob as [Hc Hrun].
    exists pr, d, tmp, touched, evs, (Done tt), [], tail.
    split; [exact Hbody|]. split; [left; auto|]. split; [exact Hc|].
    split; [exact HT|]. rewrite app_nil_r. exact Hrun.
  - right. destruct Hob as (cevs & -> & Hc & Hrun).
    exists pr, d, tmp, touched, evs, (Thrown e), [Logger_error e], cevs.
    split; [exact Hbody|]. split; [right; exists e; auto|]. split; [exact Hc|].
    split; [exact HT | exact Hrun].
  - left. destruct Hob as [-> HO].
    exists pr, d, tmp, touched, evs, c.
    split; [exact Hbody|]. split; [exact HO|]. rewrite app_nil_r in HT. exact HT.
Qed.

Lemma prefixEvents_checkout prNumber options pr d tmpRepoPath touched :
  In (Call_checkoutRemoteBranch tmpRepoPath (branch pr) None)
     (prefixEvents prNumber options pr d tmpRepoPath touched).
Proof.
  unfold prefixEvents. apply in_or_app. right. apply in_or_app. right.
  simpl. auto 10.
Qed.

(** The events between the [try] block and the last block are not calls. *)
Lemma mid_clean (P : Event -> bool) (ob : outcome unit) (mid : Trace) :
  (ob = Done tt /\ mid = [] \/ exists e, ob = Thrown e /\ mid = [Logger_error e]) ->
  (forall e, P (Logger_error e) = false) -> existsb P mid = false.
Proof.
  intros [[_ ->] | (e & _ & ->)] HP; [reflexivity|]. simpl. rewrite HP. reflexivity.
Qed.

Lemma before_commit_clean (P : Event -> bool) env prNumber options pr d tmpRepoPath
      touched ob evs mid :
  BodyShape env tmpRepoPath (fileName pr) (devRepoPath options) d touched ob evs ->
  (ob = Done tt /\ mid = [] \/ exists e, ob = Thrown e /\ mid = [Logger_error e]) ->
  (forall ev, inPrefix ev = true -> P ev = false) ->
  (forall ev, inBody ev = true -> P ev = false) ->
  (forall e, P (Logger_error e) = false) ->
  existsb P (prefixEvents prNumber options pr d tmpRepoPath touched ++ evs ++ mid) = false.
Proof.
  intros Hbody Hmid H1 H2 H3. rewrite !existsb_app.
  rewrite (prefixEvents_clean P _ _ _ _ _ _ H1).
  rewrite (BodyShape_clean P _ _ _ _ _ _ _ _ Hbody H2).
  rewrite (mid_clean P _ _ Hmid H3). reflexivity.
Qed.

Lemma before_exit_clean (P : Event -> bool) env prNumber options pr d tmpRepoPath
      touched ob evs :
  BodyShape env tmpRepoPath (fileName pr) (devRepoPath options) d touched ob evs ->
  (forall ev, inPrefix ev = true -> P ev = false) ->
  (forall ev, inBody ev = true -> P ev = false) ->
  existsb P (prefixEvents prNumber options pr d tmpRepoPath touched ++ evs) = false.
Proof.
  intros Hbody H1 H2. rewrite existsb_app.
  rewrite (prefixEvents_clean P _ _ _ _ _ _ H1).
  rewrite (BodyShape_clean P _ _ _ _ _ _ _ _ Hbody H2). reflexivity.
Qed.

(** ** The git client *)

(** X1.  A run creates the git client at most once, on the working copy
    it checked out and with the hooks path set to [/dev/null]; every git
    command of the run is sent after that, so none runs with the hooks of
    the repository enabled. *)
Theorem git_commands_run_with_hooks_disabled env prNumber options :
  count isGitClient (snd (run env prNumber options)) <= 1
  /\ forall ev,
       In ev (snd (run env prNumber options)) -> isGitCommand ev = true ->
       exists pr tmpRepoPath t1 t2,
         snd (run env prNumber options)
         = t1 ++ Call_simpleGit tmpRepoPath ["core.hooksPath=/dev/null"] :: t2
         /\ In ev t2
         /\ existsb isGitCommand t1 = false
         /\ In (Call_checkoutRemoteBranch tmpRepoPath (branch pr) None) t1.
Proof.
  destruct (run_stages env prNumber options)
    as [(e & t & ev0 & _ & HT & _ & _ & _ & Hk & _ & _)
       | [(_ & pr & HT)
         | [(pr & d & tmp & touched & evs & c & Hbody & _ & HT)
           | (pr & d & tmp & touched & evs & ob & mid & cevs & Hbody & Hmid & Hc & HT & _)]]].
  - assert (Hnone : forall P, (forall ev, inPrefix ev = true -> P ev = false) ->
                    existsb P (snd (run env prNumber options)) = false)
      by (intros; apply disjoint_clean with (K := inPrefix); assumption).
    split; [rewrite count_none by (apply Hnone; by_kind); lia|].
    intros ev Hin Hev. exfalso. apply (in_clean isGitCommand _ _ Hin Hev).
    apply Hnone. by_kind.
  - rewrite HT. split; [cbv; lia|].
    intros ev Hin Hev. exfalso. apply (in_clean isGitCommand _ _ Hin Hev). reflexivity.
  - rewrite HT.
    split; [rewrite count_none by (eapply before_exit_clean; [eassumption | by_kind | by_kind]);
            lia|].
    intros ev Hin Hev. exfalso. apply (in_clean isGitCommand _ _ Hin Hev).
    eapply before_exit_clean; [eassumption | by_kind | by_kind].
  - rewrite HT. destruct (CommitShape_parts _ _ _ _ _ _ Hc) as (rest & -> & Hrest).
    split.
    { rewrite !app_assoc, count_app, (count_none isGitClient rest Hrest).
      rewrite <- !app_assoc, (app_assoc _ evs), (app_assoc _ mid), count_app.
      rewrite count_none
        by (rewrite <- !app_assoc; eapply before_commit_clean;
            [eassumption | eassumption | by_kind | by_kind | intros; reflexivity]).
      cbv. lia. }
    intros ev Hin Hev.
    exists pr, tmp,
      (prefixEvents prNumber options pr d tmp touched ++ evs ++ mid
         ++ [Logger_notice ("Changelogs created for " ++ String.concat ", " touched)%string]),
      (Call_isGithubCI (isGithubCI env) :: rest).
    split; [unfold commitHead; rewrite <- !app_assoc; reflexivity|].
    assert (Hbefore : existsb isGitCommand
                        (prefixEvents prNumber options pr d tmp touched ++ evs ++ mid) = false)
      by (eapply before_commit_clean;
          [eassumption | eassumption | by_kind | by_kind | intros; reflexivity]).
    split; [|split].
    + rewrite !app_assoc in Hin. apply in_app_or in Hin as [Hin|Hin]; [|right; exact Hin].
      rewrite <- !app_assoc in Hin. rewrite (app_assoc _ evs), (app_assoc _ mid) in Hin.
      apply in_app_or in Hin as [Hin|Hin].
      * exfalso. apply (in_clean isGitCommand _ _ Hin Hev).
        rewrite <- !app_assoc. exact Hbefore.
      * exfalso. unfold commitHead in Hin. in_cases Hin; subst ev; discriminate Hev.
    + rewrite (app_assoc _ evs), (app_assoc _ mid), existsb_app.
      rewrite <- !app_assoc, Hbefore. reflexivity.
    + apply in_or_app. left. apply prefixEvents_checkout.
Qed.

Lemma hooks_witness :
  let T := snd (run (Demo.world Demo.healthy) "1234" Demo.options) in
  In (Git_commit "Adding changelog from automation." None) T
  /\ exists pr tmpRepoPath t1 t2,
       T = t1 ++ Call_simpleGit tmpRepoPath ["core.hooksPath=/dev/null"] :: t2
       /\ In (Git_commit "Adding changelog from automation." None) t2
       /\ existsb isGitCommand t1 = false
       /\ In (Call_checkoutRemoteBranch tmpRepoPath (branch pr) None) t1.
Proof.
  cbv zeta. split; [found|].
  exact (proj2 (git_commands_run_with_hooks_disabled (Demo.world Demo.healthy) "1234"
                  Demo.options)
           (Git_commit "Adding changelog from automation." None) ltac:(found) eq_refl).
Defined.

Lemma prefixEvents_no_throw prNumber options pr d tmpRepoPath touched :
  existsb isFailure (prefixEvents prNumber options pr d tmpRepoPath touched) = false.
Proof. unfold prefixEvents. destruct (truthy (devRepoPath options)); reflexivity. Qed.

Lemma thrown_in_try (ev : Event) (e : Err) :
  inBody ev = true -> thrown ev = Some e -> calledInTry ev = true.
Proof. destruct ev; simpl; intros H1 H2; solve [reflexivity | discriminate]. Qed.

Lemma kind_of (K : Event -> bool) (t : Trace) (ev : Event) :
  forallb K t = true -> In ev t -> K ev = true.
Proof. intros H Hin. rewrite forallb_forall in H. apply H. exact Hin. Qed.

(** An event of a kind that neither the statements before the [try], nor
    the [try] block, nor its [catch] produce sits in the last block. *)
Lemma in_last_block (P : Event -> bool) env prNumber options ev :
  In ev (snd (run env prNumber options)) -> P ev = true ->
  (forall ev, inPrefix ev = true -> P ev = false) ->
  (forall ev, inBody ev = true -> P ev = false) ->
  (forall e, P (Logger_error e) = false) ->
  exists pr d tmpRepoPath touched before cevs,
    CommitShape env tmpRepoPath (branch pr) touched (fst (run env prNumber options)) cevs
    /\ snd (run env prNumber options)
       = prefixEvents prNumber options pr d tmpRepoPath touched ++ before ++ cevs
    /\ existsb P (prefixEvents prNumber options pr d tmpRepoPath touched ++ before) = false
    /\ In ev cevs.
Proof.
  intros Hin HP H1 H2 H3.
  destruct (run_stages env prNumber options)
    as [(e & t & ev0 & _ & _ & _ & _ & _ & Hk & _ & _)
       | [(_ & pr & HT)
         | [(pr & d & tmp & touched & evs & c & Hbody & _ & HT)
           | (pr & d & tmp & touched & evs & ob & mid & cevs & Hbody & Hmid & Hc & HT & _)]]].
  - exfalso. apply (in_clean P _ _ Hin HP).
    apply disjoint_clean with (K := inPrefix); assumption.
  - exfalso. apply (in_clean P _ _ Hin HP). rewrite HT.
    apply disjoint_clean with (K := inPrefix); [reflexivity | assumption].
  - exfalso. apply (in_clean P _ _ Hin HP). rewrite HT.
    eapply before_exit_clean; eassumption.
  - exists pr, d, tmp, touched, (evs ++ mid), cevs.
    assert (Hbefore : existsb P (prefixEvents prNumber options pr d tmp touched
                                   ++ evs ++ mid) = false)
      by (eapply before_commit_clean; eassumption).
    split; [exact Hc|]. split; [rewrite HT, <- !app_assoc; reflexivity|].
    split; [exact Hbefore|].
    rewrite HT, (app_assoc _ evs), (app_assoc _ mid) in Hin.
    apply in_app_or in Hin as [Hin|Hin]; [|exact Hin].
    exfalso. apply (in_clean P _ _ Hin HP). rewrite <- !app_assoc. exact Hbefore.
Qed.

(** X2.  Whenever a run pushes, it pushes the branch of the pull request
    it fetched to the remote [origin], directly after a non-empty
    [git status --short], a [git add .] and a commit that all returned;
    nothing follows the push but the closing notice, and the run returns
    when the push returned and throws what the push threw. *)
Theorem push_follows_status_add_commit env prNumber options remote br r :
  In (Git_push remote br r) (snd (run env prNumber options)) ->
  exists pr s,
    In (Call_getPullRequestData (owner options) (name options) prNumber (inr pr))
       (snd (run env prNumber options))
    /\ remote = "origin"%string /\ br = branch pr
    /\ String.length s <> 0
    /\ endsWith (snd (run env prNumber options))
         ([Git_raw statusShort (inr s);
           Logger_notice "Adding and committing changes";
           Git_add "." None;
           Git_commit "Adding changelog from automation." None;
           Git_push "origin" (branch pr) r]
            ++ match r with
               | None => [Logger_notice ("Pushed changes to " ++ branch pr)%string]
               | Some _ => []
               end)
    /\ fst (run env prNumber options)
       = match r with None => Done tt | Some e => Thrown e end.
Proof.
  intros Hin.
  destruct (in_last_block isGitCommand env prNumber options _ Hin eq_refl
              ltac:(by_kind) ltac:(by_kind) ltac:(intros; reflexivity))
    as (pr & d & tmp & touched & before & cevs & Hc & HT & _ & Hcin).
  destruct (CommitShape_push _ _ _ _ _ _ _ _ _ Hc Hcin) as (-> & -> & HO & s & Hs & Hend).
  exists pr, s. rewrite HT at 1 2.
  split; [apply in_or_app; left; apply prefixEvents_fetch|].
  split; [reflexivity|]. split; [reflexivity|]. split; [exact Hs|].
  split; [|exact HO]. apply endsWith_app, endsWith_app. exact Hend.
Qed.

Lemma push_witness :
  In (Git_push "origin" "add/thing" None)
     (snd (run (Demo.world Demo.healthy) "1234" Demo.options))
  /\ fst (run (Demo.world Demo.healthy) "1234" Demo.options) = Done tt.
Proof.
  split; [found|].
  destruct (push_follows_status_add_commit (Demo.world Demo.healthy) "1234" Demo.options
              "origin" "add/thing" None ltac:(found))
    as (pr & s & _ & _ & _ & _ & _ & HO).
  exact HO.
Defined.

(** X3.  A run returns exactly when its push returned: a run with no
    returned push has thrown or has ended the process, and a returned push
    is never followed by a failure. *)
Theorem returns_exactly_when_pushed env prNumber options :
  fst (run env prNumber options) = Done tt
  <-> existsb pushReturned (snd (run env prNumber options)) = true.
Proof.
  split.
  - intros HO.
    destruct (run_stages env prNumber options)
      as [(e & t & ev0 & HO' & _)
         | [(HO' & _)
           | [(pr & d & tmp & touched & evs & c & _ & HO' & _)
             | (pr & d & tmp & touched & evs & ob & mid & cevs & _ & _ & Hc & HT & _)]]];
      try (rewrite HO in HO'; discriminate HO').
    rewrite HT, !existsb_app. apply (CommitShape_returns _ _ _ _ _ _ Hc) in HO.
    rewrite HO, !orb_true_r. reflexivity.
  - intros Hex. apply existsb_exists in Hex as (ev & Hin & Hev).
    destruct (in_last_block pushReturned env prNumber options _ Hin Hev
                ltac:(by_kind) ltac:(by_kind) ltac:(intros; reflexivity))
      as (pr & d & tmp & touched & before & cevs & Hc & _ & _ & Hcin).
    apply (CommitShape_returns _ _ _ _ _ _ Hc). apply existsb_exists. eauto.
Qed.

Lemma returns_witness :
  existsb pushReturned (snd (run (Demo.world Demo.healthy) "1234" Demo.options)) = true
  /\ fst (run (Demo.world Demo.healthy) "1234" Demo.options) = Done tt.
Proof.
  split; [reflexivity|].
  apply (proj2 (returns_exactly_when_pushed (Demo.world Demo.healthy) "1234" Demo.options)).
  reflexivity.
Defined.

(** X4.  The git commands of a run are a beginning of one fixed script:
    in continuous integration the two identity settings, then
    [status --short], [add .], the commit and the push of the branch of the
    fetched pull request.  No command is skipped, repeated or reordered,
    and no other git command is sent. *)
Theorem git_commands_follow_the_script env prNumber options :
  gitSteps (snd (run env prNumber options)) = []
  \/ exists pr n,
       In (Call_getPullRequestData (owner options) (name options) prNumber (inr pr))
          (snd (run env prNumber options))
       /\ gitSteps (snd (run env prNumber options))
          = firstn n (gitScript (isGithubCI env) (branch pr)).
Proof.
  destruct (run_stages env prNumber options)
    as [(e & t & ev0 & _ & _ & _ & _ & _ & Hk & _ & _)
       | [(_ & pr & HT)
         | [(pr & d & tmp & touched & evs & c & Hbody & _ & HT)
           | (pr & d & tmp & touched & evs & ob & mid & cevs & Hbody & Hmid & Hc & HT & _)]]].
  - left. apply gitSteps_clean. apply disjoint_clean with (K := inPrefix); [exact Hk|by_kind].
  - left. rewrite HT. reflexivity.
  - left. rewrite HT. apply gitSteps_clean.
    eapply before_exit_clean; [eassumption | by_kind | by_kind].
  - right. destruct (CommitShape_steps _ _ _ _ _ _ Hc) as (n & Hn). exists pr, n.
    rewrite HT at 1. split; [apply in_or_app; left; apply prefixEvents_fetch|].
    rewrite HT, (app_assoc _ evs), (app_assoc _ mid), gitSteps_app, Hn.
    rewrite gitSteps_clean; [reflexivity|]. rewrite <- !app_assoc.
    eapply before_commit_clean;
      [eassumption | eassumption | by_kind | by_kind | intros; reflexivity].
Qed.

(** ** How a run ends *)

Ltac in_flat H :=
  let x := fresh "x" in
  apply in_flat_map in H as (x & _ & H);
  try (destruct x as [? []]);
  unfold removalEvents, generationEvents in H; cbn [fst snd] in H; in_cases H.

Lemma BodyShape_exits env tmpRepoPath file dev d touched o evs c :
  BodyShape env tmpRepoPath file dev d touched o evs ->
  o = Exited c \/ In (Process_exit c) evs ->
  c = 0%Z /\ o = Exited 0
  /\ exists before,
       evs = before ++ [Logger_notice "No projects require a changelog"; Process_exit 0]
       /\ existsb isExit before = false.
Proof.
  intros H Hc.
  assert (Hgoal : forall done,
             exists before,
               reconcileHead tmpRepoPath (map fst done)
                 ++ flat_map (removalEvents env tmpRepoPath file) done
                 ++ [Logger_notice "No projects require a changelog"; Process_exit 0]
               = before ++ [Logger_notice "No projects require a changelog"; Process_exit 0]
               /\ existsb isExit before = false).
  { intros done.
    exists (reconcileHead tmpRepoPath (map fst done)
              ++ flat_map (removalEvents env tmpRepoPath file) done).
    split; [rewrite <- !app_assoc; reflexivity|].
    rewrite existsb_app, existsb_flat_map_false by (intros [p []]; reflexivity).
    reflexivity. }
  destruct Hc as [Ho | Hin].
  - destruct H; try discriminate Ho. injection Ho as <-. auto.
  - destruct H; in_cases Hin; try in_flat Hin. injection Hin as <-. auto.
Qed.

Lemma BodyShape_thrown env tmpRepoPath file dev d touched o evs :
  BodyShape env tmpRepoPath file dev d touched o evs ->
  (forall e, o = Thrown e ->
     exists ev, endsWith evs [ev] /\ thrown ev = Some e)
  /\ (forall ev e, In ev evs -> thrown ev = Some e -> o = Thrown e /\ endsWith evs [ev]).
Proof.
  intros H. split.
  - intros e0 Ho. destruct H; try discriminate Ho; injection Ho as <-;
      eexists; (split; [unfold removalFailure, installEvents, generationEvents;
                        cbn [app]; ends|]); reflexivity.
  - intros ev e0 Hin Hev.
    destruct H; in_cases Hin; try in_flat Hin; subst ev; try discriminate Hev;
      injection Hev as <-; (split; [reflexivity|]);
      unfold removalFailure, installEvents, generationEvents; cbn [app]; ends.
Qed.

(** X5.  A failure outside the [try] block ends the run at once.  A run
    that throws ends with the call that threw, a call made outside the
    [try] block, and throws what that call threw; and every call outside
    the [try] block that throws is the last event of its run. *)
Theorem failure_outside_try_ends_the_run env prNumber options :
  (forall e, fst (run env prNumber options) = Thrown e ->
     exists ev,
       endsWith (snd (run env prNumber options)) [ev]
       /\ thrown ev = Some e /\ calledInTry ev = false)
  /\ (forall ev e,
        In ev (snd (run env prNumber options)) -> thrown ev = Some e ->
        calledInTry ev = false ->
        fst (run env prNumber options) = Thrown e
        /\ endsWith (snd (run env prNumber options)) [ev]).
Proof.
  destruct (run_stages env prNumber options)
    as [(e & t & ev0 & HO & HT & Hev0 & _ & _ & Hk & Hclean & _)
       | [(HO & pr & HT)
         | [(pr & d & tmp & touched & evs & c & Hbody & HO & HT)
           | (pr & d & tmp & touched & evs & ob & mid & cevs & Hbody & Hmid & Hc & HT & _)]]].
  - assert (Hcall : calledInTry ev0 = false).
    { rewrite HT, forallb_app in Hk. apply andb_prop in Hk as [_ Hk].
      destruct ev0; try discriminate Hk; reflexivity. }
    split.
    + intros e' HO'. rewrite HO in HO'. injection HO' as <-.
      exists ev0. rewrite HT. split; [ends | auto].
    + intros ev e' Hin Hev _. rewrite HT in *.
      assert (ev = ev0) as ->.
      { apply (endsWith_last (t ++ [ev0]) ev0 ev isFailure); [ends | exact Hin | |].
        - eapply thrown_is_failure; eassumption.
        - intros before Hb. apply app_inj_tail in Hb as [<- _]. exact Hclean. }
      split; [congruence | ends].
  - split; [intros e' HO'; rewrite HO in HO'; discriminate HO'|].
    intros ev e' Hin Hev _. exfalso. rewrite HT in Hin. unfold fetchEvents in Hin.
    in_cases Hin; subst ev; discriminate Hev.
  - split; [intros e' HO'; rewrite HO in HO'; discriminate HO'|].
    intros ev e' Hin Hev Hcall. exfalso. rewrite HT in Hin.
    apply in_app_or in Hin as [Hin|Hin].
    + apply (in_clean isFailure _ _ Hin); [eapply thrown_is_failure; eassumption|].
      apply prefixEvents_no_throw.
    + rewrite (thrown_in_try ev e') in Hcall; [discriminate Hcall | | exact Hev].
      eapply kind_of; [eapply BodyShape_kinds; eassumption | exact Hin].
  - destruct (CommitShape_thrown _ _ _ _ _ _ Hc) as [Hthrows Hlast]. split.
    + intros e' HO'. destruct (Hthrows e' HO') as (ev & Hend & Hev & Hgit).
      exists ev. rewrite HT. split; [apply endsWith_app, endsWith_app, endsWith_app; exact Hend|].
      split; [exact Hev|]. destruct ev; try discriminate Hgit; reflexivity.
    + intros ev e' Hin Hev Hcall. rewrite HT in Hin.
      apply in_app_or in Hin as [Hin|Hin].
      { exfalso. apply (in_clean isFailure _ _ Hin); [eapply thrown_is_failure; eassumption|].
        apply prefixEvents_no_throw. }
      apply in_app_or in Hin as [Hin|Hin].
      { exfalso. rewrite (thrown_in_try ev e') in Hcall; [discriminate Hcall | | exact Hev].
        eapply kind_of; [eapply BodyShape_kinds; eassumption | exact Hin]. }
      apply in_app_or in Hin as [Hin|Hin].
      { exfalso. destruct Hmid as [[_ ->] | (e0 & _ & ->)]; in_cases Hin.
        subst ev. discriminate Hev. }
      destruct (Hlast ev e' Hin Hev) as [HO Hend]. split; [exact HO|].
      rewrite HT. apply endsWith_app, endsWith_app, endsWith_app. exact Hend.
Qed.

Lemma failure_outside_try_witness :
  let T := snd (run (Demo.world Demo.malformed) "1234" Demo.options) in
  let ev := Call_getChangelogDetails "### Changelog entry"
              (inl "No changelog significance found"%string) in
  In ev T /\ thrown ev = Some "No changelog significance found"%string
  /\ calledInTry ev = false
  /\ fst (run (Demo.world Demo.malformed) "1234" Demo.options)
     = Thrown "No changelog significance found"%string
  /\ endsWith T [ev].
Proof.
  cbv zeta. split; [found|]. split; [reflexivity|]. split; [reflexivity|].
  exact (proj2 (failure_outside_try_ends_the_run (Demo.world Demo.malformed) "1234"
                  Demo.options)
           (Call_getChangelogDetails "### Changelog entry"
              (inl "No changelog significance found"%string))
           "No changelog significance found"%string ltac:(found) eq_refl eq_refl).
Defined.

(** X6.  The process is only ever ended with status 0, and only as the
    last event of a run, directly after one of three notices: the
    automation was not requested, no project requires a changelog, or
    there is nothing to commit.  A run never ends the process on a
    failure. *)
Theorem process_exit_is_zero_and_last env prNumber options (c : Z) :
  fst (run env prNumber options) = Exited c
  \/ In (Process_exit c) (snd (run env prNumber options)) ->
  c = 0%Z
  /\ fst (run env prNumber options) = Exited 0
  /\ exists before msg,
       snd (run env prNumber options) = before ++ [Logger_notice msg; Process_exit 0]
       /\ In msg (exitNotices prNumber)
       /\ existsb isExit before = false.
Proof.
  intros Hc.
  destruct (run_stages env prNumber options)
    as [(e & t & ev0 & HO & HT & _ & _ & _ & _ & _ & Hnoexit)
       | [(HO & pr & HT)
         | [(pr & d & tmp & touched & evs & c' & Hbody & HO & HT)
           | (pr & d & tmp & touched & evs & ob & mid & cevs & Hbody & Hmid & Hcs & HT & _)]]].
  - exfalso. destruct Hc as [Hc | Hc]; [rewrite HO in Hc; discriminate Hc|].
    apply (in_clean isExit _ _ Hc eq_refl Hnoexit).
  - assert (c = 0%Z) as ->.
    { destruct Hc as [Hc | Hc]; [rewrite HO in Hc; injection Hc; auto|].
      rewrite HT in Hc. unfold fetchEvents in Hc. in_cases Hc. injection Hc; auto. }
    split; [reflexivity|]. split; [exact HO|].
    exists (fetchEvents prNumber options (inr pr)
            ++ [Logger_endTask; Call_shouldAutomateChangelog (prBody pr) false]),
      (notRequestedNotice prNumber).
    split; [rewrite HT, <- !app_assoc; reflexivity|].
    split; [left; reflexivity | reflexivity].
  - destruct (BodyShape_exits _ _ _ _ _ _ _ _ c' Hbody (or_introl eq_refl))
      as (-> & _ & before & -> & Hb).
    assert (c = 0%Z) as ->.
    { destruct Hc as [Hc | Hc]; [rewrite HO in Hc; injection Hc; auto|].
      rewrite HT in Hc. apply in_app_or in Hc as [Hc | Hc].
      - exfalso. apply (in_clean isExit _ _ Hc eq_refl).
        unfold prefixEvents. destruct (truthy (devRepoPath options)); reflexivity.
      - apply in_app_or in Hc as [Hc | Hc];
          [exfalso; apply (in_clean isExit _ _ Hc eq_refl Hb)|].
        in_cases Hc. injection Hc; auto. }
    split; [reflexivity|]. split; [exact HO|].
    exists (prefixEvents prNumber options pr d tmp touched ++ before),
      "No projects require a changelog"%string.
    split; [rewrite HT, <- !app_assoc; reflexivity|].
    split; [right; left; reflexivity|].
    rewrite existsb_app, Hb.
    unfold prefixEvents. destruct (truthy (devRepoPath options)); reflexivity.
  - assert (Hbefore : existsb isExit (prefixEvents prNumber options pr d tmp touched
                                        ++ evs ++ mid) = false).
    { rewrite !existsb_app.
      assert (existsb isExit (prefixEvents prNumber options pr d tmp touched) = false) as ->
        by (unfold prefixEvents; destruct (truthy (devRepoPath options)); reflexivity).
      rewrite (mid_clean isExit _ _ Hmid) by (intros; reflexivity).
      destruct (existsb isExit evs) eqn:Hevs; [|reflexivity].
      apply existsb_exists in Hevs as ([] & Hin & Hx); try discriminate Hx.
      destruct (BodyShape_exits _ _ _ _ _ _ _ _ code Hbody (or_intror Hin)) as (_ & Hob & _).
      destruct Hmid as [[-> _] | (e & -> & _)]; discriminate Hob. }
    assert (Hcevs : fst (run env prNumber options) = Exited c \/ In (Process_exit c) cevs).
    { destruct Hc as [Hc | Hc]; [left; exact Hc|]. right.
      rewrite HT, (app_assoc _ evs), (app_assoc _ mid) in Hc.
      apply in_app_or in Hc as [Hc | Hc]; [|exact Hc].
      exfalso. apply (in_clean isExit _ _ Hc eq_refl).
      rewrite <- !app_assoc. exact Hbefore. }
    destruct (CommitShape_exits _ _ _ _ _ _ c Hcs Hcevs) as (-> & HO & before & -> & Hb).
    split; [reflexivity|]. split; [exact HO|].
    exists ((prefixEvents prNumber options pr d tmp touched ++ evs ++ mid) ++ before),
      "No changes in changelog files. Skipping commit and push."%string.
    split; [rewrite HT, <- !app_assoc; reflexivity|].
    split; [right; right; left; reflexivity|].
    rewrite existsb_app, Hbefore, Hb. reflexivity.
Qed.

Lemma process_exit_witness :
  In (Process_exit 0) (snd (run (Demo.world Demo.untouched) "1234" Demo.options))
  /\ fst (run (Demo.world Demo.untouched) "1234" Demo.options) = Exited 0.
Proof.
  assert (Hin : In (Process_exit 0)
                   (snd (run (Demo.world Demo.untouched) "1234" Demo.options))) by found.
  split; [exact Hin|].
  destruct (process_exit_is_zero_and_last (Demo.world Demo.untouched) "1234" Demo.options
              0%Z (or_intror Hin))
    as (_ & HO & _).
  exact HO.
Defined.

(** ** Failures inside the [try] block *)

Lemma snoc_last2 (a : Trace) (x y : Event) : a ++ [x; y] = (a ++ [x]) ++ [y].
Proof. rewrite <- app_assoc. reflexivity. Qed.

Lemma snoc_last3 (a : Trace) (x y z : Event) : a ++ [x; y; z] = (a ++ [x; y]) ++ [z].
Proof. rewrite <- app_assoc. reflexivity. Qed.

Lemma generationEvents_no_failure tmpRepoPath file d l :
  existsb isFailure (flat_map (generationEvents tmpRepoPath file d None) l) = false.
Proof. apply existsb_flat_map_false. intros p. reflexivity. Qed.

Lemma generation_snoc (a : Trace) tmpRepoPath file d r p :
  a ++ generationEvents tmpRepoPath file d r p
  = (a ++ [Logger_notice ("Running changelog command for " ++ p)%string])
      ++ [Call_execSync (changelogCmd p file d) tmpRepoPath r].
Proof. rewrite <- app_assoc. reflexivity. Qed.

(** A call that throws in the [try] block is the last event of the
    block and its only failure. *)
Lemma BodyShape_failure env tmpRepoPath file dev d touched o evs ev e :
  BodyShape env tmpRepoPath file dev d touched o evs ->
  In ev evs -> thrown ev = Some e ->
  o = Thrown e
  /\ (exists b, evs = b ++ [ev] /\ existsb isFailure b = false)
  /\ (isGenerate ev = false -> existsb isGenerate evs = false).
Proof.
  intros H Hin Hev. destruct H.
  - in_cases Hin. subst ev. injection Hev as <-. split; [reflexivity|].
    split; [exists []; split; reflexivity | reflexivity].
  - in_cases Hin; try in_flat Hin; subst ev; try discriminate Hev.
    injection Hev as <-. split; [reflexivity|]. split.
    + eexists. split; [unfold removalFailure; rewrite ?app_assoc; apply snoc_last3|].
      rewrite !existsb_app, removalEvents_no_failure. reflexivity.
    + intros _. rewrite !existsb_app, removalEvents_no_generate. reflexivity.
  - in_cases Hin; try in_flat Hin; subst ev; discriminate Hev.
  - in_cases Hin; try in_flat Hin; subst ev; try discriminate Hev.
    injection Hev as <-. split; [reflexivity|]. split.
    + eexists. split; [unfold installEvents; rewrite ?app_assoc; apply snoc_last2|].
      rewrite !existsb_app, removalEvents_no_failure. reflexivity.
    + intros _. rewrite !existsb_app, removalEvents_no_generate. reflexivity.
  - in_cases Hin; try in_flat Hin; subst ev; discriminate Hev.
  - in_cases Hin; try in_flat Hin; subst ev; try discriminate Hev.
    all: injection Hev as <-; (split; [reflexivity|]); split.
    all: try (intros Hg; cbn [isGenerate] in Hg;
              rewrite isGenerateCmd_changelogCmd in Hg; discriminate Hg).
    all: eexists; (split; [rewrite ?app_assoc; apply generation_snoc|]).
    all: rewrite !existsb_app, removalEvents_no_failure, generationEvents_no_failure.
    all: destruct (truthy dev); reflexivity.
Qed.

(** X7.  A failure of the listing of the projects, of a removal or of
    the installation is swallowed by the [catch]: the error is logged at
    once, no fragment is generated in the whole run, and the run still
    prints the notice [Changelogs created for] with the whole list of
    touched projects and goes on to the commit step from there.  Nothing
    had failed before, and nothing of the [try] block runs afterwards. *)
Theorem failure_before_generation_still_commits env prNumber options ev e :
  In ev (snd (run env prNumber options)) ->
  calledInTry ev = true -> thrown ev = Some e -> isGenerate ev = false ->
  existsb isGenerate (snd (run env prNumber options)) = false
  /\ exists pr tmpRepoPath touched before after,
       snd (run env prNumber options)
       = before
           ++ [ev; Logger_error e;
               Logger_notice ("Changelogs created for " ++ String.concat ", " touched)%string]
           ++ after
       /\ In (Call_getTouchedProjectsRequiringChangelog tmpRepoPath (base pr) (head pr)
                (fileName pr) (owner options) (name options) (inr touched)) before
       /\ existsb isFailure before = false
       /\ existsb calledInTry after = false
       /\ run env prNumber options
          = commitAndPush env tmpRepoPath (branch pr) touched
              (before ++ [ev; Logger_error e]).
Proof.
  intros Hin Htry Hev Hgen.
  destruct (run_stages env prNumber options)
    as [(e0 & t & ev0 & _ & _ & _ & _ & _ & Hk & _ & _)
       | [(_ & pr & HT)
         | [(pr & d & tmp & touched & evs & c & Hbody & _ & HT)
           | (pr & d & tmp & touched & evs & ob & mid & cevs & Hbody & Hmid & Hc & HT & Hrun)]]].
  - exfalso. apply (in_clean calledInTry _ _ Hin Htry).
    apply disjoint_clean with (K := inPrefix); [exact Hk | by_kind].
  - exfalso. apply (in_clean calledInTry _ _ Hin Htry). rewrite HT. reflexivity.
  - exfalso. rewrite HT in Hin. apply in_app_or in Hin as [Hin|Hin].
    + apply (in_clean calledInTry _ _ Hin Htry). apply prefixEvents_clean. by_kind.
    + destruct (BodyShape_failure _ _ _ _ _ _ _ _ _ _ Hbody Hin Hev) as (Ho & _).
      discriminate Ho.
  - assert (Hevs : In ev evs).
    { rewrite HT in Hin. apply in_app_or in Hin as [Hin|Hin].
      { exfalso. apply (in_clean calledInTry _ _ Hin Htry). apply prefixEvents_clean. by_kind. }
      apply in_app_or in Hin as [Hin|Hin]; [exact Hin|].
      apply in_app_or in Hin as [Hin|Hin].
      { exfalso. apply (in_clean calledInTry _ _ Hin Htry).
        apply (mid_clean calledInTry _ _ Hmid). intros; reflexivity. }
      exfalso. apply (in_clean calledInTry _ _ Hin Htry).
      eapply CommitShape_clean; [eassumption | by_kind]. }
    destruct (BodyShape_failure _ _ _ _ _ _ _ _ _ _ Hbody Hevs Hev)
      as (-> & (b & -> & Hb) & Hnogen).
    destruct Hmid as [[Hob _] | (e0 & Hob & ->)]; [discriminate Hob|].
    injection Hob as <-.
    destruct (CommitShape_parts _ _ _ _ _ _ Hc) as (rest & Hcevs & _).
    split.
    { rewrite HT, existsb_app, existsb_app, (Hnogen Hgen), existsb_app.
      rewrite (prefixEvents_clean isGenerate) by by_kind.
      rewrite (CommitShape_clean isGenerate _ _ _ _ _ _ Hc) by by_kind. reflexivity. }
    exists pr, tmp, touched, (prefixEvents prNumber options pr d tmp touched ++ b),
      (Call_simpleGit tmp ["core.hooksPath=/dev/null"]
         :: Call_isGithubCI (isGithubCI env) :: rest).
    split; [rewrite HT, Hcevs; unfold commitHead; rewrite <- !app_assoc; reflexivity|].
    split; [apply in_or_app; left; apply prefixEvents_listed|].
    split; [rewrite existsb_app, prefixEvents_no_throw, Hb; reflexivity|].
    split.
    { assert (Hclean : existsb calledInTry cevs = false)
        by (eapply CommitShape_clean; [eassumption | by_kind]).
      rewrite Hcevs in Hclean. unfold commitHead in Hclean.
      cbn [app existsb calledInTry orb] in Hclean. exact Hclean. }
    rewrite (surjective_pairing (run env prNumber options)), Hrun.
    rewrite <- !app_assoc. reflexivity.
Qed.

Lemma failure_before_generation_witness :
  let T := snd (run (Demo.world Demo.staleLocked) "1234" Demo.options) in
  let ev := Call_execSync "rm /tmp/clone/docs/changelog/1234-add-thing" "/tmp/clone"
              (Some "Command failed"%string) in
  In ev T /\ calledInTry ev = true /\ thrown ev = Some "Command failed"%string
  /\ isGenerate ev = false
  /\ existsb isGenerate T = false.
Proof.
  cbv zeta. split; [found|]. split; [reflexivity|]. split; [reflexivity|].
  split; [reflexivity|].
  exact (proj1 (failure_before_generation_still_commits (Demo.world Demo.staleLocked)
                  "1234" Demo.options
                  (Call_execSync "rm /tmp/clone/docs/changelog/1234-add-thing" "/tmp/clone"
                     (Some "Command failed"%string))
                  "Command failed"%string ltac:(found) eq_refl eq_refl eq_refl)).
Defined.
Lemma in_flat_map_split {A} (f : A -> Trace) (l : list A) (ev : Event) :
  In ev (flat_map f l) ->
  exists l1 x l2,
    l = l1 ++ x :: l2 /\ In ev (f x)
    /\ flat_map f l = flat_map f l1 ++ f x ++ flat_map f l2.
Proof.
  intros H. apply in_flat_map in H as (x & Hx & Hin).
  apply in_split in Hx as (l1 & l2 & ->). exists l1, x, l2.
  split; [reflexivity|]. split; [exact Hin|].
  rewrite flat_map_app. reflexivity.
Qed.

Lemma BodyShape_exec env tmpRepoPath file dev d touched o evs cmd cwd r :
  BodyShape env tmpRepoPath file dev d touched o evs ->
  In (Call_execSync cmd cwd r) evs ->
  cwd = tmpRepoPath
  /\ ((cmd = "pnpm install"%string /\ truthy dev = false /\ touched <> [])
      \/ (exists paths p,
             In (Call_getAllProjectPaths tmpRepoPath (inr paths)) evs
             /\ In p paths
             /\ cmd = ("rm " ++ fragmentPath env tmpRepoPath file p)%string)
      \/ (exists p, In p touched /\ cmd = changelogCmd p file d)).
Proof.
  intros H Hin. destruct H; in_cases Hin.
  all: try (apply in_flat_map in Hin as (x & Hx & Hin)).
  all: try match type of Hin with
           | In _ (removalEvents _ _ _ ?x) =>
               destruct x as [q []]; unfold removalEvents in Hin; cbn [fst snd] in Hin
           | In _ (generationEvents _ _ _ _ _) => unfold generationEvents in Hin
           end.
  all: in_cases Hin.
  all: injection Hin as <- <- <-; (split; [reflexivity|]).
  all: try (subst touched).
  all: first
    [ solve [ left; split; [reflexivity|]; split;
              [first [assumption | reflexivity]
              | first [assumption | destruct gen; discriminate]] ]
    | solve [ right; left; eexists _, _; split; [in_solve|]; split;
              [ first [ apply in_or_app; left; apply (in_map fst _ _ Hx)
                      | apply (in_map fst _ _ Hx)
                      | in_solve ]
              | reflexivity ] ]
    | solve [ right; right; eexists; split; [|reflexivity]; in_solve ] ].
Qed.

(** A call of the [try] block sits in the [try] block of a run that got
    there. *)
Lemma in_try_block env prNumber options ev :
  In ev (snd (run env prNumber options)) -> calledInTry ev = true ->
  exists pr d tmpRepoPath touched ob evs rest,
    BodyShape env tmpRepoPath (fileName pr) (devRepoPath options) d touched ob evs
    /\ snd (run env prNumber options)
       = prefixEvents prNumber options pr d tmpRepoPath touched ++ evs ++ rest
    /\ In ev evs
    /\ existsb calledInTry rest = false.
Proof.
  intros Hin Htry.
  destruct (run_stages env prNumber options)
    as [(e0 & t & ev0 & _ & _ & _ & _ & _ & Hk & _ & _)
       | [(_ & pr & HT)
         | [(pr & d & tmp & touched & evs & c & Hbody & _ & HT)
           | (pr & d & tmp & touched & evs & ob & mid & cevs & Hbody & Hmid & Hc & HT & _)]]].
  - exfalso. apply (in_clean calledInTry _ _ Hin Htry).
    apply disjoint_clean with (K := inPrefix); [exact Hk | by_kind].
  - exfalso. apply (in_clean calledInTry _ _ Hin Htry). rewrite HT. reflexivity.
  - exists pr, d, tmp, touched, (Exited c), evs, [].
    split; [exact Hbody|]. split; [rewrite app_nil_r; exact HT|]. split; [|reflexivity].
    rewrite HT in Hin. apply in_app_or in Hin as [Hin|Hin]; [|exact Hin].
    exfalso. apply (in_clean calledInTry _ _ Hin Htry). apply prefixEvents_clean. by_kind.
  - assert (Hrest : existsb calledInTry (mid ++ cevs) = false).
    { rewrite existsb_app, (mid_clean calledInTry _ _ Hmid) by (intros; reflexivity).
      eapply CommitShape_clean; [eassumption | by_kind]. }
    exists pr, d, tmp, touched, ob, evs, (mid ++ cevs).
    split; [exact Hbody|]. split; [exact HT|]. split; [|exact Hrest].
    rewrite HT in Hin. apply in_app_or in Hin as [Hin|Hin].
    { exfalso. apply (in_clean calledInTry _ _ Hin Htry). apply prefixEvents_clean. by_kind. }
    apply in_app_or in Hin as [Hin|Hin]; [exact Hin|].
    exfalso. apply (in_clean calledInTry _ _ Hin Htry Hrest).
Qed.

(** X8.  The only child processes a run starts are the removal of the
    fragment of a listed project, [pnpm install] (only when no
    [devRepoPath] is supplied) and the generation command of a touched
    project, and each of them runs in the working copy that was checked
    out. *)
Theorem child_processes_are_rm_install_generate env prNumber options cmd cwd r :
  In (Call_execSync cmd cwd r) (snd (run env prNumber options)) ->
  exists pr d touched,
    In (Call_getPullRequestData (owner options) (name options) prNumber (inr pr))
       (snd (run env prNumber options))
    /\ In (Call_getChangelogDetails (prBody pr) (inr d)) (snd (run env prNumber options))
    /\ In (Call_checkoutRemoteBranch cwd (branch pr) None) (snd (run env prNumber options))
    /\ In (Call_getTouchedProjectsRequiringChangelog cwd (base pr) (head pr)
             (fileName pr) (owner options) (name options) (inr touched))
          (snd (run env prNumber options))
    /\ ((cmd = "pnpm install"%string /\ truthy (devRepoPath options) = false
         /\ touched <> [])
        \/ (exists paths p,
               In (Call_getAllProjectPaths cwd (inr paths)) (snd (run env prNumber options))
               /\ In p paths
               /\ cmd = ("rm " ++ fragmentPath env cwd (fileName pr) p)%string)
        \/ (exists p, In p touched /\ cmd = changelogCmd p (fileName pr) d)).
Proof.
  intros Hin.
  destruct (in_try_block env prNumber options _ Hin eq_refl)
    as (pr & d & tmp & touched & ob & evs & rest & Hbody & HT & Hevs & _).
  destruct (BodyShape_exec _ _ _ _ _ _ _ _ _ _ _ Hbody Hevs) as (-> & Hcmd).
  exists pr, d, touched. rewrite HT.
  split; [apply in_or_app; left; apply prefixEvents_fetch|].
  split; [apply in_or_app; left; apply prefixEvents_details|].
  split; [apply in_or_app; left; apply prefixEvents_checkout|].
  split; [apply in_or_app; left; apply prefixEvents_listed|].
  destruct Hcmd as [Hcmd | [(paths & p & Hl & Hp & Hcmd) | Hcmd]];
    [left; exact Hcmd | | right; right; exact Hcmd].
  right. left. exists paths, p. split; [|split; assumption].
  apply in_or_app. right. apply in_or_app. left. exact Hl.
Qed.

Lemma child_processes_witness :
  let T := snd (run (Demo.world Demo.healthy) "1234" Demo.options) in
  In (Call_execSync "rm /tmp/clone/docs/changelog/1234-add-thing" "/tmp/clone" None) T
  /\ exists pr, In (Call_checkoutRemoteBranch "/tmp/clone" (branch pr) None) T.
Proof.
  cbv zeta. split; [found|].
  destruct (child_processes_are_rm_install_generate (Demo.world Demo.healthy) "1234"
              Demo.options "rm /tmp/clone/docs/changelog/1234-add-thing" "/tmp/clone" None
              ltac:(found))
    as (pr & d & touched & _ & _ & Hcheckout & _).
  exists pr. exact Hcheckout.
Defined.

(** ** The reconciliation, pass by pass *)

Lemma count_flat_map_eq {A} (P Q : Event -> bool) (f : A -> Trace) (l : list A) :
  (forall x, count P (f x) = count Q (f x)) ->
  count P (flat_map f l) = count Q (flat_map f l).
Proof.
  intros H. induction l as [|x l IH]; [reflexivity|].
  cbn [flat_map]. rewrite !count_app, H, IH. reflexivity.
Qed.

Lemma BodyShape_removals env tmpRepoPath file dev d touched o evs :
  BodyShape env tmpRepoPath file dev d touched o evs ->
  count isRemoval evs = count isFound evs.
Proof.
  assert (Hpass : forall done,
             count isRemoval (flat_map (removalEvents env tmpRepoPath file) done)
             = count isFound (flat_map (removalEvents env tmpRepoPath file) done))
    by (intros done; apply count_flat_map_eq; intros [p []]; reflexivity).
  assert (Hgen : forall r l,
             count isRemoval (flat_map (generationEvents tmpRepoPath file d r) l)
             = count isFound (flat_map (generationEvents tmpRepoPath file d r) l))
    by (intros r l; apply count_flat_map_eq; intros p; reflexivity).
  intros H. destruct H; rewrite ?count_app, ?Hpass, ?Hgen;
    try destruct (truthy dev); reflexivity.
Qed.

Lemma BodyShape_tests env tmpRepoPath file dev d touched o evs path b :
  BodyShape env tmpRepoPath file dev d touched o evs ->
  In (Call_existsSync path b) evs ->
  exists paths p,
    In (Call_getAllProjectPaths tmpRepoPath (inr paths)) evs
    /\ In p paths
    /\ path = fragmentPath env tmpRepoPath file p
    /\ (b = true ->
        exists r before after,
          evs = before
                  ++ [Call_existsSync path true;
                      Logger_notice ("Remove existing changelog file " ++ path)%string;
                      Call_execSync ("rm " ++ path)%string tmpRepoPath r]
                  ++ after).
Proof.
  intros H Hin. destruct H; in_cases Hin.
  all: try (apply in_flat_map_split in Hin as (l1 & [q c] & l2 & Hl & Hin & Hflat);
            unfold removalEvents in Hin; cbn [fst snd] in Hin; destruct c; in_cases Hin;
            injection Hin as <- <-).
  all: try (unfold generationEvents in Hin; apply in_flat_map in Hin as (x & _ & Hin);
            in_cases Hin).
  all: try (injection Hin as <- <-).
  all: eexists _, _; refine (conj _ (conj _ (conj eq_refl _)));
    [ in_solve
    | first [ in_solve | rewrite Hl, map_app; cbn [map fst]; in_solve ]
    | intros Hb; try discriminate Hb ].
  all: rewrite ?Hflat, <- ?app_assoc.
  all: match goal with
       | |- exists r before after, ?A ++ ?B ++ removalFailure _ _ _ _ ?e = _ =>
           exists (Some e), (A ++ B), []; rewrite app_assoc; reflexivity
       | |- exists r before after, ?A ++ ?B ++ ?C ++ ?D = _ =>
           exists None, (A ++ B), D; apply app_assoc
       end.
Qed.

(** X9.  The reconciliation removes exactly what it finds.  Every
    [existsSync] test of a run is on the fragment path of a project that
    [getAllProjectPaths] listed; a test that answers true is followed at
    once by its notice and by the [rm] of that very path in the working
    copy; and a run makes as many removals as its tests answered true, so
    nothing is removed that was not tested and found. *)
Theorem found_fragments_are_removed env prNumber options :
  count isRemoval (snd (run env prNumber options))
  = count isFound (snd (run env prNumber options))
  /\ forall path b,
       In (Call_existsSync path b) (snd (run env prNumber options)) ->
       exists pr tmpRepoPath paths p,
         In (Call_getPullRequestData (owner options) (name options) prNumber (inr pr))
            (snd (run env prNumber options))
         /\ In (Call_getAllProjectPaths tmpRepoPath (inr paths))
               (snd (run env prNumber options))
         /\ In p paths
         /\ path = fragmentPath env tmpRepoPath (fileName pr) p
         /\ (b = true ->
             exists r before after,
               snd (run env prNumber options)
               = before
                   ++ [Call_existsSync path true;
                       Logger_notice ("Remove existing changelog file " ++ path)%string;
                       Call_execSync ("rm " ++ path)%string tmpRepoPath r]
                   ++ after).
Proof.
  split.
  - destruct (run_stages env prNumber options)
      as [(e0 & t & ev0 & _ & _ & _ & _ & _ & Hk & _ & _)
         | [(_ & pr & HT)
           | [(pr & d & tmp & touched & evs & c & Hbody & _ & HT)
             | (pr & d & tmp & touched & evs & ob & mid & cevs & Hbody & Hmid & Hc & HT & _)]]].
    + rewrite !count_none; [reflexivity | |];
        (apply disjoint_clean with (K := inPrefix); [exact Hk | by_kind]).
    + rewrite HT. reflexivity.
    + rewrite HT, !count_app, (BodyShape_removals _ _ _ _ _ _ _ _ Hbody).
      rewrite !(count_none _ (prefixEvents _ _ _ _ _ _)); [reflexivity | |];
        (apply prefixEvents_clean; by_kind).
    + rewrite HT, !count_app, (BodyShape_removals _ _ _ _ _ _ _ _ Hbody).
      rewrite !(count_none _ (prefixEvents _ _ _ _ _ _));
        [| apply prefixEvents_clean; by_kind | apply prefixEvents_clean; by_kind].
      rewrite !(count_none _ mid);
        [| apply (mid_clean _ _ _ Hmid); intros; reflexivity
         | apply (mid_clean _ _ _ Hmid); intros; reflexivity].
      rewrite !(count_none _ cevs);
        [reflexivity | |]; (eapply CommitShape_clean; [eassumption | by_kind]).
  - intros path b Hin.
    destruct (in_try_block env prNumber options _ Hin eq_refl)
      as (pr & d & tmp & touched & ob & evs & rest & Hbody & HT & Hevs & _).
    destruct (BodyShape_tests _ _ _ _ _ _ _ _ _ _ Hbody Hevs)
      as (paths & p & Hl & Hp & Hpath & Hrm).
    exists pr, tmp, paths, p. rewrite HT.
    split; [apply in_or_app; left; apply prefixEvents_fetch|].
    split; [apply in_or_app; right; apply in_or_app; left; exact Hl|].
    split; [exact Hp|]. split; [exact Hpath|].
    intros Hb. destruct (Hrm Hb) as (r & before & after & ->).
    exists r, (prefixEvents prNumber options pr d tmp touched ++ before), (after ++ rest).
    rewrite <- !app_assoc. reflexivity.
Qed.

Lemma found_fragments_witness :
  let T := snd (run (Demo.world Demo.healthy) "1234" Demo.options) in
  In (Call_existsSync "/tmp/clone/docs/changelog/1234-add-thing" true) T
  /\ exists pr tmpRepoPath paths p,
       In (Call_getAllProjectPaths tmpRepoPath (inr paths)) T
       /\ In p paths
       /\ "/tmp/clone/docs/changelog/1234-add-thing"%string
          = fragmentPath (Demo.world Demo.healthy) tmpRepoPath (fileName pr) p.
Proof.
  cbv zeta. split; [found|].
  destruct (proj2 (found_fragments_are_removed (Demo.world Demo.healthy) "1234" Demo.options)
              "/tmp/clone/docs/changelog/1234-add-thing"%string true ltac:(found))
    as (pr & tmp & paths & p & _ & Hl & Hp & Hpath & _).
  exists pr, tmp, paths, p. auto.
Defined.

(** ** What a computation adds to the trace *)

Section Adds.

Variable Q : Event -> Prop.

Lemma adds_ret {A} (a : A) : adds Q (ret a).
Proof. intros t. exists []. rewrite app_nil_r. split; [reflexivity | constructor]. Qed.

Lemma adds_emit (ev : Event) : Q ev -> adds Q (emit ev).
Proof. intros H t. exists [ev]. split; [reflexivity | repeat constructor; exact H]. Qed.

Lemma adds_call {A} (ask : Trace -> Err + A) (mk : Err + A -> Event) :
  (forall r, Q (mk r)) -> adds Q (call ask mk).
Proof.
  intros H t. unfold call. destruct (ask t); eexists [_];
    (split; [reflexivity | repeat constructor; apply H]).
Qed.

Lemma adds_call_void (ask : Trace -> option Err) (mk : option Err -> Event) :
  (forall r, Q (mk r)) -> adds Q (call_void ask mk).
Proof.
  intros H t. unfold call_void. destruct (ask t); eexists [_];
    (split; [reflexivity | repeat constructor; apply H]).
Qed.

Lemma adds_call_bool (ask : Trace -> bool) (mk : bool -> Event) :
  (forall b, Q (mk b)) -> adds Q (call_bool ask mk).
Proof.
  intros H t. unfold call_bool. eexists [_].
  split; [reflexivity | repeat constructor; apply H].
Qed.

Lemma adds_process_exit {A} (c : Z) : Q (Process_exit c) -> adds Q (@process_exit A c).
Proof.
  intros H t. exists [Process_exit c]. split; [reflexivity | repeat constructor; exact H].
Qed.

Lemma adds_bind {A B} (m : M A) (k : A -> M B) :
  adds Q m -> (forall a, adds Q (k a)) -> adds Q (bind m k).
Proof.
  intros Hm Hk t. unfold bind. destruct (Hm t) as (evs & Ht & Hevs).
  destruct (m t) as [[a|e|c] t']; cbn [snd] in *; subst t';
    [| exists evs; split; [reflexivity | exact Hevs] ..].
  destruct (Hk a (t ++ evs)) as (evs' & Ht' & Hevs'). exists (evs ++ evs').
  rewrite Ht', app_assoc. split; [reflexivity | apply Forall_app; auto].
Qed.

Lemma adds_try_catch (body : M unit) (handler : Err -> M unit) :
  adds Q body -> (forall e, adds Q (handler e)) -> adds Q (try_catch body handler).
Proof.
  intros Hm Hk t. unfold try_catch. destruct (Hm t) as (evs & Ht & Hevs).
  destruct (body t) as [[a|e|c] t']; cbn [snd] in *; subst t';
    [exists evs; split; [reflexivity | exact Hevs] | |
     exists evs; split; [reflexivity | exact Hevs]].
  destruct (Hk e (t ++ evs)) as (evs' & Ht' & Hevs'). exists (evs ++ evs').
  rewrite Ht', app_assoc. split; [reflexivity | apply Forall_app; auto].
Qed.

Lemma adds_forEach {A} (l : list A) (f : A -> M unit) :
  (forall x, adds Q (f x)) -> adds Q (forEach l f).
Proof.
  intros H. induction l as [|x l IH]; cbn [forEach]; [apply adds_ret|].
  apply adds_bind; [apply H | intros _; exact IH].
Qed.

Lemma adds_when (c : bool) (m : M unit) : adds Q m -> adds Q (when c m).
Proof. intros H. destruct c; [exact H | apply adds_ret]. Qed.

End Adds.

Ltac adds_steps :=
  repeat first
    [ apply adds_bind; [|intros ?]
    | apply adds_try_catch; [|intros ?]
    | apply adds_forEach; intros ?
    | apply adds_when
    | apply adds_ret
    | apply adds_emit
    | apply adds_call; intros ?
    | apply adds_call_void; intros ?
    | apply adds_call_bool; intros ?
    | apply adds_process_exit ].

(** Once the working copy is known, every event is about it. *)
Lemma tail_in_working_copy env (options : Options) (pr : PullRequestData)
      (d : ChangelogDetails) (w : string) :
  adds (inWorkingCopy w)
    (Logger.endTask ;;
     Logger.notice
       ("Temporary clone of '" ++ headOwner pr ++ "/" ++ name options
        ++ "' created at " ++ w)%string ;;
     Logger.notice ("Checking out remote branch " ++ branch pr)%string ;;
     call_void (fun _ => checkoutRemoteBranch env w (branch pr))
               (Call_checkoutRemoteBranch w (branch pr)) ;;
     Logger.notice "Getting all touched projects requiring a changelog" ;;
     touched <-
       call (fun _ => getTouchedProjectsRequiringChangelog env
                        w (base pr) (head pr) (fileName pr)
                        (owner options) (name options))
            (Call_getTouchedProjectsRequiringChangelog
               w (base pr) (head pr) (fileName pr)
               (owner options) (name options)) ;;
     try_catch
       (reconcileAndGenerate env w (fileName pr) (devRepoPath options) d touched)
       (fun e => Logger.error e) ;;
     commitAndPush env w (branch pr) touched).
Proof.
  unfold reconcileAndGenerate, commitAndPush, removeExistingChangelog,
    runChangelogCommand, Logger.endTask, Logger.notice, Logger.error.
  adds_steps.
  all: split; [cbn; auto | reflexivity].
Qed.

Lemma no_clone_added (w : string) (evs : Trace) :
  Forall (inWorkingCopy w) evs -> existsb isClone evs = false.
Proof.
  induction 1 as [|ev evs [_ Hev] _ IH]; [reflexivity|].
  cbn [existsb]. rewrite Hev, IH. reflexivity.
Qed.

Ltac stops_early :=
  eexists; split; [reflexivity|]; cbn [snd app];
  split; [intros ev Hin; in_cases Hin; subst ev; exact I|];
  split; [intros _; split; reflexivity | intros _ o n s p Hin; in_cases Hin].

Lemma working_copy_of_run env prNumber options :
  exists w t,
    snd (changefile_action env prNumber options []) = t
    /\ (forall ev, In ev t -> RootedAt w ev)
    /\ (truthy (devRepoPath options) = true ->
        w = text (devRepoPath options) /\ existsb isClone t = false)
    /\ (truthy (devRepoPath options) = false ->
        forall o n s p,
          In (Call_cloneAuthenticatedRepo o n s (inr p)) t ->
          p = w /\ s = false /\ n = name options
          /\ exists pr,
               In (Call_getPullRequestData (owner options) (name options) prNumber (inr pr)) t
               /\ o = headOwner pr).
Proof.
  unfold changefile_action.
  unfold bind at 1, Logger.startTask at 1, emit at 1.
  unfold bind at 1, call at 1.
  destruct (getPullRequestData env _ _ _) as [e|pr].
  { exists (text (devRepoPath options)). stops_early. }
  unfold bind at 1, Logger.endTask at 1, emit at 1.
  unfold bind at 1, call_bool at 1.
  unfold bind at 1.
  destruct (shouldAutomateChangelog env (prBody pr)); cbn [negb when].
  2:{ unfold bind, Logger.notice, emit, process_exit.
      exists (text (devRepoPath options)). stops_early. }
  unfold ret at 1.
  unfold bind at 1, call at 1.
  destruct (getChangelogDetails env (prBody pr)) as [e|d].
  { exists (text (devRepoPath options)). stops_early. }
  unfold bind at 1, Logger.startTask at 1, emit at 1.
  unfold bind at 1.
  destruct (truthy (devRepoPath options)) eqn:Hdev.
  - unfold ret at 1.
    match goal with |- context [snd (?tail ?t0)] =>
      destruct (tail_in_working_copy env options pr d (text (devRepoPath options)) t0)
        as (evs & Ht & Hevs) end.
    exists (text (devRepoPath options)). eexists. split; [exact Ht|]. cbn [app].
    split; [|split; [intros _ | intros Hx; discriminate Hx]].
    + intros ev Hin. in_cases Hin; try (subst ev; exact I).
      rewrite Forall_forall in Hevs. apply (Hevs ev Hin).
    + split; [reflexivity|]. cbn [existsb isClone orb]. apply (no_clone_added _ _ Hevs).
  - unfold call at 1.
    destruct (cloneAuthenticatedRepo env _ _ _) as [e|tmpRepoPath].
    { exists EmptyString. eexists. split; [reflexivity|]. cbn [snd app].
      split; [intros ev Hin; in_cases Hin; subst ev; exact I|].
      split; [intros Hx; discriminate Hx | intros _ o n s p Hin; in_cases Hin]. }
    match goal with |- context [snd (?tail ?t0)] =>
      destruct (tail_in_working_copy env options pr d tmpRepoPath t0)
        as (evs & Ht & Hevs) end.
    exists tmpRepoPath. eexists. split; [exact Ht|]. cbn [app].
    split; [|split; [intros Hx; discriminate Hx | intros _]].
    + intros ev Hin. in_cases Hin; try (subst ev; exact I).
      rewrite Forall_forall in Hevs. apply (Hevs ev Hin).
    + intros o n s p Hin. in_cases Hin.
      * injection Hin as <- <- <- <-.
        split; [reflexivity|]. split; [reflexivity|]. split; [reflexivity|].
        exists pr. split; [|reflexivity]. simpl. auto.
      * exfalso. apply (in_clean isClone _ _ Hin eq_refl).
        apply (no_clone_added _ _ Hevs).
Qed.

(** X10.  A run works in one directory.  The checkout, the listing of
    the touched and of all projects, every child process and the git
    client all name the same directory.  When a [devRepoPath] is supplied
    it is that path, and nothing is cloned; otherwise it is the directory
    the clone returned, and the clone made is a full clone (not shallow)
    of the repository with the name given as option under the owner of the
    head of the pull request. *)
Theorem one_working_copy env prNumber options :
  exists w,
    (forall ev, In ev (snd (run env prNumber options)) -> RootedAt w ev)
    /\ (truthy (devRepoPath options) = true ->
        w = text (devRepoPath options)
        /\ existsb isClone (snd (run env prNumber options)) = false)
    /\ (truthy (devRepoPath options) = false ->
        forall o n s p,
          In (Call_cloneAuthenticatedRepo o n s (inr p)) (snd (run env prNumber options)) ->
          p = w /\ s = false /\ n = name options
          /\ exists pr,
               In (Call_getPullRequestData (owner options) (name options) prNumber (inr pr))
                  (snd (run env prNumber options))
               /\ o = headOwner pr).
Proof.
  unfold run.
  destruct (working_copy_of_run env prNumber options) as (w & t & <- & H).
  exists w. exact H.
Qed.

Lemma one_working_copy_witness :
  truthy (devRepoPath Demo.devOptions) = true
  /\ existsb isClone (snd (run (Demo.world Demo.healthy) "1234" Demo.devOptions)) = false.
Proof.
  split; [reflexivity|].
  destruct (one_working_copy (Demo.world Demo.healthy) "1234" Demo.devOptions)
    as (w & _ & Hdev & _).
  exact (proj2 (Hdev eq_refl)).
Defined.

(** ** Before anything is changed *)

(** A run that changes anything has started with a fetched pull request
    whose checkbox is checked and whose details parsed. *)
Lemma run_validates_first env prNumber options :
  existsb isMutation (snd (run env prNumber options)) = false
  \/ exists pr d rest,
       snd (run env prNumber options)
       = [Logger_startTask ("Getting pull request data for PR number " ++ prNumber)%string;
          Call_getPullRequestData (owner options) (name options) prNumber (inr pr);
          Logger_endTask;
          Call_shouldAutomateChangelog (prBody pr) true;
          Call_getChangelogDetails (prBody pr) (inr d)] ++ rest.
Proof.
  destruct (run_shape env prNumber options).
  1-3: left; reflexivity.
  1-4: right; exists pr, d; eexists; unfold fetchEvents, prefixEvents; cbn [app];
       reflexivity.
  all: right; exists pr, d;
    match goal with H : commitAndPush _ _ _ _ ?t0 = _ |- _ =>
      destruct (commitAndPush_shape env tmpRepoPath (branch pr) touched t0)
        as (o' & cevs & Heq & _);
      rewrite Heq in H; apply pair_equal_spec in H as [_ <-]
    end;
    eexists; unfold fetchEvents, prefixEvents; cbn [app]; reflexivity.
Qed.

(** X11.  Nothing is changed before the request is validated: every
    clone, checkout, child process and git command of a run comes after
    the pull request was fetched, [shouldAutomateChangelog] answered true
    for its body and [getChangelogDetails] parsed it. *)
Theorem changes_only_after_validation env prNumber options ev :
  In ev (snd (run env prNumber options)) -> isMutation ev = true ->
  exists pr d t1 t2,
    snd (run env prNumber options) = t1 ++ ev :: t2
    /\ In (Call_getPullRequestData (owner options) (name options) prNumber (inr pr)) t1
    /\ In (Call_shouldAutomateChangelog (prBody pr) true) t1
    /\ In (Call_getChangelogDetails (prBody pr) (inr d)) t1.
Proof.
  intros Hin Hev.
  destruct (run_validates_first env prNumber options) as [Hnone | (pr & d & rest & HT)];
    [exfalso; apply (in_clean isMutation _ _ Hin Hev Hnone)|].
  rewrite HT in Hin. apply in_app_or in Hin as [Hin|Hin];
    [exfalso; in_cases Hin; subst ev; discriminate Hev|].
  apply in_split in Hin as (r1 & r2 & ->).
  eexists pr, d, (_ :: _ :: _ :: _ :: _ :: r1), r2.
  rewrite HT. split; [reflexivity|]. simpl. auto 10.
Qed.

Lemma changes_witness :
  let T := snd (run (Demo.world Demo.healthy) "1234" Demo.devOptions) in
  In (Call_checkoutRemoteBranch "/home/dev/woocommerce" "add/thing" None) T
  /\ exists pr d t1 t2,
       T = t1 ++ Call_checkoutRemoteBranch "/home/dev/woocommerce" "add/thing" None :: t2
       /\ In (Call_getPullRequestData (owner Demo.devOptions) (name Demo.devOptions) "1234"
                (inr pr)) t1
       /\ In (Call_shouldAutomateChangelog (prBody pr) true) t1
       /\ In (Call_getChangelogDetails (prBody pr) (inr d)) t1.
Proof.
  cbv zeta. split; [found|].
  exact (changes_only_after_validation (Demo.world Demo.healthy) "1234" Demo.devOptions
           (Call_checkoutRemoteBranch "/home/dev/woocommerce" "add/thing" None)
           ltac:(found) eq_refl).
Defined.

(** ** The logger *)

(** X12.  The error logger is called at most once in a run, and only to
    log what a call of the [try] block threw, directly after that call:
    failures outside the [try] block are never logged by the action, and
    nothing else is ever logged as an error. *)
Theorem only_caught_failures_are_logged env prNumber options :
  count isErrorLog (snd (run env prNumber options)) <= 1
  /\ forall e,
       In (Logger_error e) (snd (run env prNumber options)) ->
       exists ev before after,
         snd (run env prNumber options) = before ++ [ev; Logger_error e] ++ after
         /\ thrown ev = Some e /\ calledInTry ev = true
         /\ existsb isErrorLog before = false
         /\ existsb isErrorLog after = false.
Proof.
  destruct (run_stages env prNumber options)
    as [(e0 & t & ev0 & _ & _ & _ & _ & _ & Hk & _ & _)
       | [(_ & pr & HT)
         | [(pr & d & tmp & touched & evs & c & Hbody & _ & HT)
           | (pr & d & tmp & touched & evs & ob & mid & cevs & Hbody & Hmid & Hc & HT & _)]]].
  - assert (Hnone : existsb isErrorLog (snd (run env prNumber options)) = false)
      by (apply disjoint_clean with (K := inPrefix); [exact Hk | by_kind]).
    split; [rewrite (count_none _ _ Hnone); lia|].
    intros e Hin. exfalso. apply (in_clean isErrorLog _ _ Hin eq_refl Hnone).
  - rewrite HT. split; [cbv; lia|].
    intros e Hin. exfalso. apply (in_clean isErrorLog _ _ Hin eq_refl). reflexivity.
  - assert (Hnone : existsb isErrorLog (snd (run env prNumber options)) = false)
      by (rewrite HT; eapply before_exit_clean; [eassumption | by_kind | by_kind]).
    split; [rewrite (count_none _ _ Hnone); lia|].
    intros e Hin. exfalso. apply (in_clean isErrorLog _ _ Hin eq_refl Hnone).
  - assert (Hpre : existsb isErrorLog (prefixEvents prNumber options pr d tmp touched) = false)
      by (apply prefixEvents_clean; by_kind).
    assert (Hevs : existsb isErrorLog evs = false)
      by (eapply BodyShape_clean; [eassumption | by_kind]).
    assert (Hcevs : existsb isErrorLog cevs = false)
      by (eapply CommitShape_clean; [eassumption | by_kind]).
    rewrite HT. split.
    + rewrite !count_app, (count_none _ _ Hpre), (count_none _ _ Hevs),
        (count_none _ _ Hcevs).
      destruct Hmid as [[_ ->] | (e0 & _ & ->)]; cbv; lia.
    + intros e Hin.
      apply in_app_or in Hin as [Hin|Hin];
        [exfalso; apply (in_clean isErrorLog _ _ Hin eq_refl Hpre)|].
      apply in_app_or in Hin as [Hin|Hin];
        [exfalso; apply (in_clean isErrorLog _ _ Hin eq_refl Hevs)|].
      apply in_app_or in Hin as [Hin|Hin];
        [|exfalso; apply (in_clean isErrorLog _ _ Hin eq_refl Hcevs)].
      destruct Hmid as [[_ ->] | (e0 & -> & ->)]; [destruct Hin|].
      destruct Hin as [Hin | []]. injection Hin as ->.
      destruct (proj1 (BodyShape_thrown _ _ _ _ _ _ _ _ Hbody) e eq_refl)
        as (ev & [b ->] & Hev).
      exists ev, (prefixEvents prNumber options pr d tmp touched ++ b), cevs.
      split; [rewrite <- !app_assoc; reflexivity|]. split; [exact Hev|].
      split.
      { apply (thrown_in_try ev e); [|exact Hev].
        eapply kind_of; [eapply BodyShape_kinds; eassumption|].
        apply in_or_app. right. left. reflexivity. }
      split; [|exact Hcevs].
      rewrite existsb_app in Hevs. apply orb_false_iff in Hevs as [Hb _].
      rewrite existsb_app, Hpre, Hb. reflexivity.
Qed.

Lemma logged_witness :
  let T := snd (run (Demo.world Demo.firstFails) "1234" Demo.options) in
  In (Logger_error "Command failed"%string) T
  /\ exists ev before after,
       T = before ++ [ev; Logger_error "Command failed"%string] ++ after
       /\ thrown ev = Some "Command failed"%string /\ calledInTry ev = true
       /\ existsb isErrorLog before = false
       /\ existsb isErrorLog after = false.
Proof.
  cbv zeta. split; [found|].
  exact (proj2 (only_caught_failures_are_logged (Demo.world Demo.firstFails) "1234"
                  Demo.options)
           "Command failed"%string ltac:(found)).
Defined.

Lemma balanced_app (a b : Trace) :
  count isStartTask a = count isEndTask a + count leavesTaskOpen a ->
  count isStartTask b = count isEndTask b + count leavesTaskOpen b ->
  count isStartTask (a ++ b) = count isEndTask (a ++ b) + count leavesTaskOpen (a ++ b).
Proof. intros Ha Hb. rewrite !count_app. lia. Qed.

Lemma balanced_clean (K : Event -> bool) (t : Trace) :
  forallb K t = true ->
  (forall ev, K ev = true -> isStartTask ev = false) ->
  (forall ev, K ev = true -> isEndTask ev = false) ->
  (forall ev, K ev = true -> leavesTaskOpen ev = false) ->
  count isStartTask t = count isEndTask t + count leavesTaskOpen t.
Proof.
  intros HK H1 H2 H3.
  rewrite !count_none; [reflexivity | | |]; apply disjoint_clean with (K := K); assumption.
Qed.

Lemma balanced_prefix prNumber options pr d tmpRepoPath touched :
  count isStartTask (prefixEvents prNumber options pr d tmpRepoPath touched)
  = count isEndTask (prefixEvents prNumber options pr d tmpRepoPath touched)
    + count leavesTaskOpen (prefixEvents prNumber options pr d tmpRepoPath touched).
Proof. unfold prefixEvents. destruct (truthy (devRepoPath options)); reflexivity. Qed.

Lemma balanced_body env tmpRepoPath file dev d touched o evs :
  BodyShape env tmpRepoPath file dev d touched o evs ->
  count isStartTask evs = count isEndTask evs + count leavesTaskOpen evs.
Proof.
  intros H. apply balanced_clean with (K := inBody);
    [eapply BodyShape_kinds; eassumption | by_kind ..].
Qed.

Lemma balanced_commit env tmpRepoPath br touched o evs :
  CommitShape env tmpRepoPath br touched o evs ->
  count isStartTask evs = count isEndTask evs + count leavesTaskOpen evs.
Proof.
  intros H. apply balanced_clean with (K := inCommit);
    [eapply CommitShape_kinds; eassumption | by_kind ..].
Qed.

(** X13.  Every task the logger starts is ended, except the task around
    a call that throws: a run starts as many tasks as it ends, plus one
    when fetching the pull request or cloning the repository throws, in
    which case the task is left open. *)
Theorem tasks_are_ended_unless_the_call_throws env prNumber options :
  count isStartTask (snd (run env prNumber options))
  = count isEndTask (snd (run env prNumber options))
    + count leavesTaskOpen (snd (run env prNumber options)).
Proof.
  destruct (run_shape env prNumber options).
  1-6: unfold fetchEvents, cloneTask, cloneNotices;
       try destruct (truthy (devRepoPath options)); reflexivity.
  - apply balanced_app; [apply balanced_prefix | eapply balanced_body; eassumption].
  - match goal with H : commitAndPush _ _ _ _ ?t0 = _ |- _ =>
      destruct (commitAndPush_shape env tmpRepoPath (branch pr) touched t0)
        as (o' & cevs & Heq & Hc);
      rewrite Heq in H; apply pair_equal_spec in H as [_ <-]
    end.
    apply balanced_app; [|eapply balanced_commit; eassumption].
    apply balanced_app; [apply balanced_prefix | eapply balanced_body; eassumption].
  - match goal with H : commitAndPush _ _ _ _ ?t0 = _ |- _ =>
      destruct (commitAndPush_shape env tmpRepoPath (branch pr) touched t0)
        as (o' & cevs & Heq & Hc);
      rewrite Heq in H; apply pair_equal_spec in H as [_ <-]
    end.
    apply balanced_app; [|eapply balanced_commit; eassumption].
    apply balanced_app; [apply balanced_prefix|].
    apply balanced_app; [eapply balanced_body; eassumption | reflexivity].
Qed.

(** ** The order of the stages *)

Lemma stages_app (a b : Trace) : stages (a ++ b) = stages a ++ stages b.
Proof. apply flat_map_app. Qed.

Lemma within_nil (lo hi : nat) : within lo hi [].
Proof. split; constructor. Qed.

Lemma within_weaken (lo hi lo' hi' : nat) (l : list nat) :
  within lo hi l -> lo' <= lo -> hi <= hi' -> within lo' hi' l.
Proof.
  intros [Hs Hb] Hlo Hhi. split; [exact Hs|].
  eapply Forall_impl; [|exact Hb]. cbv beta. intros n Hn. lia.
Qed.

Lemma within_app (lo mid hi : nat) (a b : list nat) :
  within lo mid a -> within mid hi b -> lo <= mid <= hi -> within lo hi (a ++ b).
Proof.
  intros [Hsa Hba] [Hsb Hbb] Hm. split.
  - induction Hsa as [|x a Hsa IH Hx]; [exact Hsb|].
    cbn [app]. constructor.
    + apply IH. inversion Hba; assumption.
    + apply Forall_app. split; [exact Hx|].
      inversion Hba as [|? ? Hxb _]; subst.
      eapply Forall_impl; [|exact Hbb]. cbv beta. intros n Hn. lia.
  - apply Forall_app. split; (eapply Forall_impl; [|eassumption]); cbv beta;
      intros n Hn; lia.
Qed.

Lemma within_explicit (lo hi : nat) (l : list nat) :
  StronglySorted le l -> Forall (fun n => lo <= n <= hi) l -> within lo hi l.
Proof. split; assumption. Qed.

Ltac explicit_stages :=
  apply within_explicit; repeat constructor; lia.

Lemma within_flat_map {A} (c : nat) (f : A -> Trace) (l : list A) :
  (forall x, within c c (stages (f x))) -> within c c (stages (flat_map f l)).
Proof.
  intros H. induction l as [|x l IH]; [apply within_nil|].
  cbn [flat_map]. rewrite stages_app. apply (within_app c c c); auto.
Qed.

Lemma removalEvents_stages env tmpRepoPath file done :
  within 7 7 (stages (flat_map (removalEvents env tmpRepoPath file) done)).
Proof. apply within_flat_map. intros [p []]; explicit_stages. Qed.

Lemma generationEvents_stages tmpRepoPath file d l :
  within 9 9 (stages (flat_map (generationEvents tmpRepoPath file d None) l)).
Proof. apply within_flat_map. intros p. explicit_stages. Qed.

Lemma prefixEvents_stages prNumber options pr d tmpRepoPath touched :
  within 0 5 (stages (prefixEvents prNumber options pr d tmpRepoPath touched)).
Proof.
  unfold prefixEvents. destruct (truthy (devRepoPath options)); explicit_stages.
Qed.

Lemma BodyShape_stages env tmpRepoPath file dev d touched o evs :
  BodyShape env tmpRepoPath file dev d touched o evs -> within 6 9 (stages evs).
Proof.
  intros H. destruct H; rewrite ?stages_app.
  - explicit_stages.
  - apply (within_app 6 6 9); [explicit_stages | | lia].
    apply (within_app 6 7 9); [|explicit_stages | lia].
    eapply within_weaken; [apply removalEvents_stages | lia | lia].
  - apply (within_app 6 6 9); [explicit_stages | | lia].
    apply (within_app 6 7 9); [|explicit_stages | lia].
    eapply within_weaken; [apply removalEvents_stages | lia | lia].
  - apply (within_app 6 6 9); [explicit_stages | | lia].
    apply (within_app 6 7 9); [|explicit_stages | lia].
    eapply within_weaken; [apply removalEvents_stages | lia | lia].
  - apply (within_app 6 6 9); [explicit_stages | | lia].
    apply (within_app 6 7 9); [| | lia].
    { eapply within_weaken; [apply removalEvents_stages | lia | lia]. }
    apply (within_app 7 8 9); [destruct (truthy dev); explicit_stages | | lia].
    eapply within_weaken; [apply generationEvents_stages | lia | lia].
  - apply (within_app 6 6 9); [explicit_stages | | lia].
    apply (within_app 6 7 9); [| | lia].
    { eapply within_weaken; [apply removalEvents_stages | lia | lia]. }
    apply (within_app 7 8 9); [destruct (truthy dev); explicit_stages | | lia].
    apply (within_app 8 9 9); [|explicit_stages | lia].
    eapply within_weaken; [apply generationEvents_stages | lia | lia].
Qed.

Lemma CommitShape_stages env tmpRepoPath br touched o evs :
  CommitShape env tmpRepoPath br touched o evs -> within 10 16 (stages evs).
Proof.
  intros H. destruct H; unfold identityEvents; try rewrite H;
    try destruct (isGithubCI env); explicit_stages.
Qed.

Lemma run_stages_sorted env prNumber options :
  StronglySorted le (stages (snd (run env prNumber options))).
Proof.
  apply (proj1 (A := _) (B := Forall (fun n => 0 <= n <= 16)
                                (stages (snd (run env prNumber options))))).
  change (within 0 16 (stages (snd (run env prNumber options)))).
  destruct (run_shape env prNumber options).
  1-6: unfold fetchEvents, cloneTask, cloneNotices;
       try destruct (truthy (devRepoPath options)); explicit_stages.
  - rewrite stages_app. apply (within_app 0 5 16); [apply prefixEvents_stages | | lia].
    eapply within_weaken; [eapply BodyShape_stages; eassumption | lia | lia].
  - match goal with H : commitAndPush _ _ _ _ ?t0 = _ |- _ =>
      destruct (commitAndPush_shape env tmpRepoPath (branch pr) touched t0)
        as (o' & cevs & Heq & Hc);
      rewrite Heq in H; apply pair_equal_spec in H as [_ <-]
    end.
    rewrite !stages_app.
    apply (within_app 0 9 16); [| eapply within_weaken;
                                   [eapply CommitShape_stages; eassumption | lia | lia] | lia].
    apply (within_app 0 5 9); [apply prefixEvents_stages | | lia].
    eapply within_weaken; [eapply BodyShape_stages; eassumption | lia | lia].
  - match goal with H : commitAndPush _ _ _ _ ?t0 = _ |- _ =>
      destruct (commitAndPush_shape env tmpRepoPath (branch pr) touched t0)
        as (o' & cevs & Heq & Hc);
      rewrite Heq in H; apply pair_equal_spec in H as [_ <-]
    end.
    rewrite !stages_app. cbn [stages flat_map stageOf app]. rewrite app_nil_r.
    apply (within_app 0 9 16); [| eapply within_weaken;
                                   [eapply CommitShape_stages; eassumption | lia | lia] | lia].
    apply (within_app 0 5 9); [apply prefixEvents_stages | | lia].
    eapply within_weaken; [eapply BodyShape_stages; eassumption | lia | lia].
Qed.

Lemma sorted_between (l1 l2 : list nat) (a b : nat) :
  StronglySorted le (l1 ++ a :: l2) -> In b l2 -> a <= b.
Proof.
  induction l1 as [|x l1 IH]; cbn [app]; intros H Hin; inversion H as [|? ? Hs Hall]; subst.
  - rewrite Forall_forall in Hall. apply Hall. exact Hin.
  - apply IH; assumption.
Qed.

(** X14.  The stages of a run never interleave.  Of any two calls of a
    run, the earlier one belongs to the same or to an earlier stage of
    the script: validation, clone, checkout, detection of the touched
    projects, listing, reconciliation, installation, generation, and then
    the git client with its commands in their order.  So no fragment is
    removed once the installation or a generation has started, nothing is
    generated before the reconciliation is over, and no child process runs
    once the git client exists. *)
Theorem stages_never_interleave env prNumber options t1 ev1 t2 ev2 t3 a b :
  snd (run env prNumber options) = t1 ++ ev1 :: t2 ++ ev2 :: t3 ->
  stageOf ev1 = Some a -> stageOf ev2 = Some b -> a <= b.
Proof.
  intros HT Ha Hb.
  pose proof (run_stages_sorted env prNumber options) as Hs.
  rewrite HT in Hs.
  assert (Heq : stages (t1 ++ ev1 :: t2 ++ ev2 :: t3)
                = stages t1 ++ a :: (stages t2 ++ b :: stages t3)).
  { rewrite stages_app. cbn [stages flat_map]. rewrite Ha. cbn [app].
    fold (stages (t2 ++ ev2 :: t3)). rewrite stages_app.
    cbn [stages flat_map]. rewrite Hb. reflexivity. }
  rewrite Heq in Hs. apply (sorted_between _ _ _ _ Hs).
  apply in_or_app. right. left. reflexivity.
Qed.

Lemma stages_witness :
  let T := snd (run (Demo.world Demo.healthy) "1234" Demo.options) in
  let rm := Call_execSync "rm /tmp/clone/docs/changelog/1234-add-thing" "/tmp/clone" None in
  let push := Git_push "origin" "add/thing" None in
  T = firstn 19 T ++ rm :: firstn 15 (skipn 20 T) ++ push :: skipn 36 T
  /\ stageOf rm = Some 7 /\ stageOf push = Some 16 /\ 7 <= 16.
Proof.
  cbv zeta.
  assert (HT : snd (run (Demo.world Demo.healthy) "1234" Demo.options)
               = firstn 19 (snd (run (Demo.world Demo.healthy) "1234" Demo.options))
                   ++ Call_execSync "rm /tmp/clone/docs/changelog/1234-add-thing"
                        "/tmp/clone" None
                   :: firstn 15
                        (skipn 20 (snd (run (Demo.world Demo.healthy) "1234" Demo.options)))
                   ++ Git_push "origin" "add/thing" None
                   :: skipn 36 (snd (run (Demo.world Demo.healthy) "1234" Demo.options)))
    by reflexivity.
  split; [exact HT|]. split; [reflexivity|]. split; [reflexivity|].
  exact (stages_never_interleave (Demo.world Demo.healthy) "1234" Demo.options
           _ _ _ _ _ 7 16 HT eq_refl eq_refl).
Defined.

(** ** The order of the reconciliation *)

Lemma testedPaths_app (a b : Trace) : testedPaths (a ++ b) = testedPaths a ++ testedPaths b.
Proof. apply flat_map_app. Qed.

Lemma testedPaths_clean (t : Trace) : existsb calledInTry t = false -> testedPaths t = [].
Proof.
  induction t as [|ev t IH]; [reflexivity|]. cbn [existsb]. intros H.
  apply orb_false_iff in H as [Hev Ht]. cbn [testedPaths flat_map].
  fold (testedPaths t). rewrite (IH Ht).
  destruct ev; try discriminate Hev; reflexivity.
Qed.

Lemma testedPaths_removals env tmpRepoPath file done :
  testedPaths (flat_map (removalEvents env tmpRepoPath file) done)
  = map (fragmentPath env tmpRepoPath file) (map fst done).
Proof.
  induction done as [|[p b] done IH]; [reflexivity|].
  cbn [flat_map map fst]. rewrite testedPaths_app, IH. destruct b; reflexivity.
Qed.

Lemma testedPaths_generations tmpRepoPath file d r l :
  testedPaths (flat_map (generationEvents tmpRepoPath file d r) l) = [].
Proof.
  induction l as [|p l IH]; [reflexivity|].
  cbn [flat_map]. rewrite testedPaths_app, IH. reflexivity.
Qed.

Lemma BodyShape_tested env tmpRepoPath file dev d touched o evs tmp' paths :
  BodyShape env tmpRepoPath file dev d touched o evs ->
  In (Call_getAllProjectPaths tmp' (inr paths)) evs ->
  tmp' = tmpRepoPath
  /\ ((testedPaths evs = map (fragmentPath env tmpRepoPath file) paths
       /\ existsb isReconcileFailure evs = false)
      \/ exists before p after e,
           paths = before ++ p :: after
           /\ In (Call_execSync ("rm " ++ fragmentPath env tmpRepoPath file p)%string
                    tmpRepoPath (Some e)) evs
           /\ testedPaths evs
              = map (fragmentPath env tmpRepoPath file) (before ++ [p])).
Proof.
  intros H Hin. destruct H; in_cases Hin; try in_flat Hin.
  all: injection Hin as <- <-; (split; [reflexivity|]).
  all: rewrite ?testedPaths_app, ?testedPaths_removals, ?testedPaths_generations.
  - right. exists (map fst done), p, post, e. split; [reflexivity|].
    split; [unfold removalFailure; in_solve|].
    rewrite map_app. reflexivity.
  - left. split; [cbn [testedPaths flat_map app]; rewrite app_nil_r; reflexivity|].
    rewrite !existsb_app, removalEvents_no_reconcile_failure. reflexivity.
  - left. split; [cbn [testedPaths flat_map app]; rewrite app_nil_r; reflexivity|].
    rewrite !existsb_app, removalEvents_no_reconcile_failure. reflexivity.
  - left. split.
    + destruct (truthy dev); cbn [testedPaths flat_map app]; rewrite app_nil_r; reflexivity.
    + rewrite !existsb_app, removalEvents_no_reconcile_failure,
        generations_no_reconcile_failure.
      destruct (truthy dev); reflexivity.
  - left. split.
    + destruct (truthy dev); cbn [testedPaths flat_map app]; rewrite app_nil_r; reflexivity.
    + rewrite !existsb_app, removalEvents_no_reconcile_failure,
        generations_no_reconcile_failure.
      destruct (truthy dev); reflexivity.
Qed.

(** X15.  The reconciliation visits the projects in the order
    [getAllProjectPaths] listed them and stops at the first removal that
    fails.  Either no listing or removal failed and the paths tested are
    the fragment paths of all the listed projects, in order; or the [rm]
    of the fragment of a project [p] threw, and the paths tested are
    those of the projects up to and including [p]: the projects listed
    after [p] are not looked at. *)
Theorem reconciliation_follows_the_listing env prNumber options tmpRepoPath paths :
  In (Call_getAllProjectPaths tmpRepoPath (inr paths)) (snd (run env prNumber options)) ->
  exists pr,
    In (Call_getPullRequestData (owner options) (name options) prNumber (inr pr))
       (snd (run env prNumber options))
    /\ ((testedPaths (snd (run env prNumber options))
         = map (fragmentPath env tmpRepoPath (fileName pr)) paths
         /\ existsb isReconcileFailure (snd (run env prNumber options)) = false)
        \/ exists before p after e,
             paths = before ++ p :: after
             /\ In (Call_execSync
                      ("rm " ++ fragmentPath env tmpRepoPath (fileName pr) p)%string
                      tmpRepoPath (Some e))
                   (snd (run env prNumber options))
             /\ testedPaths (snd (run env prNumber options))
                = map (fragmentPath env tmpRepoPath (fileName pr)) (before ++ [p])).
Proof.
  intros Hin.
  destruct (in_try_block env prNumber options _ Hin eq_refl)
    as (pr & d & tmp & touched & ob & evs & rest & Hbody & HT & Hevs & Hrest).
  destruct (BodyShape_tested _ _ _ _ _ _ _ _ _ _ Hbody Hevs) as (-> & Hcases).
  exists pr. rewrite HT.
  split; [apply in_or_app; left; apply prefixEvents_fetch|].
  assert (Htested : testedPaths (prefixEvents prNumber options pr d tmp touched
                                   ++ evs ++ rest) = testedPaths evs).
  { rewrite !testedPaths_app, (testedPaths_clean rest Hrest), app_nil_r.
    rewrite testedPaths_clean; [reflexivity|]. apply prefixEvents_clean. by_kind. }
  rewrite Htested.
  destruct Hcases as [[Hall Hok] | (before & p & after & e & Hp & Hrm & Hsome)].
  - left. split; [exact Hall|].
    rewrite !existsb_app, Hok, (prefixEvents_clean isReconcileFailure) by by_kind.
    apply (disjoint_clean (fun ev => negb (calledInTry ev))).
    + rewrite forallb_forall. intros ev Hev.
      destruct (calledInTry ev) eqn:Hc; [|reflexivity].
      exfalso. apply (in_clean calledInTry _ _ Hev Hc Hrest).
    + intros [] Hev; try reflexivity; discriminate Hev.
  - right. exists before, p, after, e. split; [exact Hp|]. split; [|exact Hsome].
    apply in_or_app. right. apply in_or_app. left. exact Hrm.
Qed.

Lemma reconciliation_order_witness :
  let T := snd (run (Demo.world Demo.healthy) "1234" Demo.options) in
  In (Call_getAllProjectPaths "/tmp/clone"
        (inr ["plugins/woocommerce"; "packages/js/data"; "docs"]%string)) T
  /\ testedPaths T
     = ["/tmp/clone/plugins/woocommerce/changelog/1234-add-thing";
        "/tmp/clone/packages/js/data/changelog/1234-add-thing";
        "/tmp/clone/docs/changelog/1234-add-thing"]%string
  /\ exists pr,
       In (Call_getPullRequestData (owner Demo.options) (name Demo.options) "1234" (inr pr)) T.
Proof.
  cbv zeta. split; [found|]. split; [reflexivity|].
  destruct (reconciliation_follows_the_listing (Demo.world Demo.healthy) "1234" Demo.options
              "/tmp/clone" ["plugins/woocommerce"; "packages/js/data"; "docs"]%string
              ltac:(found))
    as (pr & Hpr & _).
  exists pr. exact Hpr.
Defined.
